(** * Dataset curation and retrain-trigger scripts: model and properties

    The scripts under [training/scripts] are line-oriented batch tools written
    in Python.  This development embeds them in Rocq:

    - a Python [str] is a [string]; a character of code 0..254 stands for
      the code point of that number, and the character of code 255 for a
      lone surrogate, a code point between U+D800 and U+DFFF that
      [json.loads] reads from an escape and that no UTF-8 encoder accepts;
      [String.length] is [len] and the order on strings is the order Python
      uses for [sorted]; the other code points are not modelled;
    - a Python [float] is a primitive binary64 float, an [int] is a [Z];
    - a parsed JSON value is a [json] tree, a [dict] keeps its keys in
      insertion order;
    - what the interpreter and its libraries provide and the scripts only
      call (the JSON parser, SHA-256, the pseudo-random generator, [repr] of
      floats and strings, the parsers behind [float(s)] and [int(s)]) is a
      [Runtime], and every property is proved for every runtime;
    - files, the console and raised exceptions are explicit: a script is a
      function from a [world] to a result and a new [world]. *)

From Stdlib Require Import ZArith String Ascii List Lia Permutation.
From Stdlib Require Import PrimFloat SpecFloat FloatOps DecimalString.
From Stdlib Require FloatAxioms FloatLemmas Uint63.
From stdpp Require Import base option list sets gmap strings sorting.

Set Warnings "-inexact-float,-register-all,-clear-no-such-hyp".
Set Default Proof Using "Type".

(* ===================================================================== *)
(** * Python built-ins used by the scripts *)
(* ===================================================================== *)

Module Py.

(** ** Characters and strings *)

Definition chr (n : nat) : string := String (ascii_of_nat n) "".

Definition NL : string := chr 10.
Definition DQUOTE : string := chr 34.
Definition BACKSLASH : string := chr 92.

(** [str.isspace] on the code points of the model; a surrogate is no white
    space. *)
Definition isspace (c : ascii) : bool :=
  let n := nat_of_ascii c in
  (Nat.leb 9 n && Nat.leb n 13) || (Nat.leb 28 n && Nat.leb n 32)
  || Nat.eqb n 133 || Nat.eqb n 160.

Fixpoint lstrip (s : string) : string :=
  match s with
  | String c s' => if isspace c then lstrip s' else s
  | EmptyString => EmptyString
  end.

Fixpoint rstrip (s : string) : string :=
  match s with
  | EmptyString => EmptyString
  | String c s' =>
      match rstrip s' with
      | EmptyString => if isspace c then EmptyString else String c EmptyString
      | r => String c r
      end
  end.

Definition strip (s : string) : string := lstrip (rstrip s).

(** [not s] for a string [s]. *)
Definition is_empty (s : string) : bool :=
  match s with EmptyString => true | _ => false end.

(** [sep.join(l)] *)
Fixpoint join (sep : string) (l : list string) : string :=
  match l with
  | [] => ""
  | x :: l' =>
      match l' with
      | [] => x
      | _ => x +:+ sep +:+ join sep l'
      end
  end.

(** [s.split(sep)] for a one-character separator. *)
Fixpoint split (sep : ascii) (s : string) : list string :=
  match s with
  | EmptyString => [""]
  | String c s' =>
      if Ascii.eqb c sep then "" :: split sep s'
      else match split sep s' with
           | w :: ws => String c w :: ws
           | [] => [String c ""]
           end
  end.

(** [" " * n] *)
Fixpoint spaces (n : nat) : string :=
  match n with O => "" | S n' => String " " (spaces n') end.

(** [str(z)] for an [int]. *)
Definition str_of_Z (z : Z) : string := NilZero.string_of_int (Z.to_int z).

Definition hex_digit (n : nat) : ascii :=
  if Nat.ltb n 10 then ascii_of_nat (48 + n) else ascii_of_nat (87 + n).

(** The character that stands for a lone surrogate. *)
Definition surrogate : ascii := "255"%char.

(** No character of [s] is a lone surrogate. *)
Fixpoint surrogate_free (s : string) : bool :=
  match s with
  | EmptyString => true
  | String c s' => negb (Ascii.eqb c surrogate) && surrogate_free s'
  end.

(** [s.encode("utf-8")]: one byte for a code point below 128, two bytes
    from 128 on; [None] stands for the [UnicodeEncodeError] that a lone
    surrogate raises. *)
Fixpoint encode_utf8 (s : string) : option string :=
  match s with
  | EmptyString => Some EmptyString
  | String c s' =>
      if Ascii.eqb c surrogate then None
      else
        match encode_utf8 s' with
        | Some bytes =>
            let n := nat_of_ascii c in
            Some (if Nat.ltb n 128 then String c bytes
                  else String (ascii_of_nat (192 + n / 64))
                         (String (ascii_of_nat (128 + n mod 64)) bytes))
        | None => None
        end
  end.

(** Text-mode iteration over a file ([for line in f], universal newlines):
    a line ends at LF, at CR LF or at a lone CR; the terminator is handed
    over as LF, and a last line with no terminator is a line too. *)
Fixpoint file_lines (content : string) : list string :=
  match content with
  | EmptyString => []
  | String c rest =>
      if Ascii.eqb c "010" then NL :: file_lines rest
      else if Ascii.eqb c "013" then
        match rest with
        | String "010" rest' => NL :: file_lines rest'
        | _ => NL :: file_lines rest
        end
      else match file_lines rest with
           | [] => [String c ""]
           | line :: lines => String c line :: lines
           end
  end.

(** The text made of the given pieces, in order. *)
Definition text_of (pieces : list string) : string :=
  foldr String.append "" pieces.

(** No character of [s] ends a line. *)
Fixpoint one_line (s : string) : bool :=
  match s with
  | EmptyString => true
  | String c s' => negb (Ascii.eqb c "010") && negb (Ascii.eqb c "013") && one_line s'
  end.

(** A line handed over by the iteration over a file: it holds no line end
    but, possibly, the newline that is its last character. *)
Definition line_shape (l : string) : Prop :=
  ∃ s, one_line s = true ∧ (l = s ∨ l = s +:+ NL).

(** ** Numbers *)

(** [float(z)]: the nearest binary64 value, ties to even; [None] stands for
    the [OverflowError] of an integer beyond the range of floats. *)
Definition float_of_Z (z : Z) : option float :=
  match binary_normalize prec emax z 0 false with
  | S754_infinity _ | S754_nan => None
  | sf => Some (SF2Prim sf)
  end.

(** [int(f)]: truncation towards zero; [None] stands for the [ValueError]
    on NaN and the [OverflowError] on an infinity. *)
Definition int_of_float (f : float) : option Z :=
  match Prim2SF f with
  | S754_zero _ => Some 0%Z
  | S754_finite sign m e =>
      let magnitude :=
        if (0 <=? e)%Z then (Z.pos m * 2 ^ e)%Z else (Z.pos m / 2 ^ (- e))%Z in
      Some (if sign then (- magnitude)%Z else magnitude)
  | S754_infinity _ | S754_nan => None
  end.

(** ** Sequences *)

(** Index clamping of a slice bound, as [PySlice_AdjustIndices] does it. *)
Definition slice_index (len i : Z) : Z :=
  if (i <? 0)%Z then Z.max (i + len) 0 else Z.min i len.

(** [l[lo:hi]]; [None] is an omitted bound. *)
Definition slice {A} (lo hi : option Z) (l : list A) : list A :=
  let len := Z.of_nat (length l) in
  let start := match lo with Some i => slice_index len i | None => 0%Z end in
  let stop := match hi with Some i => slice_index len i | None => len end in
  take (Z.to_nat (stop - start)) (drop (Z.to_nat start) l).

(** [sorted(l, key=...)]: the sort is stable, so its result is the one of
    insertion sort. [le a b] says that the key of [a] is at most that of [b]. *)
Fixpoint insert_sorted {A} (le : A → A → bool) (x : A) (l : list A) : list A :=
  match l with
  | [] => [x]
  | y :: l' => if le x y then x :: y :: l' else y :: insert_sorted le x l'
  end.

Fixpoint sorted {A} (le : A → A → bool) (l : list A) : list A :=
  match l with
  | [] => []
  | x :: l' => insert_sorted le x (sorted le l')
  end.

(** [x[i], x[j] = x[j], x[i]] *)
Definition swap {A} (i j : nat) (x : list A) : list A :=
  match x !! i, x !! j with
  | Some a, Some b => <[j:=a]> (<[i:=b]> x)
  | _, _ => x
  end.

(** ** Insertion-ordered dictionaries with string keys *)

Fixpoint dict_lookup {A} (k : string) (d : list (string * A)) : option A :=
  match d with
  | [] => None
  | (k', v) :: d' => if decide (k = k') then Some v else dict_lookup k d'
  end.

(** [d[k] = v]: a present key keeps its place, a new key goes last. *)
Fixpoint dict_set {A} (k : string) (v : A) (d : list (string * A))
  : list (string * A) :=
  match d with
  | [] => [(k, v)]
  | (k', v') :: d' =>
      if decide (k = k') then (k', v) :: d' else (k', v') :: dict_set k v d'
  end.

End Py.

(* ===================================================================== *)
(** * JSON values *)
(* ===================================================================== *)

(** What [json.loads] returns: [None], [bool], [int], [float], [str],
    [list], and [dict] with string keys in insertion order. *)
Inductive json : Type :=
| JNull
| JBool (b : bool)
| JInt (z : Z)
| JFloat (f : float)
| JStr (s : string)
| JList (l : list json)
| JDict (d : list (string * json)).

(** A Python [dict] holds each key once, at every depth. *)
Inductive wf_json : json → Prop :=
| wf_null : wf_json JNull
| wf_bool b : wf_json (JBool b)
| wf_int z : wf_json (JInt z)
| wf_float f : wf_json (JFloat f)
| wf_str s : wf_json (JStr s)
| wf_list l : (∀ v, v ∈ l → wf_json v) → wf_json (JList l)
| wf_dict d :
    NoDup (d.*1) → (∀ k v, (k, v) ∈ d → wf_json v) → wf_json (JDict d).

(** Structural equality of two JSON values: the same scalars, lists equal
    position by position, dictionaries with the same keys mapped to equal
    values, whatever the order of the keys. *)
Inductive json_equiv : json → json → Prop :=
| equiv_null : json_equiv JNull JNull
| equiv_bool b : json_equiv (JBool b) (JBool b)
| equiv_int z : json_equiv (JInt z) (JInt z)
| equiv_float f : json_equiv (JFloat f) (JFloat f)
| equiv_str s : json_equiv (JStr s) (JStr s)
| equiv_list l1 l2 :
    length l1 = length l2 →
    (∀ i v1 v2, l1 !! i = Some v1 → l2 !! i = Some v2 → json_equiv v1 v2) →
    json_equiv (JList l1) (JList l2)
| equiv_dict d1 d2 :
    (∀ k, is_Some (Py.dict_lookup k d1) ↔ is_Some (Py.dict_lookup k d2)) →
    (∀ k v1 v2, Py.dict_lookup k d1 = Some v1 → Py.dict_lookup k d2 = Some v2 →
                json_equiv v1 v2) →
    json_equiv (JDict d1) (JDict d2).

(** [d.get(k)]: [None] when the key is absent. *)
Definition dict_get (d : list (string * json)) (k : string) : json :=
  default JNull (Py.dict_lookup k d).

(** [d.get(k, dflt)] *)
Definition dict_get_or (d : list (string * json)) (k : string) (dflt : json) : json :=
  default dflt (Py.dict_lookup k d).

(** Truth value of a JSON value ([bool(v)]). *)
Definition truthy (v : json) : bool :=
  match v with
  | JNull => false
  | JBool b => b
  | JInt z => negb (z =? 0)%Z
  | JFloat f => negb (PrimFloat.eqb f 0%float)
  | JStr s => negb (Py.is_empty s)
  | JList l => match l with [] => false | _ => true end
  | JDict d => match d with [] => false | _ => true end
  end.

(** [a or b] *)
Definition py_or (a b : json) : json := if truthy a then a else b.

(* ===================================================================== *)
(** * The runtime: library functions the scripts call *)
(* ===================================================================== *)

Class Runtime : Type := {
  (** [json.loads(s)]; [None] when it raises. *)
  json_loads : string → option json;
  (** [hashlib.sha256(b).hexdigest()] of a byte string. *)
  sha256_hexdigest : string → string;
  (** [repr] of a float and of a string. *)
  float_repr : float → string;
  str_repr : string → string;
  (** [float(s)] and [int(s)] of a string; [None] when they raise. *)
  float_of_str : string → option float;
  int_of_str : string → option Z;
  (** The generator behind [random.Random(seed)]: its states, seeding, and
      the draw [_randbelow(n)]. *)
  rng : Type;
  rng_seed : Z → rng;
  randbelow : nat → rng → nat * rng;
  (** [datetime.utcnow().isoformat()] at the n-th reading of the clock. *)
  utc_isoformat : nat → string
}.

(* ===================================================================== *)
(** * Formatting: [repr], [str] and [json.dumps] *)
(* ===================================================================== *)

Section Formatting.
Context {RT : Runtime}.

(** [repr(v)] *)
Fixpoint py_repr (v : json) : string :=
  match v with
  | JNull => "None"
  | JBool true => "True"
  | JBool false => "False"
  | JInt z => Py.str_of_Z z
  | JFloat f => float_repr f
  | JStr s => str_repr s
  | JList l => "[" +:+ Py.join ", " (map py_repr l) +:+ "]"
  | JDict d =>
      "{" +:+ Py.join ", "
                (map (λ '(k, x), str_repr k +:+ ": " +:+ py_repr x) d) +:+ "}"
  end.

(** [str(v)]; also what an f-string writes for [{v}]. *)
Definition py_str (v : json) : string :=
  match v with
  | JStr s => s
  | _ => py_repr v
  end.

(** The replacement of one character inside a JSON string literal
    ([ensure_ascii=False]): the quote, the backslash and the control
    characters are escaped, everything else is copied. *)
Definition json_escape_char (c : ascii) : string :=
  let n := nat_of_ascii c in
  if Nat.eqb n 34 then Py.BACKSLASH +:+ Py.DQUOTE
  else if Nat.eqb n 92 then Py.BACKSLASH +:+ Py.BACKSLASH
  else if Nat.eqb n 10 then Py.BACKSLASH +:+ "n"
  else if Nat.eqb n 13 then Py.BACKSLASH +:+ "r"
  else if Nat.eqb n 9 then Py.BACKSLASH +:+ "t"
  else if Nat.eqb n 8 then Py.BACKSLASH +:+ "b"
  else if Nat.eqb n 12 then Py.BACKSLASH +:+ "f"
  else if Nat.ltb n 32 then
    Py.BACKSLASH +:+ "u00" +:+
      String (Py.hex_digit (n / 16)) (String (Py.hex_digit (n mod 16)) "")
  else String c "".

Fixpoint json_escape (s : string) : string :=
  match s with
  | EmptyString => EmptyString
  | String c s' => json_escape_char c +:+ json_escape s'
  end.

Definition json_string (s : string) : string :=
  Py.DQUOTE +:+ json_escape s +:+ Py.DQUOTE.

Definition json_float (f : float) : string :=
  if negb (PrimFloat.eqb f f) then "NaN"
  else if PrimFloat.eqb f infinity then "Infinity"
  else if PrimFloat.eqb f neg_infinity then "-Infinity"
  else float_repr f.

(** What follows an opening bracket, what separates two items and what
    precedes the closing bracket; [indent = None] is the one-line form. *)
Definition json_open (indent : option nat) (level : nat) : string :=
  match indent with
  | None => ""
  | Some n => Py.NL +:+ Py.spaces (n * S level)
  end.

Definition json_item_sep (indent : option nat) (level : nat) : string :=
  match indent with
  | None => ", "
  | Some n => "," +:+ Py.NL +:+ Py.spaces (n * S level)
  end.

Definition json_close (indent : option nat) (level : nat) : string :=
  match indent with
  | None => ""
  | Some n => Py.NL +:+ Py.spaces (n * level)
  end.

Definition key_le {A} (a b : string * A) : bool := String.leb a.1 b.1.

(** The order [key_le] decides. *)
Definition key_order {A} : relation (string * A) := λ a b, String.le a.1 b.1.

(** [json.dumps(v, sort_keys=..., indent=..., ensure_ascii=False)] at a
    nesting level.  With [sort_keys] the items of a dictionary are written
    in the order of [sorted]; the keys of a dictionary are distinct, so the
    order depends on the keys only and the values may be written first. *)
Fixpoint json_encode (sort_keys : bool) (indent : option nat) (level : nat)
    (v : json) : string :=
  match v with
  | JNull => "null"
  | JBool true => "true"
  | JBool false => "false"
  | JInt z => Py.str_of_Z z
  | JFloat f => json_float f
  | JStr s => json_string s
  | JList l =>
      match l with
      | [] => "[]"
      | _ =>
          "[" +:+ json_open indent level +:+
          Py.join (json_item_sep indent level)
            (map (json_encode sort_keys indent (S level)) l) +:+
          json_close indent level +:+ "]"
      end
  | JDict d =>
      match d with
      | [] => "{}"
      | _ =>
          let items :=
            map (λ '(k, x), (k, json_encode sort_keys indent (S level) x)) d in
          let items := if sort_keys then Py.sorted key_le items else items in
          "{" +:+ json_open indent level +:+
          Py.join (json_item_sep indent level)
            (map (λ '(k, s), json_string k +:+ ": " +:+ s) items) +:+
          json_close indent level +:+ "}"
      end
  end.

(** An item of a dictionary with its value written. *)
Definition encode_item (sort_keys : bool) (indent : option nat) (level : nat)
    (kv : string * json) : string * string :=
  (kv.1, json_encode sort_keys indent (S level) kv.2).

Definition json_dumps (sort_keys : bool) (v : json) : string :=
  json_encode sort_keys None 0 v.

Definition json_dumps_indent (n : nat) (v : json) : string :=
  json_encode false (Some n) 0 v.

End Formatting.

(* ===================================================================== *)
(** * Exceptions, files and console *)
(* ===================================================================== *)

(** The ways a script stops early. *)
Inductive exn : Type :=
| SystemExit (message : string)      (* [raise SystemExit(message)] *)
| SysExit (status : Z)               (* [sys.exit(status)] *)
| FileNotFoundError (path : string)
| JSONDecodeError
| AttributeError
| TypeError
| ValueError
| OverflowError
| StatisticsError
| UnicodeEncodeError.

Global Instance exn_eq_dec : EqDecision exn.
Proof. solve_decision. Defined.

Definition result (A : Type) : Type := exn + A.

Definition ok {A} (x : A) : result A := inr x.
Definition throw {A} (e : exn) : result A := inl e.

Definition result_bind {A B} (m : result A) (k : A → result B) : result B :=
  match m with
  | inl e => inl e
  | inr x => k x
  end.

(** A missing value raises [e]. *)
Definition or_raise {A} (e : exn) (o : option A) : result A :=
  match o with
  | Some x => inr x
  | None => inl e
  end.

(** What a run leaves behind in the order it happens. *)
Inductive event : Type :=
| EvMakedirs (path : string)
| EvOpen (path : string) (mode : string)
| EvStdout (text : string)
| EvStderr (text : string).

(** The files by path, the log of I/O performed, and the number of clock
    readings taken so far. *)
Record world : Type := World {
  files : gmap string string;
  trace : list event;
  clock : nat
}.

Definition IO (A : Type) : Type := world → result A * world.

Definition io_ret {A} (x : A) : IO A := λ w, (inr x, w).

Definition io_bind {A B} (m : IO A) (k : A → IO B) : IO B :=
  λ w, match m w with
       | (inl e, w') => (inl e, w')
       | (inr x, w') => k x w'
       end.

Definition io_raise {A} (e : exn) : IO A := λ w, (inl e, w).

Definition io_lift {A} (r : result A) : IO A := λ w, (r, w).

Declare Scope io_scope.
Delimit Scope io_scope with io.
Notation "x <- m ;; k" := (io_bind m (λ x, k))
  (at level 100, m at next level, right associativity) : io_scope.
Notation "m ;; k" := (io_bind m (λ _, k))
  (at level 100, right associativity) : io_scope.

Declare Scope result_scope.
Delimit Scope result_scope with res.
Notation "x <- m ;; k" := (result_bind m (λ x, k))
  (at level 100, m at next level, right associativity) : result_scope.

Definition log (ev : event) : IO unit :=
  λ w, (inr (), World (files w) (trace w ++ [ev]) (clock w)).

Definition set_file (path content : string) : IO unit :=
  λ w, (inr (), World (<[path := content]> (files w)) (trace w) (clock w)).

(** [print(text)] and [print(text, file=sys.stderr)] *)
Definition print (text : string) : IO unit := log (EvStdout text).
Definition eprint (text : string) : IO unit := log (EvStderr text).

(** [os.path.dirname(p)] (POSIX): what precedes the last slash, without
    its trailing slashes unless it consists of slashes only. *)
Fixpoint dirname_go (seen : string) (head : string) (p : string) : string :=
  match p with
  | EmptyString => head
  | String c p' =>
      let seen' := seen +:+ String c "" in
      dirname_go seen' (if Ascii.eqb c "/" then seen' else head) p'
  end.

Fixpoint all_slashes (s : string) : bool :=
  match s with
  | EmptyString => true
  | String c s' => Ascii.eqb c "/" && all_slashes s'
  end.

Fixpoint rstrip_slashes (s : string) : string :=
  match s with
  | EmptyString => EmptyString
  | String c s' =>
      match rstrip_slashes s' with
      | EmptyString => if Ascii.eqb c "/" then EmptyString else String c EmptyString
      | r => String c r
      end
  end.

Definition os_path_dirname (p : string) : string :=
  let head := dirname_go "" "" p in
  if negb (Py.is_empty head) && negb (all_slashes head) then rstrip_slashes head
  else head.

(** [os.path.join(a, b)] for a relative [b]. *)
Definition os_path_join (a b : string) : string :=
  if Py.is_empty a then b
  else if String.eqb a (rstrip_slashes a) then a +:+ "/" +:+ b
  else a +:+ b.

(** [os.makedirs(path, exist_ok=True)]: the empty path is refused with
    [FileNotFoundError]; any other is taken to be accepted, which is what
    the host does under [can_make] below. *)
Definition os_makedirs (path : string) : IO unit :=
  if Py.is_empty path then io_raise (FileNotFoundError path)
  else log (EvMakedirs path).

(** [open(path, "r")]: the file must exist. *)
Definition open_read (path : string) : IO unit :=
  λ w, match files w !! path with
       | Some _ => log (EvOpen path "r") w
       | None => (inl (FileNotFoundError path), World (files w) (trace w ++ [EvOpen path "r"]) (clock w))
       end.

(** [open(path, "w")]: the file is created or emptied.  The path is taken
    for the file, which is what the host does under [can_create] below. *)
Definition open_write (path : string) : IO unit :=
  (log (EvOpen path "w") ;; set_file path "")%io.

(** [open(path, "a")]: the file is created when missing, kept otherwise;
    the path is taken for the file, as for [open_write]. *)
Definition open_append (path : string) : IO unit :=
  (log (EvOpen path "a") ;;
   λ w, set_file path (default "" (files w !! path)) w)%io.

(** The text of an open file, as the iteration over its lines sees it. *)
Definition read_text (path : string) : IO string :=
  λ w, (inr (default "" (files w !! path)), w).

(** [f.write(data)] on a file open for writing or appending. *)
Definition write_text (path data : string) : IO unit :=
  λ w, set_file path (default "" (files w !! path) +:+ data) w.

(** A [for] loop whose body performs I/O. *)
Fixpoint io_for {A} (l : list A) (body : A → IO unit) : IO unit :=
  match l with
  | [] => io_ret ()
  | x :: l' => (body x ;; io_for l' body)%io
  end.

(** ** What the file model takes for granted

    [files w] stands for the regular files below the working directory,
    each under its path; the directories are those on the way to a file.
    [os_makedirs], [open_write], [open_append] and [write_text] look at the
    path and the text no further: a path is the file it names, a directory
    is there when it is needed, and every text can be written.  The host
    does the same when the paths are in normal form, so that two paths are
    two files, when no file stands where a directory is needed and no
    directory where a file is, and when the text holds no lone surrogate.
    The conditions below say so, and a property that depends on them
    names them.  What remains taken for granted is that the host grants
    the access: the process may read and write below the working
    directory, no path is a link, and the disk has room. *)

(** A character of a file name: printable ASCII, the slash excepted. *)
Definition name_char (c : ascii) : bool :=
  let n := nat_of_ascii c in
  Nat.leb 32 n && Nat.leb n 126 && negb (Nat.eqb n 47).

(** A plain file name: 1 to 255 such characters, other than [.] and
    [..]. *)
Definition plain_name (p : string) : bool :=
  negb (Py.is_empty p) && Nat.leb (String.length p) 255
  && forallb name_char (list_ascii_of_string p)
  && negb (String.eqb p ".") && negb (String.eqb p "..").

(** A relative path in normal form: plain names separated by single
    slashes, 1024 characters at most. *)
Definition normal_path (p : string) : bool :=
  Nat.leb (String.length p) 1024 && forallb plain_name (Py.split "/" p).

(** [q] lies below the directory [p]. *)
Definition below (p q : string) : bool := String.prefix (p +:+ "/") q.

(** The files of [w] form a tree: each has a path in normal form and none
    lies below another. *)
Definition tree (w : world) : Prop :=
  ∀ p, is_Some (files w !! p) →
    normal_path p = true ∧ ∀ q, is_Some (files w !! q) → below p q = false.

(** No file of [w] lies below [p]: [p] is no directory. *)
Definition no_directory_at (w : world) (p : string) : Prop :=
  ∀ q, is_Some (files w !! q) → below p q = false.

(** [os.makedirs(d, exist_ok=True)] succeeds: [d] is in normal form, no
    file is at [d] and [d] lies below no file. *)
Definition can_make (w : world) (d : string) : Prop :=
  normal_path d = true
  ∧ ∀ q, is_Some (files w !! q) → q ≠ d ∧ below q d = false.

(** [open(p, "w")] and [open(p, "a")] succeed: [p] is in normal form, it
    is no directory and lies below no file, and its directory is there, as
    the working directory or as the directory of a file of [w]. *)
Definition can_create (w : world) (p : string) : Prop :=
  normal_path p = true
  ∧ (∀ q, is_Some (files w !! q) → below p q = false ∧ below q p = false)
  ∧ (os_path_dirname p = ""
     ∨ ∃ q, is_Some (files w !! q) ∧ below (os_path_dirname p) q = true).

(* ===================================================================== *)
(** * Helpers shared by the scripts *)
(* ===================================================================== *)

(** [get_path(obj, path)], defined alike in validate_jsonl.py,
    group_split_jsonl.py and stats_report.py; the [None] it returns is
    [JNull]. *)
Fixpoint walk (cur : json) (parts : list string) : json :=
  match parts with
  | [] => cur
  | part :: rest =>
      match cur with
      | JDict d =>
          match Py.dict_lookup part d with
          | Some v => walk v rest
          | None => JNull
          end
      | _ => JNull
      end
  end.

Definition get_path (obj : json) (path : string) : json :=
  walk obj (Py.split "." path).

(** [obj.get(k)] and [obj.get(k, dflt)]: only a [dict] has the method. *)
Definition obj_get (obj : json) (k : string) : result json :=
  match obj with
  | JDict d => ok (dict_get d k)
  | _ => throw AttributeError
  end.

Definition obj_get_or (obj : json) (k : string) (dflt : json) : result json :=
  match obj with
  | JDict d => ok (dict_get_or d k dflt)
  | _ => throw AttributeError
  end.

(** The items a [for] loop sees: the elements of a list, the keys of a
    dict, the characters of a string; nothing else can be iterated. *)
Fixpoint chars (s : string) : list json :=
  match s with
  | EmptyString => []
  | String c s' => JStr (String c "") :: chars s'
  end.

Definition py_iter (v : json) : result (list json) :=
  match v with
  | JList l => ok l
  | JDict d => ok (map (λ kv, JStr kv.1) d)
  | JStr s => ok (chars s)
  | _ => throw TypeError
  end.

(** [int(f)] of a float, with its two errors. *)
Definition py_int_of_float (f : float) : result Z :=
  match Py.int_of_float f with
  | Some z => ok z
  | None => throw (if PrimFloat.eqb f f then OverflowError else ValueError)
  end.

(** [n * frac] for an int [n] and a float [frac], then [int(...)]. *)
Definition int_of_product (n : nat) (frac : float) : result Z :=
  (nf <- or_raise OverflowError (Py.float_of_Z (Z.of_nat n)) ;;
   py_int_of_float (PrimFloat.mul nf frac))%res.

(** A float that is not a negative number: a zero, a positive number, the
    positive infinity or NaN. *)
Definition not_negative (x : spec_float) : Prop :=
  match x with
  | S754_finite sign _ _ => sign = false
  | S754_infinity sign => sign = false
  | S754_zero _ | S754_nan => True
  end.

(** [a / b] for two ints: the quotient as a float. The conversion of the
    operands is exact below 2^53, which lengths of texts are. *)
Definition int_true_div (a b : Z) : result float :=
  (fa <- or_raise OverflowError (Py.float_of_Z a) ;;
   fb <- or_raise OverflowError (Py.float_of_Z b) ;;
   ok (PrimFloat.div fa fb))%res.

(** [random.Random(seed).shuffle(x)]: for [i] from [len(x) - 1] down to 1,
    draw [j = randbelow(i + 1)] and exchange [x[i]] and [x[j]]. *)
Section Shuffle.
Context {RT : Runtime}.

Fixpoint shuffle_from {A} (i : nat) (x : list A) (g : rng) : list A :=
  match i with
  | O => x
  | S i' =>
      let '(j, g') := randbelow (S i) g in
      shuffle_from i' (Py.swap i j x) g'
  end.

Definition shuffle {A} (seed : Z) (x : list A) : list A :=
  shuffle_from (length x - 1) x (rng_seed seed).

(** [float(v)] and [int(v)] of a JSON value. *)
Definition py_float (v : json) : result float :=
  match v with
  | JInt z => or_raise OverflowError (Py.float_of_Z z)
  | JFloat f => ok f
  | JBool b => ok (if b then 1%float else 0%float)
  | JStr s => or_raise ValueError (float_of_str s)
  | JNull | JList _ | JDict _ => throw TypeError
  end.

Definition py_int (v : json) : result Z :=
  match v with
  | JInt z => ok z
  | JFloat f => py_int_of_float f
  | JBool b => ok (if b then 1%Z else 0%Z)
  | JStr s => or_raise ValueError (int_of_str s)
  | JNull | JList _ | JDict _ => throw TypeError
  end.

(** [datetime.utcnow().isoformat()]: one more reading of the clock. *)
Definition utcnow : IO string :=
  λ w, (inr (utc_isoformat (clock w)), World (files w) (trace w) (S (clock w))).

(** The check both splitters start with:
    [abs((train + val + test) - 1.0) > 1e-9]. *)
Definition fractions_off (train val test : float) : bool :=
  PrimFloat.ltb 1e-9%float
    (PrimFloat.abs (PrimFloat.sub (PrimFloat.add (PrimFloat.add train val) test) 1%float)).

(** [write(path, lines)] of both splitters: the file is rewritten, every
    line without its trailing white space and followed by a newline. *)
Definition write_lines (path : string) (lines : list string) : IO unit :=
  (open_write path ;;
   io_for lines (λ ln, write_text path (Py.rstrip ln +:+ Py.NL)))%io.

End Shuffle.

(** ** Membership and subscripts *)

(** [k in s] for two strings: [k] occurs in [s]. *)
Fixpoint is_substring (k s : string) : bool :=
  String.prefix k s ||
  match s with
  | EmptyString => false
  | String _ s' => is_substring k s'
  end.

(** [k in d] for a dict [d]. *)
Definition has_key (d : list (string * json)) (k : string) : bool :=
  bool_decide (is_Some (Py.dict_lookup k d)).

(** [k in obj] for a string [k]: a key of a dict, an element of a list, a
    part of a string; the other values cannot be searched. *)
Definition py_contains (k : string) (obj : json) : result bool :=
  match obj with
  | JDict d => ok (has_key d k)
  | JList l => ok (existsb (λ v, match v with
                                 | JStr s => String.eqb s k
                                 | _ => false
                                 end) l)
  | JStr s => ok (is_substring k s)
  | JNull | JBool _ | JInt _ | JFloat _ => throw TypeError
  end.

(** [obj[k]] for a string [k].  The scripts subscript a record only after
    a test that finds the key in it ([k in obj], or a truthy [obj.get(k)]),
    so a dict holds the key and [obj[k]] is [obj.get(k)]; a list or a
    string that passed the test cannot be subscripted by a string. *)
Definition item_of (obj : json) (k : string) : result json :=
  match obj with
  | JDict d => ok (dict_get d k)
  | _ => throw TypeError
  end.

(** [all(k in obj for k in ks)] *)
Fixpoint all_in (ks : list string) (obj : json) : result bool :=
  match ks with
  | [] => ok true
  | k :: rest =>
      (present <- py_contains k obj ;;
       if present : bool then all_in rest obj else ok false)%res
  end.

(** [a in obj and b in obj] *)
Definition both_in (a b : string) (obj : json) : result bool :=
  (present <- py_contains a obj ;;
   if present : bool then py_contains b obj else ok false)%res.

(** [if option]: an option of the command line that is given and not
    empty. *)
Definition given (o : option string) : option string :=
  match o with
  | Some p => if Py.is_empty p then None else Some p
  | None => None
  end.

(** The record on a line of a JSONL file: nothing for a blank line or a
    line the JSON parser refuses. *)
Definition record_of `{RT : Runtime} (raw : string) : option json :=
  let line := Py.strip raw in
  if Py.is_empty line then None else json_loads line.

(** A line that is not blank: the lines the scripts count as input. *)
Definition nonblank (raw : string) : bool := negb (Py.is_empty (Py.strip raw)).

(** The text of a JSONL file holding the given records, one per line, as
    [json.dumps(r, ensure_ascii=False) + "\n"] writes them. *)
Definition jsonl `{RT : Runtime} (records : list json) : string :=
  Py.text_of (map (λ r, json_dumps false r +:+ Py.NL) records).

(** The runtime writes every float on one line. *)
Definition float_repr_one_line `{RT : Runtime} : Prop :=
  ∀ f, Py.one_line (float_repr f) = true.

(* ===================================================================== *)
(** * validate_jsonl.py *)
(* ===================================================================== *)

Module Validate.
Section Defs.
Context {RT : Runtime}.

Definition roles : list string := ["system"; "user"; "assistant"; "tool"].

(** [v not in roles]: looking a list or a dict up in a set raises
    [TypeError], any other value that is not one of the four strings is
    simply not in the set. *)
Definition not_in_roles (v : json) : result bool :=
  match v with
  | JStr s => ok (negb (bool_decide (s ∈ roles)))
  | JList _ | JDict _ => throw TypeError
  | _ => ok true
  end.

(** [not isinstance(c, str) or not c.strip()] *)
Definition bad_content (c : json) : bool :=
  match c with
  | JStr s => Py.is_empty (Py.strip s)
  | _ => true
  end.

(** The loop over [enumerate(msgs)]: the reason of the first failing
    message, if any. *)
Fixpoint check_messages (i : nat) (msgs : list json) : result (option string) :=
  match msgs with
  | [] => ok None
  | m :: rest =>
      match m with
      | JDict md =>
          (bad_role <- not_in_roles (dict_get md "role") ;;
           if bad_role : bool then
             ok (Some ("message[" +:+ Py.str_of_Z (Z.of_nat i) +:+ "] invalid role"))
           else if bad_content (dict_get md "content") then
             ok (Some ("message[" +:+ Py.str_of_Z (Z.of_nat i) +:+ "] missing content"))
           else check_messages (S i) rest)%res
      | _ => ok (Some ("message[" +:+ Py.str_of_Z (Z.of_nat i) +:+ "] not object"))
      end
  end.

(** [m.get("role") == role] for an entry that passed [check_messages]. *)
Definition has_role (role : string) (m : json) : bool :=
  match m with
  | JDict md =>
      match dict_get md "role" with
      | JStr s => bool_decide (s = role)
      | _ => false
      end
  | _ => false
  end.

(** [validate_chat(obj)]: the pair [(ok, reason)]. *)
Definition validate_chat (obj : json) : result (bool * option string) :=
  (msgs <- obj_get obj "messages" ;;
   match msgs with
   | JList ms =>
       if Nat.ltb (length ms) 2 then ok (false, Some "missing/invalid messages")
       else
         failure <- check_messages 0 ms ;;
         match failure with
         | Some reason => ok (false, Some reason)
         | None =>
             let has_user := existsb (has_role "user") ms in
             let has_assistant := existsb (has_role "assistant") ms in
             if negb (has_user && has_assistant) then
               ok (false, Some "need at least one user and one assistant message")
             else ok (true, None)
         end
   | _ => ok (false, Some "missing/invalid messages")
   end)%res.

(** The record of two turns, a user turn and an assistant turn. *)
Definition turn (role content : string) : json :=
  JDict [("role", JStr role); ("content", JStr content)].

Definition two_turns (c1 c2 : string) : json :=
  JDict [("messages", JList [turn "user" c1; turn "assistant" c2])].

(** Every entry is an object whose role is [user]. *)
Definition only_user_turns (msgs : list json) : Prop :=
  Forall (λ m, ∃ md, m = JDict md ∧ dict_get md "role" = JStr "user") msgs.

(** The loop of [validate_instruction] over the three keys: the reason of
    the first key that is missing or not bound to a string, if any. *)
Fixpoint check_fields (obj : json) (ks : list string) : result (option string) :=
  match ks with
  | [] => ok None
  | k :: rest =>
      (present <- py_contains k obj ;;
       if present : bool then
         v <- item_of obj k ;;
         match v with
         | JStr _ => check_fields obj rest
         | _ => ok (Some ("missing/invalid " +:+ k))
         end
       else ok (Some ("missing/invalid " +:+ k)))%res
  end.

(** [validate_instruction(obj)]: the pair [(ok, reason)]. *)
Definition validate_instruction (obj : json) : result (bool * option string) :=
  (failure <- check_fields obj ["instruction"; "input"; "output"] ;;
   match failure with
   | Some reason => ok (false, Some reason)
   | None =>
       out <- item_of obj "output" ;;
       match out with
       | JStr s =>
           if Py.is_empty (Py.strip s) then ok (false, Some "empty output")
           else ok (true, None)
       | _ => throw AttributeError
       end
   end)%res.

Inductive mode : Type := Chat | Instruction.

Record args : Type := Args {
  inp : string;
  mode_of : mode;
  require_meta : option string;
  out_bad : option string
}.

Definition validator (m : mode) : json → result (bool * option string) :=
  match m with
  | Chat => validate_chat
  | Instruction => validate_instruction
  end.

(** [v is None or (isinstance(v, str) and not v.strip())] *)
Definition meta_missing (v : json) : bool :=
  match v with
  | JNull => true
  | JStr s => Py.is_empty (Py.strip s)
  | _ => false
  end.

(** The verdict of [main] on a parsed record: the validator, then the
    required field when the validator accepts and a path is given. *)
Definition judge (a : args) (obj : json) : result (bool * option string) :=
  (verdict <- validator (mode_of a) obj ;;
   match given (require_meta a) with
   | Some path =>
       if verdict.1 && meta_missing (get_path obj path) then
         ok (false, Some ("missing required field: " +:+ path))
       else ok verdict
   | None => ok verdict
   end)%res.

(** The variables of the loop in [main]; [rejects] is what the loop hands
    to [bad_out], when there is one. *)
Record state : Type := State {
  n_in : nat;
  n_ok : nat;
  n_bad : nat;
  rejects : string
}.

Definition init : state := State 0 0 0 "".

Definition reason_json (reason : option string) : json :=
  match reason with
  | Some r => JStr r
  | None => JNull
  end.

(** The line written for a rejected record and for a line that is not
    JSON. *)
Definition reject_line (reason : option string) (obj : json) : string :=
  json_dumps false (JDict [("reason", reason_json reason); ("row", obj)]) +:+ Py.NL.

Definition invalid_line (line : string) : string :=
  json_dumps false (JDict [("reason", JStr "invalid_json"); ("raw", JStr line)])
  +:+ Py.NL.

(** One turn of [for line in fin]: the new state, and the exception that
    leaves the loop, if the validator raises one. *)
Definition step (a : args) (st : state) (raw : string) : state * option exn :=
  let line := Py.strip raw in
  if Py.is_empty line then (st, None)
  else
    let n_in' := S (n_in st) in
    match json_loads line with
    | None =>
        (State n_in' (n_ok st) (S (n_bad st)) (rejects st +:+ invalid_line line), None)
    | Some obj =>
        match judge a obj with
        | inl e => (State n_in' (n_ok st) (n_bad st) (rejects st), Some e)
        | inr (true, _) => (State n_in' (S (n_ok st)) (n_bad st) (rejects st), None)
        | inr (false, reason) =>
            (State n_in' (n_ok st) (S (n_bad st))
               (rejects st +:+ reject_line reason obj), None)
        end
    end.

Fixpoint run (a : args) (st : state) (lines : list string) : state * option exn :=
  match lines with
  | [] => (st, None)
  | raw :: rest =>
      match step a st raw with
      | (st', None) => run a st' rest
      | (st', Some e) => (st', Some e)
      end
  end.

Definition counts (st : state) : json :=
  JDict [("in", JInt (Z.of_nat (n_in st)));
         ("ok", JInt (Z.of_nat (n_ok st)));
         ("bad", JInt (Z.of_nat (n_bad st)))].

(** [main]: the file of the rejected rows is opened first, then the input;
    an exception of the validator ends the run after the rows rejected so
    far have been written. *)
Definition main (a : args) : IO unit :=
  (match given (out_bad a) with
   | Some path => open_write path
   | None => io_ret ()
   end ;;
   open_read (inp a) ;;
   text <- read_text (inp a) ;;
   let '(st, raised) := run a init (Py.file_lines text) in
   match given (out_bad a) with
   | Some path => write_text path (rejects st)
   | None => io_ret ()
   end ;;
   match raised with
   | Some e => io_raise e
   | None => eprint (json_dumps_indent 2 (counts st))
   end)%io.

(** A line whose record [main] counts as [ok]. *)
Definition accepted (a : args) (raw : string) : bool :=
  match record_of raw with
  | Some obj =>
      match judge a obj with
      | inr (true, _) => true
      | _ => false
      end
  | None => false
  end.

(** The row [main] hands to [bad_out] for a line, if any. *)
Definition rejected (a : args) (raw : string) : option json :=
  let line := Py.strip raw in
  if Py.is_empty line then None
  else match json_loads line with
       | None => Some (JDict [("reason", JStr "invalid_json"); ("raw", JStr line)])
       | Some obj =>
           match judge a obj with
           | inr (false, reason) =>
               Some (JDict [("reason", reason_json reason); ("row", obj)])
           | _ => None
           end
       end.

End Defs.
End Validate.

(* ===================================================================== *)
(** * dedupe_jsonl.py *)
(* ===================================================================== *)

Module Dedupe.
Section Defs.
Context {RT : Runtime}.

(** [h(obj)]: the SHA-256 digest of the serialization with sorted keys;
    [s.encode] raises [UnicodeEncodeError] when the serialization holds a
    lone surrogate. *)
Definition h (obj : json) : result string :=
  let s := json_dumps true obj in
  (bytes <- or_raise UnicodeEncodeError (Py.encode_utf8 s) ;;
   ok (sha256_hexdigest bytes))%res.

(** The variables of the loop in [main]; [written] is what has gone to
    [fout] so far. *)
Record state : Type := State {
  seen : gset string;
  n_in : nat;
  n_out : nat;
  written : string
}.

Definition init : state := State ∅ 0 0 "".

(** One turn of [for line in fin]: the new state, and the exception that
    leaves the loop when [h] raises one, the call being outside the
    [try]. *)
Definition step (st : state) (line : string) : state * option exn :=
  let line := Py.strip line in
  if Py.is_empty line then (st, None)
  else
    let n_in' := S (n_in st) in
    match json_loads line with
    | None => (State (seen st) n_in' (n_out st) (written st), None)
    | Some obj =>
        match h obj with
        | inl e => (State (seen st) n_in' (n_out st) (written st), Some e)
        | inr key =>
            if decide (key ∈ seen st)
            then (State (seen st) n_in' (n_out st) (written st), None)
            else (State ({[key]} ∪ seen st) n_in' (S (n_out st))
                    (written st +:+ json_dumps false obj +:+ Py.NL), None)
        end
    end.

Fixpoint run (st : state) (lines : list string) : state * option exn :=
  match lines with
  | [] => (st, None)
  | line :: rest =>
      match step st line with
      | (st', None) => run st' rest
      | (st', Some e) => (st', Some e)
      end
  end.

Record args : Type := Args { inp : string; out : string }.

(** [main]: both files are opened, the input is read line by line and the
    kept records are written as they come; an exception of [h] ends the
    run after the records kept so far have been written. *)
Definition main (a : args) : IO unit :=
  (open_read (inp a) ;;
   open_write (out a) ;;
   text <- read_text (inp a) ;;
   let '(st, raised) := run init (Py.file_lines text) in
   write_text (out a) (written st) ;;
   match raised with
   | Some e => io_raise e
   | None =>
       eprint ("dedupe: in=" +:+ Py.str_of_Z (Z.of_nat (n_in st)) +:+
               " out=" +:+ Py.str_of_Z (Z.of_nat (n_out st)))
   end)%io.

(** The deduplicator as a function from the text of the input file to the
    text of the output file, when the loop ends normally. *)
Definition dedupe_text (text : string) : result string :=
  match run init (Py.file_lines text) with
  | (st, None) => ok (written st)
  | (_, Some e) => throw e
  end.

(** The record on a line, if it is not blank and parses. *)
Definition parse_line (line : string) : option json :=
  let line := Py.strip line in
  if Py.is_empty line then None else json_loads line.

(** The records of the input that parse, in order. *)
Definition parseable (lines : list string) : list json :=
  omap parse_line lines.

(** The records kept by the specification: a record is kept when no record
    before it, kept or not, has its digest. [before] holds what [h] gave
    for the records already passed. *)
Fixpoint first_occurrences (before : list (result string)) (records : list json)
  : list json :=
  match records with
  | [] => []
  | r :: rest =>
      if bool_decide (h r ∈ before) then first_occurrences (before ++ [h r]) rest
      else r :: first_occurrences (before ++ [h r]) rest
  end.

(** The text of a file holding the given records, one per line. *)
Definition render (records : list json) : string :=
  foldr (λ r acc, json_dumps false r +:+ Py.NL +:+ acc) "" records.

(** A record survives a write followed by a read: its serialization is one
    non-blank line that [json.loads] reads back as the same record. *)
Definition round_trips (r : json) : Prop :=
  let s := json_dumps false r in
  Py.one_line s = true ∧
  Py.is_empty (Py.strip s) = false ∧
  json_loads (Py.strip s) = Some r.

(** The serialization of a record can be encoded: it holds no lone
    surrogate. *)
Definition encodable (r : json) : Prop :=
  Py.surrogate_free (json_dumps true r) = true.

(** The digests of the records that have one. *)
Definition digests (records : list json) : list string :=
  omap (λ r, match h r with inr key => Some key | inl _ => None end) records.

End Defs.
End Dedupe.

(* ===================================================================== *)
(** * group_split_jsonl.py *)
(* ===================================================================== *)

Module GroupSplit.
Section Defs.
Context {RT : Runtime}.

Record args : Type := Args {
  inp : string;
  outdir : string;
  group_key : string;
  seed : Z;
  train : float;
  val : float;
  test : float
}.

(** [groups[g].append(line)] on a [defaultdict(list)]. *)
Definition add_line (groups : list (string * list string)) (g line : string)
  : list (string * list string) :=
  Py.dict_set g (default [] (Py.dict_lookup g groups) ++ [line]) groups.

(** The group a parsed record belongs to. *)
Definition group_of (key_path : string) (obj : json) : string :=
  let g := get_path obj key_path in
  let g := match g with JNull => JStr "__MISSING__" | _ => g end in
  py_str g.

(** One turn of the reading loop: the groups so far and the row count. *)
Definition read_step (key_path : string)
    (st : list (string * list string) * nat) (raw : string)
  : list (string * list string) * nat :=
  let line := Py.strip raw in
  if Py.is_empty line then st
  else match json_loads line with
       | None => st
       | Some obj => (add_line st.1 (group_of key_path obj) line, S st.2)
       end.

Definition read_groups (key_path : string) (lines : list string)
  : list (string * list string) * nat :=
  foldl (read_step key_path) ([], 0) lines.

(** [flatten(klist)] *)
Definition flatten (groups : list (string * list string)) (klist : list string)
  : list string :=
  mjoin (map (λ k, default [] (Py.dict_lookup k groups)) klist).

(** What [main] computes between reading the input and writing the three
    files. *)
Record allocation : Type := Allocation {
  keys : list string;
  n_train : Z;
  n_val : Z;
  train_keys : list string;
  val_keys : list string;
  test_keys : list string;
  train_lines : list string;
  val_lines : list string;
  test_lines : list string
}.

Definition allocate (a : args) (groups : list (string * list string))
  : result allocation :=
  let keys := shuffle (seed a) (groups.*1) in
  let total := length keys in
  (n_train <- int_of_product total (train a) ;;
   n_val <- int_of_product total (val a) ;;
   let train_keys := Py.slice None (Some n_train) keys in
   let val_keys := Py.slice (Some n_train) (Some (n_train + n_val)%Z) keys in
   let test_keys := Py.slice (Some (n_train + n_val)%Z) None keys in
   ok (Allocation keys n_train n_val train_keys val_keys test_keys
         (flatten groups train_keys) (flatten groups val_keys)
         (flatten groups test_keys)))%res.

(** The splitter on the lines of its input. *)
Definition split_lines (a : args) (lines : list string) : result allocation :=
  allocate a (read_groups (group_key a) lines).1.

Definition summary (a : args) (rows : nat) (al : allocation) : json :=
  JDict [("rows", JInt (Z.of_nat rows));
         ("groups", JInt (Z.of_nat (length (keys al))));
         ("group_key", JStr (group_key a));
         ("train_rows", JInt (Z.of_nat (length (train_lines al))));
         ("val_rows", JInt (Z.of_nat (length (val_lines al))));
         ("test_rows", JInt (Z.of_nat (length (test_lines al))))].

Definition main (a : args) : IO unit :=
  if fractions_off (train a) (val a) (test a) then
    io_raise (SystemExit "train+val+test must sum to 1.0")
  else
    (open_read (inp a) ;;
     text <- read_text (inp a) ;;
     let st := read_groups (group_key a) (Py.file_lines text) in
     al <- io_lift (allocate a st.1) ;;
     os_makedirs (outdir a) ;;
     write_lines (os_path_join (outdir a) "train.jsonl") (train_lines al) ;;
     write_lines (os_path_join (outdir a) "val.jsonl") (val_lines al) ;;
     write_lines (os_path_join (outdir a) "test.jsonl") (test_lines al) ;;
     eprint (json_dumps_indent 2 (summary a st.2 al)))%io.

(** The group of a line of a partition, read back as the splitter reads
    its input. *)
Definition line_group (key_path : string) (line : string) : option string :=
  let line := Py.strip line in
  if Py.is_empty line then None
  else group_of key_path <$> json_loads line.

(** The groups with a record among the given lines. *)
Definition groups_in (key_path : string) (lines : list string) : gset string :=
  list_to_set (omap (line_group key_path) lines).

(** The lines of a partition as [write] puts them in its file. *)
Definition written (part : list string) : list string :=
  map (λ ln, Py.rstrip ln +:+ Py.NL) part.

(** The paths of the three files. *)
Definition train_path (a : args) : string := os_path_join (outdir a) "train.jsonl".
Definition val_path (a : args) : string := os_path_join (outdir a) "val.jsonl".
Definition test_path (a : args) : string := os_path_join (outdir a) "test.jsonl".

(** The records of the group [k] in the input, as the splitter keeps them. *)
Definition members (key_path k : string) (lines : list string) : list string :=
  Py.strip <$> filter (λ raw, line_group key_path raw = Some k) lines.

(** The three files hold disjoint sets of groups, together all the groups
    of the input, and all the records of a group are in one file. *)
Definition partitions_groups (a : args) (lines : list string) (al : allocation)
  : Prop :=
  let G := λ part, groups_in (group_key a) (written part) in
  G (train_lines al) ## G (val_lines al)
  ∧ G (train_lines al) ## G (test_lines al)
  ∧ G (val_lines al) ## G (test_lines al)
  ∧ G (train_lines al) ∪ G (val_lines al) ∪ G (test_lines al)
    = groups_in (group_key a) lines
  ∧ ∀ k, k ∈ groups_in (group_key a) lines →
      ∃ part, part ∈ [train_lines al; val_lines al; test_lines al] ∧
        ∀ raw, raw ∈ lines → line_group (group_key a) raw = Some k →
               Py.strip raw ∈ part.

(** The cuts as the specification words them: the train groups number
    [floor(total * train)], train and validation together are the first
    [floor(total * (train + val))] keys, the rest is the test partition. *)
Definition cuts_as_specified (a : args) (al : allocation) : Prop :=
  let total := length (keys al) in
  ∃ c1 c2 : Z,
    int_of_product total (train a) = ok c1 ∧
    int_of_product total (PrimFloat.add (train a) (val a)) = ok c2 ∧
    length (train_keys al) = Z.to_nat c1 ∧
    train_keys al ++ val_keys al = take (Z.to_nat c2) (keys al) ∧
    test_keys al = drop (Z.to_nat c2) (keys al).

End Defs.
End GroupSplit.

(* ===================================================================== *)
(** * split_jsonl.py *)
(* ===================================================================== *)

Module Split.
Section Defs.
Context {RT : Runtime}.

Record args : Type := Args {
  inp : string;
  outdir : string;
  seed : Z;
  train : float;
  val : float;
  test : float
}.

Definition main (a : args) : IO unit :=
  if fractions_off (train a) (val a) (test a) then
    io_raise (SystemExit "train+val+test must sum to 1.0")
  else
    (os_makedirs (outdir a) ;;
     open_read (inp a) ;;
     text <- read_text (inp a) ;;
     let lines :=
       filter (λ ln, Py.is_empty (Py.strip ln) = false) (Py.file_lines text) in
     let lines := shuffle (seed a) lines in
     let n := length lines in
     n_train <- io_lift (int_of_product n (train a)) ;;
     n_val <- io_lift (int_of_product n (val a)) ;;
     let train := Py.slice None (Some n_train) lines in
     let val := Py.slice (Some n_train) (Some (n_train + n_val)%Z) lines in
     let test := Py.slice (Some (n_train + n_val)%Z) None lines in
     write_lines (os_path_join (outdir a) "train.jsonl") train ;;
     write_lines (os_path_join (outdir a) "val.jsonl") val ;;
     write_lines (os_path_join (outdir a) "test.jsonl") test ;;
     eprint ("split: n=" +:+ Py.str_of_Z (Z.of_nat n) +:+
             " train=" +:+ Py.str_of_Z (Z.of_nat (length train)) +:+
             " val=" +:+ Py.str_of_Z (Z.of_nat (length val)) +:+
             " test=" +:+ Py.str_of_Z (Z.of_nat (length test))))%io.

End Defs.
End Split.

(* ===================================================================== *)
(** * stats_report.py *)
(* ===================================================================== *)

Module Stats.
Section Defs.
Context {RT : Runtime}.

Inductive mode : Type := Chat | Instruction.

Record args : Type := Args {
  inp : string;
  mode_of : mode;
  label_path : option string;
  out : string
}.

(** [if args.label_path]: given and not empty. *)
Definition label_path_given (a : args) : option string :=
  match label_path a with
  | Some p => if Py.is_empty p then None else Some p
  | None => None
  end.

(** [msg_text_len(m)] for a dict [m]. *)
Definition msg_text_len (m : list (string * json)) : Z :=
  match dict_get_or m "content" (JStr "") with
  | JStr c => Z.of_nat (String.length c)
  | _ => 0%Z
  end.

Definition sum_Z (l : list Z) : Z := foldr Z.add 0%Z l.

(** The length of one record. *)
Definition record_length (m : mode) (obj : json) : result Z :=
  match m with
  | Chat =>
      (msgs <- obj_get obj "messages" ;;
       items <- py_iter (py_or msgs (JList [])) ;;
       ok (sum_Z (omap (λ x, match x with
                             | JDict md => Some (msg_text_len md)
                             | _ => None
                             end) items)))%res
  | Instruction =>
      (a <- obj_get_or obj "instruction" (JStr "") ;;
       b <- obj_get_or obj "input" (JStr "") ;;
       c <- obj_get_or obj "output" (JStr "") ;;
       ok (sum_Z (map (λ v, Z.of_nat (String.length (py_str v))) [a; b; c])))%res
  end.

(** The variables of the reading loop. *)
Record state : Type := State {
  lengths : list Z;
  label_counts : list (string * Z);
  n : nat;
  n_missing_label : nat
}.

Definition init : state := State [] [] 0 0.

(** One turn of the reading loop. *)
Definition step (a : args) (st : state) (raw : string) : result state :=
  let line := Py.strip raw in
  if Py.is_empty line then ok st
  else match json_loads line with
       | None => ok st
       | Some obj =>
           (len <- record_length (mode_of a) obj ;;
            let lengths' := lengths st ++ [len] in
            match label_path_given a with
            | None => ok (State lengths' (label_counts st) (S (n st)) (n_missing_label st))
            | Some path =>
                match get_path obj path with
                | JNull =>
                    ok (State lengths' (label_counts st) (S (n st))
                          (S (n_missing_label st)))
                | lab =>
                    let key := py_str lab in
                    let count := default 0%Z (Py.dict_lookup key (label_counts st)) in
                    ok (State lengths' (Py.dict_set key (count + 1)%Z (label_counts st))
                          (S (n st)) (n_missing_label st))
                end
            end)%res
       end.

Fixpoint run (a : args) (st : state) (lines : list string) : result state :=
  match lines with
  | [] => ok st
  | raw :: rest => (st' <- step a st raw ;; run a st' rest)%res
  end.

(** [min], [max] and the functions of the [statistics] module; each one
    raises on an empty sample. *)
Definition py_min (data : list Z) : result Z :=
  match data with
  | [] => throw ValueError
  | x :: rest => ok (foldl Z.min x rest)
  end.

Definition py_max (data : list Z) : result Z :=
  match data with
  | [] => throw ValueError
  | x :: rest => ok (foldl Z.max x rest)
  end.

Definition nth_Z (data : list Z) (i : nat) : Z := default 0%Z (data !! i).

(** [statistics.median(data)] *)
Definition median (data : list Z) : result json :=
  let data := Py.sorted Z.leb data in
  let n := length data in
  if Nat.eqb n 0 then throw StatisticsError
  else if Nat.eqb (n mod 2) 1 then ok (JInt (nth_Z data (n / 2)))
  else
    let i := (n / 2)%nat in
    (q <- int_true_div (nth_Z data (i - 1) + nth_Z data i) 2 ;; ok (JFloat q))%res.

(** [statistics.mean(data)]: an int when the division is exact. *)
Definition mean (data : list Z) : result json :=
  let n := Z.of_nat (length data) in
  if (n <? 1)%Z then throw StatisticsError
  else
    let total := sum_Z data in
    if (total mod n =? 0)%Z then ok (JInt (total / n))
    else (q <- int_true_div total n ;; ok (JFloat q))%res.

(** [statistics.quantiles(data, n=10)[8]]: the ninth cut point of the
    default (exclusive) method. *)
Definition quantiles_10_8 (data : list Z) : result json :=
  let data := Py.sorted Z.leb data in
  let ld := length data in
  if Nat.ltb ld 2 then throw StatisticsError
  else
    let m := (ld + 1)%nat in
    let j := (9 * m / 10)%nat in
    let j := if Nat.ltb j 1 then 1%nat else if Nat.ltb (ld - 1) j then (ld - 1)%nat else j in
    let delta := (Z.of_nat (9 * m) - Z.of_nat j * 10)%Z in
    (q <- int_true_div (nth_Z data (j - 1) * (10 - delta) + nth_Z data j * delta) 10 ;;
     ok (JFloat q))%res.

(** [x if lengths else 0] *)
Definition if_any {A} (lengths : list A) (x : result json) : result json :=
  match lengths with
  | [] => ok (JInt 0)
  | _ => x
  end.

Definition length_chars (lengths : list Z) : result json :=
  (vmin <- if_any lengths (z <- py_min lengths ;; ok (JInt z)) ;;
   p50 <- if_any lengths (median lengths) ;;
   p90 <- (if Nat.leb 10 (length lengths) then quantiles_10_8 lengths
           else if_any lengths (z <- py_max lengths ;; ok (JInt z))) ;;
   vmax <- if_any lengths (z <- py_max lengths ;; ok (JInt z)) ;;
   vmean <- if_any lengths (mean lengths) ;;
   ok (JDict [("min", vmin); ("p50", p50); ("p90", p90); ("max", vmax);
              ("mean", vmean)]))%res.

Definition labels (a : args) (st : state) : json :=
  match label_path_given a with
  | None => JNull
  | Some path =>
      JDict [("label_path", JStr path);
             ("missing", JInt (Z.of_nat (n_missing_label st)));
             ("counts",
              JDict (map (λ kv, (kv.1, JInt kv.2))
                       (Py.sorted (λ x y : string * Z, Z.leb y.2 x.2)
                          (label_counts st))))]
  end.

Definition report (a : args) (st : state) : result json :=
  (lc <- length_chars (lengths st) ;;
   ok (JDict [("count", JInt (Z.of_nat (n st)));
              ("length_chars", lc);
              ("labels", labels a st)]))%res.

Definition main (a : args) : IO unit :=
  (open_read (inp a) ;;
   text <- read_text (inp a) ;;
   st <- io_lift (run a init (Py.file_lines text)) ;;
   rep <- io_lift (report a st) ;;
   open_write (out a) ;;
   write_text (out a) (json_dumps_indent 2 rep) ;;
   eprint (json_dumps_indent 2
             (JDict [("wrote", JStr (out a)); ("count", JInt (Z.of_nat (n st)))])))%io.


(** What the reading loop keeps true of its variables: one length per
    record, none negative; every label counted once with a positive count;
    with a label path, every record is counted under a label or as
    missing; without one, nothing is counted. *)
Definition invariant (a : args) (st : state) : Prop :=
  length (lengths st) = n st
  ∧ Forall (λ z, 0 ≤ z)%Z (lengths st)
  ∧ NoDup (label_counts st).*1
  ∧ Forall (λ kv, 0 < kv.2)%Z (label_counts st)
  ∧ (sum_Z (label_counts st).*2 + Z.of_nat (n_missing_label st))%Z
    = match label_path_given a with
      | Some _ => Z.of_nat (n st)
      | None => 0%Z
      end
  ∧ (label_path_given a = None → label_counts st = [] ∧ n_missing_label st = 0).

(** The order of the labels in the report: by decreasing count. *)
Definition by_count (x y : string * Z) : Prop := (y.2 ≤ x.2)%Z.


End Defs.
End Stats.

(* ===================================================================== *)
(** * retrain_trigger.py *)
(* ===================================================================== *)

Module Retrain.
Section Defs.
Context {RT : Runtime}.

Record args : Type := Args {
  results : string;
  out : option string;
  min_pass : float;
  max_repair : float
}.

(** [if args.out]: given and not empty. *)
Definition out_given (a : args) : option string :=
  match out a with
  | Some p => if Py.is_empty p then None else Some p
  | None => None
  end.

(** What [main] reads off the summary. *)
Record readings : Type := Readings {
  pass_rate : float;
  repair_rate : float;
  taxonomy : json;
  schema_bad : Z;
  parse_bad : Z
}.

Definition read_summary (r : json) : result readings :=
  (pass_v <- obj_get_or r "passRate" (JInt 0) ;;
   pass_rate <- py_float pass_v ;;
   repair_v <- obj_get_or r "repairedRate" (JInt 0) ;;
   repair_rate <- py_float repair_v ;;
   taxonomy_v <- obj_get r "taxonomy" ;;
   let taxonomy := py_or taxonomy_v (JDict []) in
   schema_v <- obj_get_or taxonomy "SCHEMA" (JInt 0) ;;
   schema_bad <- py_int schema_v ;;
   parse_v <- obj_get_or taxonomy "JSON_PARSE" (JInt 0) ;;
   parse_bad <- py_int parse_v ;;
   ok (Readings pass_rate repair_rate taxonomy schema_bad parse_bad))%res.

(** The list [need] of violated thresholds. *)
Definition need (a : args) (rd : readings) : list string :=
  (if PrimFloat.ltb (pass_rate rd) (min_pass a)
   then ["passRate<" +:+ float_repr (min_pass a)] else []) ++
  (if PrimFloat.ltb (max_repair a) (repair_rate rd)
   then ["repairedRate>" +:+ float_repr (max_repair a)] else []) ++
  (if (0 <? schema_bad rd)%Z then ["SCHEMA>0"] else []) ++
  (if (0 <? parse_bad rd)%Z then ["JSON_PARSE>0"] else []).

(** The policy triggers when [need] is not empty. *)
Definition triggered (a : args) (rd : readings) : bool :=
  match need a rd with
  | [] => false
  | _ => true
  end.

(** The payload of the closing assistant turn. *)
Definition fallback : json :=
  JDict [("title", JStr "Fallback report");
         ("summary", JStr "Schema-safe fallback because the previous attempt failed.");
         ("bullets", JList [JStr "Add targeted training examples for this failure";
                            JStr "Run evals after training";
                            JStr "Keep tool grounding strict"]);
         ("actions", JList [JStr "Harvest failures into JSONL";
                            JStr "Fine-tune with QLoRA SFT";
                            JStr "Re-run edge-case suites"]);
         ("cautions", JList [JStr "Do not output non-JSON";
                             JStr "Do not fabricate facts"]);
         ("citations", JList [])].

Definition turn (role content : string) : json :=
  JDict [("role", JStr role); ("content", JStr content)].

(** The text of the first assistant turn: [str(d.get('error') or '')]. *)
Definition error_text (d : list (string * json)) : string :=
  py_str (py_or (dict_get d "error") (JStr "")).

(** The record harvested from the detail entry [d] at time stamp [ts]. *)
Definition row (d : list (string * json)) (ts : string) : json :=
  JDict
    [("messages",
      JList
        [turn "system" "You MUST output valid JSON matching the report schema and nothing else.";
         turn "user" ("Produce a schema-valid report for test: " +:+ py_str (dict_get d "name"));
         turn "assistant" (error_text d);
         turn "user" "Fix it. Return JSON only. Include all required keys, even if citations is empty.";
         turn "assistant" (json_dumps false fallback)]);
     ("meta",
      JDict [("suite", dict_get d "suite");
             ("name", dict_get d "name");
             ("status", dict_get d "status");
             ("ts", JStr (ts +:+ "Z"))])].

(** [d.get("ok") is True] *)
Definition is_ok (d : list (string * json)) : bool :=
  match dict_get d "ok" with
  | JBool true => true
  | _ => false
  end.

(** The loop over the detail entries; the result is the count [n]. *)
Fixpoint harvest (path : string) (details : list json) (n : nat) : IO nat :=
  match details with
  | [] => io_ret n
  | JDict d :: rest =>
      if is_ok d then harvest path rest n
      else
        (ts <- utcnow ;;
         write_text path (json_dumps false (row d ts) +:+ Py.NL) ;;
         harvest path rest (S n))%io
  | _ :: rest => io_raise AttributeError
  end.

Definition suggestions : list string :=
  [Py.NL +:+ "Suggested next commands (edit paths):";
   "  python training/scripts/validate_jsonl.py --in training/data/auto_failures.jsonl --mode chat --out_bad training/data/rejects.jsonl";
   "  python training/scripts/dedupe_jsonl.py --in training/data/auto_failures.jsonl --out training/data/auto_failures.dedup.jsonl";
   "  python training/scripts/group_split_jsonl.py --in training/data/auto_failures.dedup.jsonl --outdir training/data/auto_splits --group_key meta.name --seed 42";
   "  # Fine-tune with Axolotl: point training/axolotl/config_chat_qlora.yml to auto_splits/train.jsonl";
   "  npm --prefix evals run run"].

Definition snapshot (rd : readings) : json :=
  JDict [("passRate", JFloat (pass_rate rd));
         ("repairedRate", JFloat (repair_rate rd));
         ("taxonomy", taxonomy rd)].

(** The harvest step of [main], when a destination is given. *)
Definition harvest_to (path : string) (r : json) : IO unit :=
  (os_makedirs (os_path_dirname path) ;;
   open_append path ;;
   details_v <- io_lift (obj_get_or r "details" (JList [])) ;;
   details <- io_lift (py_iter details_v) ;;
   n <- harvest path details 0 ;;
   print ("harvested_failures=" +:+ Py.str_of_Z (Z.of_nat n) +:+ " -> " +:+ path))%io.

Definition main (a : args) : IO unit :=
  (open_read (results a) ;;
   text <- read_text (results a) ;;
   r <- io_lift (or_raise JSONDecodeError (json_loads text)) ;;
   rd <- io_lift (read_summary r) ;;
   if triggered a rd then
     print ("RETRAIN TRIGGERED: " +:+ Py.join ", " (need a rd)) ;;
     print ("Snapshot: " +:+ py_str (snapshot rd)) ;;
     match out_given a with
     | Some path => harvest_to path r
     | None => io_ret ()
     end ;;
     io_for suggestions print ;;
     io_raise (SysExit 1)
   else
     print "OK: thresholds satisfied. No retrain triggered." ;;
     io_raise (SysExit 0))%io.

(** The detail entries that are harvested: those whose [ok] is not the
    value [true]. *)
Definition failing (details : list json) : list (list (string * json)) :=
  omap (λ v, match v with
             | JDict d => if is_ok d then None else Some d
             | _ => None
             end) details.

(** The detail entries are objects. *)
Definition all_objects (details : list json) : Prop :=
  Forall (λ v, ∃ d, v = JDict d) details.

(** The lines appended for the entries [ds], the first one stamped at the
    [t]-th reading of the clock. *)
Fixpoint harvested_text (t : nat) (ds : list (list (string * json))) : string :=
  match ds with
  | [] => ""
  | d :: ds' =>
      json_dumps false (row d (utc_isoformat t)) +:+ Py.NL +:+
      harvested_text (S t) ds'
  end.

End Defs.
End Retrain.

(* ===================================================================== *)
(** * convert_jsonl.py *)
(* ===================================================================== *)

Module Convert.
Section Defs.
Context {RT : Runtime}.

Definition turn (role : string) (content : json) : json :=
  JDict [("role", JStr role); ("content", JStr (py_str content))].

(** [to_chat(obj)]; the [None] it returns for a record it cannot convert
    is [None] here. *)
Definition to_chat (obj : json) : result (option json) :=
  (has_messages <- py_contains "messages" obj ;;
   if has_messages : bool then
     messages <- item_of obj "messages" ;;
     ok (Some (JDict [("messages", messages)]))
   else
     system <- obj_get obj "system" ;;
     user <- obj_get obj "user" ;;
     prompt <- obj_get obj "prompt" ;;
     assistant <- obj_get obj "assistant" ;;
     completion <- obj_get obj "completion" ;;
     let msgs :=
       (if truthy system then [turn "system" system] else []) ++
       (if truthy user then [turn "user" user]
        else if truthy prompt then [turn "user" prompt] else []) ++
       (if truthy assistant then [turn "assistant" assistant]
        else if truthy completion then [turn "assistant" completion] else []) in
     ok (if Nat.leb 2 (length msgs) then Some (JDict [("messages", JList msgs)])
         else None))%res.

Definition instruction (a b c : json) : json :=
  JDict [("instruction", a); ("input", b); ("output", c)].

(** [to_instruction(obj)] *)
Definition to_instruction (obj : json) : result (option json) :=
  (triple <- all_in ["instruction"; "input"; "output"] obj ;;
   if triple : bool then
     a <- item_of obj "instruction" ;;
     b <- item_of obj "input" ;;
     c <- item_of obj "output" ;;
     ok (Some (instruction a b c))
   else
     pair <- both_in "prompt" "completion" obj ;;
     if pair : bool then
       b <- item_of obj "prompt" ;;
       c <- item_of obj "completion" ;;
       ok (Some (instruction (JStr "Follow the user request.") b c))
     else
       pair <- both_in "user" "assistant" obj ;;
       if pair : bool then
         b <- item_of obj "user" ;;
         c <- item_of obj "assistant" ;;
         ok (Some (instruction (JStr "Follow the user request.") b c))
       else ok None)%res.

Inductive mode : Type := Chat | Instruction.

Record args : Type := Args {
  inp : string;
  out : string;
  mode_of : mode
}.

Definition conv (m : mode) : json → result (option json) :=
  match m with
  | Chat => to_chat
  | Instruction => to_instruction
  end.

(** The variables of the loop in [main]; [written] is what has gone to
    [fout] so far. *)
Record state : Type := State {
  n_in : nat;
  n_out : nat;
  written : string
}.

Definition init : state := State 0 0 "".

(** One turn of [for line in fin]: the new state, and the exception that
    leaves the loop, if the conversion raises one. *)
Definition step (m : mode) (st : state) (raw : string) : state * option exn :=
  let line := Py.strip raw in
  if Py.is_empty line then (st, None)
  else
    let n_in' := S (n_in st) in
    match json_loads line with
    | None => (State n_in' (n_out st) (written st), None)
    | Some obj =>
        match conv m obj with
        | inl e => (State n_in' (n_out st) (written st), Some e)
        | inr None => (State n_in' (n_out st) (written st), None)
        | inr (Some converted) =>
            (State n_in' (S (n_out st))
               (written st +:+ json_dumps false converted +:+ Py.NL), None)
        end
    end.

Fixpoint run (m : mode) (st : state) (lines : list string) : state * option exn :=
  match lines with
  | [] => (st, None)
  | raw :: rest =>
      match step m st raw with
      | (st', None) => run m st' rest
      | (st', Some e) => (st', Some e)
      end
  end.

(** [main]: both files are opened, the input first; an exception of the
    conversion ends the run after the records converted so far have been
    written. *)
Definition main (a : args) : IO unit :=
  (open_read (inp a) ;;
   open_write (out a) ;;
   text <- read_text (inp a) ;;
   let '(st, raised) := run (mode_of a) init (Py.file_lines text) in
   write_text (out a) (written st) ;;
   match raised with
   | Some e => io_raise e
   | None =>
       eprint ("converted: in=" +:+ Py.str_of_Z (Z.of_nat (n_in st)) +:+
               " out=" +:+ Py.str_of_Z (Z.of_nat (n_out st)))
   end)%io.

(** The record [main] writes for a line, if any. *)
Definition converted (m : mode) (raw : string) : option json :=
  match record_of raw with
  | Some obj =>
      match conv m obj with
      | inr (Some c) => Some c
      | _ => None
      end
  | None => None
  end.

(** A line whose record is a JSON object, or that holds no record. *)
Definition object_or_none (raw : string) : Prop :=
  match record_of raw with
  | Some (JDict _) | None => True
  | Some _ => False
  end.

End Defs.
End Convert.

(* ===================================================================== *)
(** * check_tokenizer_consistency.py *)
(* ===================================================================== *)

Module Tokenizer.

Record args : Type := Args {
  train_tokenizer : string;
  serve_tokenizer : string
}.

Definition main (a : args) : IO unit :=
  if String.eqb (Py.strip (train_tokenizer a)) (Py.strip (serve_tokenizer a)) then
    (print "OK: tokenizer identifiers match" ;;
     io_raise (SysExit 0))%io
  else
    (print "FAIL: tokenizer identifiers differ" ;;
     print ("train: " +:+ train_tokenizer a) ;;
     print ("serve: " +:+ serve_tokenizer a) ;;
     print "Fix: train and serve must use the exact same tokenizer/model family." ;;
     io_raise (SysExit 2))%io.

End Tokenizer.

(* ===================================================================== *)
(** * A small runtime for closed examples *)
(* ===================================================================== *)

Module Reference.

(** The records the examples use. *)
Definition rec_a1 : json := JDict [("g", JStr "a"); ("n", JInt 1)].
Definition rec_a1' : json := JDict [("n", JInt 1); ("g", JStr "a")].
Definition rec_a2 : json := JDict [("g", JStr "a"); ("n", JInt 2)].
Definition rec_b : json := JDict [("g", JStr "b")].
Definition rec_c : json := JDict [("g", JStr "c")].
Definition rec_d : json := JDict [("g", JStr "d")].
Definition rec_none : json := JDict [("n", JInt 0)].

Definition summary_bad : json :=
  JDict [("passRate", JFloat 0.5%float);
         ("details", JList [JDict [("ok", JBool false); ("name", JStr "t1");
                                   ("error", JStr "boom")];
                            JDict [("ok", JBool true); ("name", JStr "t2")];
                            JDict [("name", JStr "t3")]])].

Definition universe : list json :=
  [rec_a1; rec_a1'; rec_a2; rec_b; rec_c; rec_d; rec_none; summary_bad].

(** Everything but the parser. *)
Definition base : Runtime := {|
  json_loads := λ _, None;
  sha256_hexdigest := λ b, b;
  float_repr := λ f, if PrimFloat.eqb f 0.5%float then "0.5" else "0.0";
  str_repr := λ s, "'" +:+ s +:+ "'";
  float_of_str := λ _, None;
  int_of_str := λ _, None;
  rng := nat;
  rng_seed := Z.to_nat;
  randbelow := λ n g, (g mod n, S g);
  utc_isoformat := λ _, "2024-01-01T00:00:00"
|}.

(** The parser reads back the serialization of the records of [universe]
    and refuses every other text. *)
Definition loads (s : string) : option json :=
  list_find (λ v, @json_dumps base false v = s) universe ≫= λ iv, Some iv.2.

Definition runtime : Runtime := {|
  json_loads := loads;
  sha256_hexdigest := @sha256_hexdigest base;
  float_repr := @float_repr base;
  str_repr := @str_repr base;
  float_of_str := @float_of_str base;
  int_of_str := @int_of_str base;
  rng := @rng base;
  rng_seed := @rng_seed base;
  randbelow := @randbelow base;
  utc_isoformat := @utc_isoformat base
|}.

(** The text of a file holding the given records, one per line. *)
Definition file_of (records : list json) : string :=
  foldr (λ r acc, @json_dumps runtime false r +:+ Py.NL +:+ acc) "" records.

(** Inputs of the splitter: three groups and four groups, the group [a]
    with two records. *)
Definition three_groups : list string :=
  Py.file_lines (file_of [rec_a1; rec_b; rec_a2; rec_c]).
Definition four_groups : list string :=
  Py.file_lines (file_of [rec_a1; rec_b; rec_c; rec_d; rec_a2]).

Definition split_half : GroupSplit.args :=
  GroupSplit.Args "in.jsonl" "out" "g" 42 0.5%float 0.5%float 0%float.
Definition split_negative : GroupSplit.args :=
  GroupSplit.Args "in.jsonl" "out" "g" 42 (-0.5)%float 0.5%float 1%float.

(** What the splitter computes on these inputs. *)
Definition no_allocation : GroupSplit.allocation :=
  GroupSplit.Allocation [] 0 0 [] [] [] [] [] [].
Definition alloc_half : GroupSplit.allocation :=
  Eval vm_compute in
    match @GroupSplit.split_lines runtime split_half three_groups with
    | inr al => al
    | inl _ => no_allocation
    end.
Definition alloc_negative : GroupSplit.allocation :=
  Eval vm_compute in
    match @GroupSplit.split_lines runtime split_negative four_groups with
    | inr al => al
    | inl _ => no_allocation
    end.

(** An input of the deduplicator with a repeated record, a record equal to
    an earlier one up to the order of its keys, a blank line and a line
    that does not parse. *)
Definition with_duplicates : string :=
  file_of [rec_a1; rec_b] +:+ Py.NL +:+ "not json" +:+ Py.NL +:+
  file_of [rec_a1'; rec_a2; rec_b].

(** An input of the statistics with no record. *)
Definition stats_args : Stats.args :=
  Stats.Args "in.jsonl" Stats.Chat None "report.json".

(** A run of the retrain policy whose destination has no directory part,
    over a harvest file that holds one line already. *)
Definition retrain_bare : Retrain.args :=
  Retrain.Args "results.json" (Some "failures.jsonl") 0.95%float 0.10%float.
Definition retrain_world : world :=
  World {[ "results.json" := @json_dumps runtime false summary_bad;
           "failures.jsonl" := "old" +:+ Py.NL ]} [] 0.

(** A summary with no field at all and the default thresholds. *)
Definition retrain_default : Retrain.args :=
  Retrain.Args "results.json" None 0.95%float 0.10%float.
Definition no_readings : Retrain.readings :=
  Retrain.Readings 0%float 0%float (JDict []) 0 0.

End Reference.

(** A runtime whose parser knows more records, and inputs for runs of
    every script. *)
Module Examples.

Definition pair : json := JDict [("user", JStr "hi"); ("assistant", JStr "hello")].
Definition pair_dict : list (string * json) :=
  [("user", JStr "hi"); ("assistant", JStr "hello")].
Definition no_reply_dict : list (string * json) :=
  [("system", JStr "be kind"); ("user", JStr "hi")].
Definition both_pairs_dict : list (string * json) :=
  [("user", JStr "u"); ("assistant", JStr "a");
   ("prompt", JStr "p"); ("completion", JStr "c")].
Definition completion : json := JDict [("prompt", JStr "p"); ("completion", JStr "c")].
Definition chat : json := Validate.two_turns "hi" "hello".
Definition instruction : json :=
  JDict [("instruction", JStr "add"); ("input", JStr "1 2"); ("output", JStr "3")].
Definition number : json := JInt 7.
Definition array : json := JList [JInt 1].

(** A record whose text is one lone surrogate, and the line of a file it
    is read from, where the surrogate is the escape of U+D800 in ASCII
    characters. *)
Definition lone_surrogate : json := JDict [("t", JStr (String Py.surrogate ""))].
Definition escaped_line : string :=
  "{" +:+ Py.DQUOTE +:+ "t" +:+ Py.DQUOTE +:+ ": " +:+
  Py.DQUOTE +:+ Py.BACKSLASH +:+ "ud800" +:+ Py.DQUOTE +:+ "}".

Definition universe : list json :=
  [pair; completion; chat; instruction; number; array] ++ Reference.universe.

(** The parser reads back the serialization of the records of [universe],
    reads the line with the escape, and refuses every other text. *)
Definition loads (s : string) : option json :=
  if String.eqb s escaped_line then Some lone_surrogate
  else list_find (λ v, @json_dumps Reference.base false v = s) universe ≫= λ iv, Some iv.2.

Definition runtime : Runtime := {|
  json_loads := loads;
  sha256_hexdigest := @sha256_hexdigest Reference.base;
  float_repr := @float_repr Reference.base;
  str_repr := @str_repr Reference.base;
  float_of_str := @float_of_str Reference.base;
  int_of_str := @int_of_str Reference.base;
  rng := @rng Reference.base;
  rng_seed := @rng_seed Reference.base;
  randbelow := @randbelow Reference.base;
  utc_isoformat := @utc_isoformat Reference.base
|}.

(** The text of a file holding the given records, one per line. *)
Definition file_of (records : list json) : string := @jsonl runtime records.

(** An input with an instruction record, a record of another shape, a line
    that is not JSON and a blank line. *)
Definition mixed : string :=
  file_of [instruction; pair] +:+ "not json" +:+ Py.NL +:+ Py.NL.

Definition validate_args : Validate.args :=
  Validate.Args "in.jsonl" Validate.Instruction None (Some "bad.jsonl").
Definition validate_world : world := World {[ "in.jsonl" := mixed ]} [] 0.
Definition validate_final : Validate.state :=
  Eval vm_compute in
    (@Validate.run runtime validate_args Validate.init (Py.file_lines mixed)).1.

(** An input whose second record is an array, and one whose second record
    is a number. *)
Definition with_array : string := file_of [chat; array].

Definition array_world : world := World {[ "in.jsonl" := with_array ]} [] 0.

(** A conversion to chat records. *)
Definition convertible : string :=
  file_of [pair; chat; Reference.rec_b] +:+ "not json" +:+ Py.NL.
Definition convert_args : Convert.args := Convert.Args "in.jsonl" "out.jsonl" Convert.Chat.
Definition convert_world : world := World {[ "in.jsonl" := convertible ]} [] 0.

(** A run of the deduplicator. *)
Definition dedupe_args : Dedupe.args := Dedupe.Args "in.jsonl" "out.jsonl".
Definition dedupe_world : world := World {[ "in.jsonl" := Reference.with_duplicates ]} [] 0.

(** An input of the deduplicator whose first record holds a lone
    surrogate. *)
Definition with_surrogate : string :=
  escaped_line +:+ Py.NL +:+ file_of [Reference.rec_a1].
Definition surrogate_world : world := World {[ "in.jsonl" := with_surrogate ]} [] 0.

(** Statistics with a label path. *)
Definition labelled : list string :=
  Py.file_lines (file_of [Reference.rec_a1; Reference.rec_b; Reference.rec_a2;
                          Reference.rec_none]).
Definition stats_args : Stats.args :=
  Stats.Args "in.jsonl" Stats.Chat (Some "g") "report.json".
Definition stats_final : Stats.state :=
  Eval vm_compute in
    match @Stats.run runtime stats_args Stats.init labelled with
    | inr st => st
    | inl _ => Stats.init
    end.
Definition after_chat_stats : Stats.state :=
  Eval vm_compute in
    match @Stats.run runtime stats_args Stats.init (Py.file_lines (file_of [chat])) with
    | inr st => st
    | inl _ => Stats.init
    end.

(** A run of the group-aware splitter and of the plain splitter. *)
Definition groups_text : string :=
  Reference.file_of [Reference.rec_a1; Reference.rec_b; Reference.rec_a2; Reference.rec_c].
Definition groups_world : world := World {[ "in.jsonl" := groups_text ]} [] 0.
Definition split_args : Split.args :=
  Split.Args "in.jsonl" "out" 42 0.5%float 0.5%float 0%float.

(** A run of the retrain policy whose destination has a directory part. *)
Definition retrain_args : Retrain.args :=
  Retrain.Args "results.json" (Some "data/failures.jsonl") 0.95%float 0.10%float.
Definition summary_dict : list (string * json) :=
  match Reference.summary_bad with
  | JDict d => d
  | _ => []
  end.
Definition details : list json :=
  match dict_get summary_dict "details" with
  | JList l => l
  | _ => []
  end.
Definition summary_readings : Retrain.readings :=
  Eval vm_compute in
    match @Retrain.read_summary Reference.runtime Reference.summary_bad with
    | inr rd => rd
    | inl _ => Reference.no_readings
    end.

End Examples.


(* ===================================================================== *)
(** * Properties *)
(* ===================================================================== *)

(** ** Strings and results *)

Lemma string_app_cons a (s t : string) : String a s +:+ t = String a (s +:+ t).
Proof. reflexivity. Qed.

Lemma string_app_nil_r (s : string) : s +:+ "" = s.
Proof. induction s as [|a s IH]; [done|]. by rewrite string_app_cons, IH. Qed.

Lemma string_app_assoc (a b c : string) : (a +:+ b) +:+ c = a +:+ (b +:+ c).
Proof.
  induction a as [|x a IH]; [done|]. by rewrite !string_app_cons, IH.
Qed.

Lemma rstrip_cons_nonspace c s :
  Py.isspace c = false → ∃ r, Py.rstrip (String c s) = String c r.
Proof.
  intros Hc. simpl. destruct (Py.rstrip s) as [|c' r'].
  - rewrite Hc. by exists "".
  - by eexists.
Qed.



Lemma rstrip_idemp s : Py.rstrip (Py.rstrip s) = Py.rstrip s.
Proof.
  induction s as [|c s IH]; [done|]. simpl.
  destruct (Py.rstrip s) as [|c' r] eqn:Hr.
  - destruct (Py.isspace c) eqn:Hc; [done|]. simpl. by rewrite Hc.
  - simpl in *. by rewrite IH.
Qed.

Lemma lstrip_idemp s : Py.lstrip (Py.lstrip s) = Py.lstrip s.
Proof.
  induction s as [|c s IH]; [done|]. simpl.
  destruct (Py.isspace c) eqn:Hc; [done|]. simpl. by rewrite Hc.
Qed.

Lemma rstrip_lstrip s : Py.rstrip (Py.lstrip s) = Py.lstrip (Py.rstrip s).
Proof.
  induction s as [|c s IH]; [done|].
  destruct (Py.isspace c) eqn:Hc.
  - simpl. rewrite Hc, IH. destruct (Py.rstrip s) as [|c' r]; [done|].
    simpl. by rewrite Hc.
  - destruct (rstrip_cons_nonspace c s Hc) as [r Hr].
    simpl Py.lstrip at 1. rewrite Hc, Hr. simpl. by rewrite Hc.
Qed.

Lemma strip_idemp s : Py.strip (Py.strip s) = Py.strip s.
Proof.
  unfold Py.strip.
  by rewrite rstrip_lstrip, rstrip_idemp, lstrip_idemp.
Qed.

Lemma rstrip_app_newline s : Py.rstrip (s +:+ Py.NL) = Py.rstrip s.
Proof.
  induction s as [|c s IH]; [done|].
  rewrite string_app_cons. simpl. by rewrite IH.
Qed.

Lemma strip_written_line s : Py.strip (Py.rstrip s +:+ Py.NL) = Py.strip s.
Proof. unfold Py.strip. by rewrite rstrip_app_newline, rstrip_idemp. Qed.

Lemma strip_app_newline s : Py.strip (s +:+ Py.NL) = Py.strip s.
Proof. unfold Py.strip. by rewrite rstrip_app_newline. Qed.

(** A text made of one-line records, each followed by a newline, is read
    back line by line. *)
Lemma file_lines_one_line s rest :
  Py.one_line s = true →
  Py.file_lines (s +:+ Py.NL +:+ rest) = (s +:+ Py.NL) :: Py.file_lines rest.
Proof.
  induction s as [|c s IH]; intros Hs; [done|].
  simpl in Hs. apply andb_prop in Hs as [[Hlf Hcr]%andb_prop Hs].
  apply negb_true_iff in Hlf, Hcr.
  rewrite !string_app_cons. cbn [Py.file_lines].
  by rewrite Hlf, Hcr, IH.
Qed.

Lemma one_line_app s1 s2 :
  Py.one_line (s1 +:+ s2) = Py.one_line s1 && Py.one_line s2.
Proof.
  induction s1 as [|c s1 IH]; [done|].
  rewrite string_app_cons. simpl. rewrite IH. by rewrite andb_assoc.
Qed.

Lemma lstrip_one_line s : Py.one_line s = true → Py.one_line (Py.lstrip s) = true.
Proof.
  induction s as [|c s IH]; [done|]. intros Hs. simpl.
  destruct (Py.isspace c); [|done].
  simpl in Hs. apply andb_prop in Hs as [_ Hs]. auto.
Qed.

Lemma rstrip_one_line s : Py.one_line s = true → Py.one_line (Py.rstrip s) = true.
Proof.
  induction s as [|c s IH]; [done|]. intros Hs. simpl in Hs.
  apply andb_prop in Hs as [Hc Hs]. specialize (IH Hs). simpl.
  destruct (Py.rstrip s) as [|c' r].
  - destruct (Py.isspace c); [done|]. simpl. by rewrite Hc.
  - change (Py.one_line (String c (String c' r)))
      with (negb (c =? "010")%char && negb (c =? "013")%char && Py.one_line (String c' r)).
    by rewrite Hc, IH.
Qed.

Lemma strip_one_line s : Py.one_line s = true → Py.one_line (Py.strip s) = true.
Proof. intros Hs. unfold Py.strip. by apply lstrip_one_line, rstrip_one_line. Qed.

Lemma file_lines_shape_bounded n text l :
  String.length text ≤ n → l ∈ Py.file_lines text → Py.line_shape l.
Proof.
  revert text l. induction n as [|n IH]; intros [|c rest] l Hlen Hin;
    try (by apply elem_of_nil in Hin); simpl in Hlen; [lia|].
  cbn [Py.file_lines] in Hin.
  destruct (Ascii.eqb c "010") eqn:Hlf.
  { apply elem_of_cons in Hin as [->|Hin]; [by exists ""; auto|].
    apply (IH rest); [lia|done]. }
  destruct (Ascii.eqb c "013") eqn:Hcr.
  { assert (l = Py.NL ∨ ∃ rest', String.length rest' ≤ n ∧ l ∈ Py.file_lines rest')
      as [->|(rest' & Hlen' & Hin')].
    { destruct rest as [|c' rest'].
      - apply elem_of_cons in Hin as [->|Hin]; [by left|]. right. exists "". by split; [simpl; lia|].
      - destruct (Ascii.eqb_spec c' "010") as [->|Hne].
        + apply elem_of_cons in Hin as [->|Hin]; [by left|]. right. exists rest'.
          split; [simpl in Hlen; lia|done].
        + assert (l ∈ Py.NL :: Py.file_lines (String c' rest')) as Hin'.
          { destruct c' as [[] [] [] [] [] [] [] []]; try done. }
          apply elem_of_cons in Hin' as [->|Hin']; [by left|]. right.
          exists (String c' rest'). split; [lia|done]. }
    - by exists ""; auto.
    - by apply (IH rest'). }
  destruct (Py.file_lines rest) as [|line lines] eqn:Hrest.
  - apply list_elem_of_singleton in Hin as ->. exists (String c "").
    split; [|by left]. simpl. by rewrite Hlf, Hcr.
  - apply elem_of_cons in Hin as [->|Hin].
    + destruct (IH rest line) as (s & Hs & Hline); [lia|rewrite Hrest; apply list_elem_of_here|].
      exists (String c s). split; [simpl; by rewrite Hlf, Hcr, Hs|].
      destruct Hline as [->| ->]; [by left|by right].
    + apply (IH rest); [lia|]. rewrite Hrest. by apply list_elem_of_further.
Qed.

Lemma file_lines_strip_one_line text l :
  l ∈ Py.file_lines text → Py.one_line (Py.strip l) = true.
Proof.
  intros Hin.
  destruct (file_lines_shape_bounded (String.length text) text l) as (s & Hs & [->| ->]);
    [done..| |].
  - by apply strip_one_line.
  - rewrite strip_app_newline. by apply strip_one_line.
Qed.

(** A file of one-line pieces, each followed by a newline, is read back
    piece by piece. *)
Lemma file_lines_text_of pieces :
  Forall (λ s, Py.one_line s = true) pieces →
  Py.file_lines (Py.text_of ((λ s, s +:+ Py.NL) <$> pieces)) = (λ s, s +:+ Py.NL) <$> pieces.
Proof.
  induction 1 as [|s pieces Hs _ IH]; [done|].
  rewrite fmap_cons. cbn [Py.text_of foldr]. fold (Py.text_of ((λ s, s +:+ Py.NL) <$> pieces)).
  rewrite string_app_assoc, file_lines_one_line by done. by rewrite IH.
Qed.

Lemma result_bind_ok {A B} (m : result A) (k : A → result B) y :
  result_bind m k = ok y → ∃ x, m = ok x ∧ k x = ok y.
Proof. destruct m as [e|x]; simpl; [done|]. intros Hk. by exists x. Qed.

Ltac invert_bind H :=
  let x := fresh "x" in
  let Hx := fresh "Hx" in
  apply result_bind_ok in H as (x & Hx & H).

(** ** Slices, exchanges and the shuffle *)

(** Slices with bounds that are not negative. *)
Lemma slice_to {A} (n : Z) (l : list A) :
  (0 ≤ n)%Z → Py.slice None (Some n) l = take (Z.to_nat n) l.
Proof.
  intros Hn. unfold Py.slice, Py.slice_index.
  destruct (Z.ltb_spec n 0); [lia|]. rewrite Z.sub_0_r.
  change (drop (Z.to_nat 0) l) with l.
  destruct (Z.le_gt_cases n (Z.of_nat (length l))).
  - by rewrite Z.min_l.
  - rewrite Z.min_r, Nat2Z.id, !take_ge by lia. done.
Qed.

Lemma slice_from {A} (n : Z) (l : list A) :
  (0 ≤ n)%Z → Py.slice (Some n) None l = drop (Z.to_nat n) l.
Proof.
  intros Hn. unfold Py.slice, Py.slice_index.
  destruct (Z.ltb_spec n 0); [lia|].
  destruct (Z.le_gt_cases n (Z.of_nat (length l))).
  - rewrite Z.min_l by lia. apply take_ge. rewrite length_drop. lia.
  - rewrite Z.min_r, Z.sub_diag by lia.
    by rewrite (drop_ge l (Z.to_nat n)) by lia.
Qed.

Lemma slice_between {A} (n m : Z) (l : list A) :
  (0 ≤ n)%Z → (0 ≤ m)%Z →
  Py.slice (Some n) (Some (n + m)%Z) l = take (Z.to_nat m) (drop (Z.to_nat n) l).
Proof.
  intros Hn Hm. unfold Py.slice, Py.slice_index.
  destruct (Z.ltb_spec n 0); [lia|]. destruct (Z.ltb_spec (n + m) 0); [lia|].
  destruct (Z.le_gt_cases n (Z.of_nat (length l))).
  - rewrite (Z.min_l n) by lia.
    destruct (Z.le_gt_cases (n + m) (Z.of_nat (length l))).
    + rewrite Z.min_l by lia. f_equal. lia.
    + rewrite Z.min_r by lia. rewrite !take_ge; [done|..]; rewrite length_drop; lia.
  - rewrite !Z.min_r by lia. rewrite Z.sub_diag. simpl.
    rewrite (drop_ge l (Z.to_nat n)) by lia. by rewrite take_nil.
Qed.

(** Exchanging two items and shuffling permute a list. *)
Lemma insert_Permutation {A} (l : list A) i a b :
  l !! i = Some a → <[i:=b]> l ≡ₚ b :: delete i l.
Proof.
  revert i. induction l as [|x l IH]; intros [|i] Hi; simplify_eq/=; [done|].
  rewrite (IH i Hi). apply perm_swap.
Qed.

Lemma swap_Permutation {A} i j (x : list A) : Py.swap i j x ≡ₚ x.
Proof.
  unfold Py.swap.
  destruct (x !! i) as [a|] eqn:Hi; [|done].
  destruct (x !! j) as [b|] eqn:Hj; [|done].
  revert i j Hi Hj. induction x as [|c x IH]; intros [|i] [|j] Hi Hj; simplify_eq/=.
  - done.
  - rewrite (insert_Permutation x j b a Hj).
    rewrite (delete_Permutation x j b Hj) at 2. apply perm_swap.
  - rewrite (insert_Permutation x i a b Hi).
    rewrite (delete_Permutation x i a Hi) at 2. apply perm_swap.
  - f_equiv. by apply IH.
Qed.

Section ShuffleFacts.
Context {RT : Runtime}.

Lemma shuffle_from_Permutation {A} i (x : list A) g : shuffle_from i x g ≡ₚ x.
Proof.
  revert x g. induction i as [|i IH]; intros x g; [done|].
  simpl. destruct (randbelow _ g) as [j g']. rewrite IH. apply swap_Permutation.
Qed.

Lemma shuffle_Permutation {A} seed (x : list A) : shuffle seed x ≡ₚ x.
Proof. apply shuffle_from_Permutation. Qed.

End ShuffleFacts.

(** ** Dictionaries and sorted items *)

Lemma dict_lookup_set {A} (k k' : string) (v : A) d :
  Py.dict_lookup k' (Py.dict_set k v d) =
  if decide (k' = k) then Some v else Py.dict_lookup k' d.
Proof.
  induction d as [|[k0 v0] d IH]; simpl.
  - by destruct (decide (k' = k)).
  - destruct (decide (k = k0)) as [->|Hne]; simpl.
    + by destruct (decide (k' = k0)).
    + rewrite IH. destruct (decide (k' = k0)) as [->|]; [|done].
      by rewrite decide_False.
Qed.

Lemma dict_lookup_is_Some {A} (k : string) (d : list (string * A)) :
  is_Some (Py.dict_lookup k d) ↔ k ∈ d.*1.
Proof.
  induction d as [|[k0 v0] d IH]; simpl.
  - rewrite elem_of_nil. split; [by intros [? ?]|done].
  - rewrite elem_of_cons. destruct (decide (k = k0)) as [->|Hne].
    + split; eauto.
    + rewrite IH. split; [by right|]. by intros [?|?].
Qed.

Lemma dict_set_keys_old {A} (k : string) (v : A) d :
  k ∈ d.*1 → (Py.dict_set k v d).*1 = d.*1.
Proof.
  induction d as [|[k0 v0] d IH]; intros Hin.
  - by apply elem_of_nil in Hin.
  - cbn [Py.dict_set]. destruct (decide (k = k0)) as [->|Hne]; [done|].
    rewrite !fmap_cons, IH; [done|].
    rewrite fmap_cons in Hin. by apply elem_of_cons in Hin as [?|?].
Qed.

Lemma dict_set_keys_new {A} (k : string) (v : A) d :
  k ∉ d.*1 → (Py.dict_set k v d).*1 = d.*1 ++ [k].
Proof.
  induction d as [|[k0 v0] d IH]; intros Hnin; [done|].
  cbn [Py.dict_set]. rewrite fmap_cons in Hnin.
  apply not_elem_of_cons in Hnin as [Hne Hnin].
  rewrite decide_False by done. by rewrite !fmap_cons, IH.
Qed.

Lemma dict_set_NoDup {A} (k : string) (v : A) d :
  NoDup d.*1 → NoDup (Py.dict_set k v d).*1.
Proof.
  intros Hd. destruct (decide (k ∈ d.*1)) as [Hin|Hnin].
  - by rewrite dict_set_keys_old.
  - rewrite dict_set_keys_new by done.
    apply NoDup_app. split; [done|]. split; [|apply NoDup_singleton].
    by intros x Hx ->%list_elem_of_singleton.
Qed.

Section SortFacts.
Context {A : Type}.

Lemma key_le_order (a b : string * A) : key_le a b = true ↔ key_order a b.
Proof. unfold key_le, key_order, String.le. by rewrite Is_true_true. Qed.

Global Instance key_order_trans : Transitive (@key_order A).
Proof. intros a b c. unfold key_order. apply transitivity. Qed.

Lemma key_order_total (a b : string * A) : key_order a b ∨ key_order b a.
Proof. unfold key_order. apply total, _. Qed.

Lemma insert_sorted_Permutation (x : string * A) l :
  Py.insert_sorted key_le x l ≡ₚ x :: l.
Proof.
  induction l as [|y l IH]; [done|]. simpl.
  destruct (key_le x y); [done|]. rewrite IH. apply perm_swap.
Qed.

Lemma sorted_Permutation (l : list (string * A)) : Py.sorted key_le l ≡ₚ l.
Proof.
  induction l as [|x l IH]; [done|]. simpl.
  by rewrite insert_sorted_Permutation, IH.
Qed.

Lemma insert_sorted_Sorted (x : string * A) l :
  Sorted key_order l → Sorted key_order (Py.insert_sorted key_le x l).
Proof.
  induction 1 as [|y l Hl IH Hy]; simpl.
  - by repeat constructor.
  - destruct (key_le x y) eqn:Hxy.
    + apply key_le_order in Hxy. by repeat constructor.
    + assert (key_order y x) as Hyx.
      { destruct (key_order_total x y) as [Hle|]; [|done].
        apply key_le_order in Hle. congruence. }
      constructor; [done|].
      destruct l as [|z l]; simpl in *; [by constructor|].
      destruct (key_le x z); constructor; [done|]. by inversion Hy.
Qed.

Lemma sorted_Sorted (l : list (string * A)) : Sorted key_order (Py.sorted key_le l).
Proof.
  induction l as [|x l IH]; [constructor|]. simpl. by apply insert_sorted_Sorted.
Qed.

Lemma NoDup_keys_agree (l : list (string * A)) k v1 v2 :
  NoDup l.*1 → (k, v1) ∈ l → (k, v2) ∈ l → v1 = v2.
Proof.
  induction l as [|[k0 v0] l IH]; simpl; intros Hnd H1 H2.
  - by apply elem_of_nil in H1.
  - apply NoDup_cons in Hnd as [Hk0 Hnd].
    apply elem_of_cons in H1 as [H1|H1]; apply elem_of_cons in H2 as [H2|H2];
      simplify_eq; try done.
    + destruct Hk0. apply list_elem_of_fmap. by exists (k0, v2).
    + destruct Hk0. apply list_elem_of_fmap. by exists (k0, v1).
    + by apply IH.
Qed.

(** With distinct keys the sorted items depend on the set of items only. *)
Lemma sorted_unique (l1 l2 : list (string * A)) :
  NoDup l1.*1 → l1 ≡ₚ l2 → Py.sorted key_le l1 = Py.sorted key_le l2.
Proof.
  intros Hnd Hperm.
  apply (Sorted_unique_strong key_order); [|apply sorted_Sorted..|].
  - intros [k1 v1] [k2 v2] H1 H2 Hle Hge.
    rewrite sorted_Permutation in H1. rewrite sorted_Permutation, <- Hperm in H2.
    assert (k1 = k2) as -> by (by apply (anti_symm String.le)).
    f_equal. by eapply NoDup_keys_agree.
  - by rewrite !sorted_Permutation.
Qed.

Lemma dict_lookup_elem_of (d : list (string * A)) k v :
  NoDup d.*1 → Py.dict_lookup k d = Some v ↔ (k, v) ∈ d.
Proof.
  induction d as [|[k0 v0] d IH]; simpl; intros Hnd.
  - rewrite elem_of_nil. done.
  - apply NoDup_cons in Hnd as [Hk0 Hnd]. rewrite elem_of_cons.
    destruct (decide (k = k0)) as [->|Hne].
    + split; [intros [= ->]; by left|].
      intros [[= ->]|Hin]; [done|].
      destruct Hk0. apply list_elem_of_fmap. by exists (k0, v).
    + rewrite IH by done. split; [by right|]. by intros [[= ? ?]|?].
Qed.

End SortFacts.

(** ** The conversational validator *)

Section ValidatorFacts.
Context {RT : Runtime}.

Lemma check_messages_all_user i msgs :
  Validate.only_user_turns msgs →
  (∃ reason, Validate.check_messages i msgs = ok (Some reason)) ∨
  Validate.check_messages i msgs = ok None.
Proof.
  intros Hall. revert i. induction Hall as [|m msgs (md & -> & Hrole) _ IH]; intros i.
  - by right.
  - simpl. rewrite Hrole. simpl.
    destruct (Validate.bad_content _); [left; eauto|]. apply IH.
Qed.

Lemma no_assistant_among_users msgs :
  Validate.only_user_turns msgs →
  existsb (Validate.has_role "assistant") msgs = false.
Proof.
  induction 1 as [|m msgs (md & -> & Hrole) _ IH]; [done|].
  simpl. by rewrite Hrole, IH.
Qed.

(** C5: the validator accepts the record of a user turn "hi" and an
    assistant turn "ok"; it rejects that record when the content of the
    first, of the second or of both turns is empty; and it rejects every
    record whose messages are all user turns, whatever their contents and
    their number, as it does the record of two well-formed user turns. *)
Theorem validate_chat_examples :
  Validate.validate_chat (Validate.two_turns "hi" "ok") = ok (true, None)
  ∧ Validate.validate_chat (Validate.two_turns "" "ok")
    = ok (false, Some "message[0] missing content")
  ∧ Validate.validate_chat (Validate.two_turns "hi" "")
    = ok (false, Some "message[1] missing content")
  ∧ Validate.validate_chat (Validate.two_turns "" "")
    = ok (false, Some "message[0] missing content")
  ∧ Validate.validate_chat
      (JDict [("messages", JList [Validate.turn "user" "hi"; Validate.turn "user" "there"])])
    = ok (false, Some "need at least one user and one assistant message")
  ∧ ∀ d msgs,
      Py.dict_lookup "messages" d = Some (JList msgs) →
      Validate.only_user_turns msgs →
      ∃ reason, Validate.validate_chat (JDict d) = ok (false, Some reason).
Proof.
  repeat split; try reflexivity.
  intros d msgs Hd Hall. unfold Validate.validate_chat, obj_get, dict_get.
  rewrite Hd. simpl. destruct (Nat.ltb _ _); [eauto|].
  destruct (check_messages_all_user 0 msgs Hall) as [[reason ->]| ->]; simpl; [eauto|].
  rewrite (no_assistant_among_users msgs Hall), andb_false_r. simpl. eauto.
Qed.

Lemma check_messages_turn i role content rest :
  role ∈ Validate.roles →
  Validate.check_messages i (Retrain.turn role content :: rest) =
  if Py.is_empty (Py.strip content)
  then ok (Some ("message[" +:+ Py.str_of_Z (Z.of_nat i) +:+ "] missing content"))
  else Validate.check_messages (S i) rest.
Proof.
  intros Hrole.
  change (Validate.check_messages i (Retrain.turn role content :: rest))
    with (result_bind (ok (negb (bool_decide (role ∈ Validate.roles))))
            (λ bad_role : bool,
               if bad_role
               then ok (Some ("message[" +:+ Py.str_of_Z (Z.of_nat i) +:+ "] invalid role"))
               else if Py.is_empty (Py.strip content)
                    then ok (Some ("message[" +:+ Py.str_of_Z (Z.of_nat i) +:+ "] missing content"))
                    else Validate.check_messages (S i) rest)).
  by rewrite (bool_decide_eq_true_2 (role ∈ Validate.roles) Hrole).
Qed.









End ValidatorFacts.

(** ** The retrain policy *)

Section RetrainFacts.
Context {RT : Runtime}.

Lemma float_of_zero : py_float (JInt 0) = ok 0%float.
Proof. reflexivity. Qed.

Lemma need_nil_iff a rd :
  Retrain.need a rd = [] ↔
  PrimFloat.ltb (Retrain.pass_rate rd) (Retrain.min_pass a) = false ∧
  PrimFloat.ltb (Retrain.max_repair a) (Retrain.repair_rate rd) = false ∧
  (0 <? Retrain.schema_bad rd)%Z = false ∧
  (0 <? Retrain.parse_bad rd)%Z = false.
Proof.
  unfold Retrain.need.
  destruct (PrimFloat.ltb (Retrain.pass_rate rd) _),
    (PrimFloat.ltb (Retrain.max_repair a) _),
    (0 <? Retrain.schema_bad rd)%Z, (0 <? Retrain.parse_bad rd)%Z;
    simpl; split; (intros (? & ? & ? & ?) || intros ?); try done.
Qed.

Lemma triggered_iff a rd :
  Retrain.triggered a rd = true ↔
  PrimFloat.ltb (Retrain.pass_rate rd) (Retrain.min_pass a) = true ∨
  PrimFloat.ltb (Retrain.max_repair a) (Retrain.repair_rate rd) = true ∨
  (0 < Retrain.schema_bad rd)%Z ∨
  (0 < Retrain.parse_bad rd)%Z.
Proof.
  rewrite <- !Z.ltb_lt.
  unfold Retrain.triggered.
  destruct (Retrain.need a rd) eqn:Hneed.
  - apply need_nil_iff in Hneed as (-> & -> & -> & ->).
    split; [done|]. by intros [?|[?|[?|?]]].
  - split; [intros _|done].
    destruct (PrimFloat.ltb (Retrain.pass_rate rd) _) eqn:H1; [by left|].
    destruct (PrimFloat.ltb (Retrain.max_repair a) _) eqn:H2; [by right; left|].
    destruct (0 <? Retrain.schema_bad rd)%Z eqn:H3; [by right; right; left|].
    destruct (0 <? Retrain.parse_bad rd)%Z eqn:H4; [by right; right; right|].
    assert (Retrain.need a rd = []) as Hnil by (by apply need_nil_iff).
    congruence.
Qed.

(** What a successful [read_summary] has read. *)
Lemma read_summary_inv d rd :
  Retrain.read_summary (JDict d) = ok rd →
  py_float (dict_get_or d "passRate" (JInt 0)) = ok (Retrain.pass_rate rd)
  ∧ py_float (dict_get_or d "repairedRate" (JInt 0)) = ok (Retrain.repair_rate rd)
  ∧ Retrain.taxonomy rd = py_or (dict_get d "taxonomy") (JDict [])
  ∧ result_bind (obj_get_or (Retrain.taxonomy rd) "SCHEMA" (JInt 0)) py_int
    = ok (Retrain.schema_bad rd)
  ∧ result_bind (obj_get_or (Retrain.taxonomy rd) "JSON_PARSE" (JInt 0)) py_int
    = ok (Retrain.parse_bad rd).
Proof.
  intros Hread. unfold Retrain.read_summary in Hread.
  repeat invert_bind Hread. injection Hread as <-. simpl.
  simpl in Hx, Hx1, Hx3. injection Hx as <-. injection Hx1 as <-. injection Hx3 as <-.
  rewrite Hx0, Hx2, Hx4, Hx6. simpl. by rewrite Hx5, Hx7.
Qed.

Lemma count_of_entry taxonomy t k z :
  (taxonomy = JDict t ∨ (t = [] ∧ taxonomy = JDict [])) →
  result_bind (obj_get_or taxonomy k (JInt 0)) py_int = ok z →
  (Py.dict_lookup k t = None → z = 0%Z) ∧
  (∀ z', Py.dict_lookup k t = Some (JInt z') → z = z').
Proof.
  intros [->|[-> ->]]; simpl; unfold dict_get_or; intros Hz; split.
  - intros Hk. rewrite Hk in Hz. simpl in Hz. by injection Hz as <-.
  - intros z' Hk. rewrite Hk in Hz. simpl in Hz. by injection Hz as <-.
  - intros _. simpl in Hz. by injection Hz as <-.
  - by intros z' [=].
Qed.

(** What [float] and [int] make of a field of the summary, kind by kind. *)
Lemma py_float_inv v x :
  py_float v = ok x →
  match v with
  | JFloat p => x = p
  | JInt z => Py.float_of_Z z = Some x
  | JBool b => x = (if b then 1 else 0)%float
  | JStr s => float_of_str s = Some x
  | JNull | JList _ | JDict _ => False
  end.
Proof.
  destruct v as [|b|z|p|s|l|d]; simpl; try done.
  - by intros [= <-].
  - destruct (Py.float_of_Z z); simpl; [by intros [= <-]|done].
  - by intros [= <-].
  - destruct (float_of_str s); simpl; [by intros [= <-]|done].
Qed.

Lemma py_int_inv v z :
  py_int v = ok z →
  match v with
  | JInt z' => z = z'
  | JFloat f => Py.int_of_float f = Some z
  | JBool b => z = (if b then 1 else 0)%Z
  | JStr s => int_of_str s = Some z
  | JNull | JList _ | JDict _ => False
  end.
Proof.
  destruct v as [|b|z'|f|s|l|d]; simpl; try done.
  - by intros [= <-].
  - by intros [= <-].
  - unfold py_int_of_float. destruct (Py.int_of_float f); simpl; [by intros [= <-]|done].
  - destruct (int_of_str s); simpl; [by intros [= <-]|done].
Qed.

Lemma count_of_field taxonomy t k v z :
  (taxonomy = JDict t ∨ (t = [] ∧ taxonomy = JDict [])) →
  result_bind (obj_get_or taxonomy k (JInt 0)) py_int = ok z →
  Py.dict_lookup k t = Some v → py_int v = ok z.
Proof.
  intros [->|[-> ->]]; simpl; unfold dict_get_or; intros Hz Hk.
  - by rewrite Hk in Hz.
  - done.
Qed.

(** C6: for a summary that can be read, the policy triggers exactly when
    the pass rate is below [min_pass], or the repaired rate is above
    [max_repair], or the [SCHEMA] count is positive, or the [JSON_PARSE]
    count is positive.  The rates and the counts are the fields of the
    summary: a rate is the field itself when it is a float, the float of
    that value when it is an integer (so 1 reads as 1.0 and 0 as 0.0), 1.0
    or 0.0 when it is a boolean, the parsed float when it is a string, and
    no other kind can be read; a count is the field itself when it is an
    integer, its integer part when it is a float, 1 or 0 when it is a
    boolean, the parsed integer when it is a string.  A missing [passRate]
    or [repairedRate] reads as 0.0, a missing, null or otherwise false
    [taxonomy] or a missing entry of it as the count 0; so a summary with
    no [passRate] triggers as soon as [min_pass] is positive. *)
Theorem retrain_policy_decision (a : Retrain.args) (d : list (string * json))
    (rd : Retrain.readings) :
  Retrain.read_summary (JDict d) = ok rd →
  (Retrain.triggered a rd = true ↔
     PrimFloat.ltb (Retrain.pass_rate rd) (Retrain.min_pass a) = true ∨
     PrimFloat.ltb (Retrain.max_repair a) (Retrain.repair_rate rd) = true ∨
     (0 < Retrain.schema_bad rd)%Z ∨
     (0 < Retrain.parse_bad rd)%Z)
  ∧ (∀ p, Py.dict_lookup "passRate" d = Some (JFloat p) → Retrain.pass_rate rd = p)
  ∧ (∀ q, Py.dict_lookup "repairedRate" d = Some (JFloat q) → Retrain.repair_rate rd = q)
  ∧ (∀ t, dict_get d "taxonomy" = JDict t →
       (∀ z, Py.dict_lookup "SCHEMA" t = Some (JInt z) → Retrain.schema_bad rd = z) ∧
       (∀ z, Py.dict_lookup "JSON_PARSE" t = Some (JInt z) → Retrain.parse_bad rd = z) ∧
       (Py.dict_lookup "SCHEMA" t = None → Retrain.schema_bad rd = 0%Z) ∧
       (Py.dict_lookup "JSON_PARSE" t = None → Retrain.parse_bad rd = 0%Z))
  ∧ (Py.dict_lookup "passRate" d = None → Retrain.pass_rate rd = 0%float)
  ∧ (Py.dict_lookup "repairedRate" d = None → Retrain.repair_rate rd = 0%float)
  ∧ (Py.dict_lookup "taxonomy" d = None →
       Retrain.schema_bad rd = 0%Z ∧ Retrain.parse_bad rd = 0%Z)
  ∧ (∀ v, Py.dict_lookup "passRate" d = Some v →
       match v with
       | JFloat p => Retrain.pass_rate rd = p
       | JInt z => Py.float_of_Z z = Some (Retrain.pass_rate rd)
       | JBool b => Retrain.pass_rate rd = (if b then 1 else 0)%float
       | JStr s => float_of_str s = Some (Retrain.pass_rate rd)
       | JNull | JList _ | JDict _ => False
       end)
  ∧ (∀ v, Py.dict_lookup "repairedRate" d = Some v →
       match v with
       | JFloat q => Retrain.repair_rate rd = q
       | JInt z => Py.float_of_Z z = Some (Retrain.repair_rate rd)
       | JBool b => Retrain.repair_rate rd = (if b then 1 else 0)%float
       | JStr s => float_of_str s = Some (Retrain.repair_rate rd)
       | JNull | JList _ | JDict _ => False
       end)
  ∧ (Py.dict_lookup "passRate" d = Some (JInt 1) → Retrain.pass_rate rd = 1%float)
  ∧ (Py.dict_lookup "passRate" d = Some (JInt 0) → Retrain.pass_rate rd = 0%float)
  ∧ (Py.dict_lookup "repairedRate" d = Some (JInt 1) → Retrain.repair_rate rd = 1%float)
  ∧ (Py.dict_lookup "repairedRate" d = Some (JInt 0) → Retrain.repair_rate rd = 0%float)
  ∧ (∀ t v, dict_get d "taxonomy" = JDict t →
       Py.dict_lookup "SCHEMA" t = Some v →
       match v with
       | JInt z => Retrain.schema_bad rd = z
       | JFloat f => Py.int_of_float f = Some (Retrain.schema_bad rd)
       | JBool b => Retrain.schema_bad rd = (if b then 1 else 0)%Z
       | JStr s => int_of_str s = Some (Retrain.schema_bad rd)
       | JNull | JList _ | JDict _ => False
       end)
  ∧ (∀ t v, dict_get d "taxonomy" = JDict t →
       Py.dict_lookup "JSON_PARSE" t = Some v →
       match v with
       | JInt z => Retrain.parse_bad rd = z
       | JFloat f => Py.int_of_float f = Some (Retrain.parse_bad rd)
       | JBool b => Retrain.parse_bad rd = (if b then 1 else 0)%Z
       | JStr s => int_of_str s = Some (Retrain.parse_bad rd)
       | JNull | JList _ | JDict _ => False
       end)
  ∧ (truthy (dict_get d "taxonomy") = false →
       Retrain.schema_bad rd = 0%Z ∧ Retrain.parse_bad rd = 0%Z)
  ∧ (Py.dict_lookup "taxonomy" d = Some JNull →
       Retrain.schema_bad rd = 0%Z ∧ Retrain.parse_bad rd = 0%Z)
  ∧ (Py.dict_lookup "taxonomy" d = Some (JDict []) →
       Retrain.schema_bad rd = 0%Z ∧ Retrain.parse_bad rd = 0%Z)
  ∧ (Py.dict_lookup "passRate" d = None →
       PrimFloat.ltb 0%float (Retrain.min_pass a) = true →
       Retrain.triggered a rd = true).
Proof.
  intros Hread.
  destruct (read_summary_inv d rd Hread) as (Hpass & Hrepair & Htax & Hschema & Hparse).
  assert (Py.dict_lookup "passRate" d = None → Retrain.pass_rate rd = 0%float) as Hp0.
  { intros Hmiss. unfold dict_get_or in Hpass. rewrite Hmiss in Hpass.
    change (py_float (JInt 0) = ok (Retrain.pass_rate rd)) in Hpass.
    rewrite float_of_zero in Hpass. by injection Hpass as <-. }
  assert (∀ v, Py.dict_lookup "passRate" d = Some v → py_float v = ok (Retrain.pass_rate rd))
    as Hpv.
  { intros v Hv. unfold dict_get_or in Hpass. by rewrite Hv in Hpass. }
  assert (∀ v, Py.dict_lookup "repairedRate" d = Some v →
               py_float v = ok (Retrain.repair_rate rd)) as Hrv.
  { intros v Hv. unfold dict_get_or in Hrepair. by rewrite Hv in Hrepair. }
  assert (truthy (dict_get d "taxonomy") = false → Retrain.taxonomy rd = JDict []) as Hfalsy.
  { intros Hf. rewrite Htax. unfold py_or. by rewrite Hf. }
  assert (Retrain.taxonomy rd = JDict [] →
          Retrain.schema_bad rd = 0%Z ∧ Retrain.parse_bad rd = 0%Z) as Hnone.
  { intros Hnil.
    assert (Retrain.taxonomy rd = JDict [] ∨
            ((@nil (string * json)) = [] ∧ Retrain.taxonomy rd = JDict []))
      as Hcase by (by left).
    destruct (count_of_entry _ [] "SCHEMA" _ Hcase Hschema) as [Hs0 _].
    destruct (count_of_entry _ [] "JSON_PARSE" _ Hcase Hparse) as [Hj0 _].
    split; [by apply Hs0|by apply Hj0]. }
  assert (∀ t, dict_get d "taxonomy" = JDict t →
               Retrain.taxonomy rd = JDict t ∨ (t = [] ∧ Retrain.taxonomy rd = JDict []))
    as Hcases.
  { intros t Ht. rewrite Ht in Htax. rewrite Htax. destruct t; [right|left]; done. }
  split_and!.
  - apply triggered_iff.
  - intros p Hp. by injection (Hpv _ Hp) as <-.
  - intros q Hq. by injection (Hrv _ Hq) as <-.
  - intros t Ht.
    destruct (count_of_entry _ t "SCHEMA" _ (Hcases t Ht) Hschema) as [Hs0 Hs].
    destruct (count_of_entry _ t "JSON_PARSE" _ (Hcases t Ht) Hparse) as [Hj0 Hj].
    split_and!; auto.
  - done.
  - intros Hmiss. unfold dict_get_or in Hrepair. rewrite Hmiss in Hrepair.
    change (py_float (JInt 0) = ok (Retrain.repair_rate rd)) in Hrepair.
    rewrite float_of_zero in Hrepair. by injection Hrepair as <-.
  - intros Hmiss. apply Hnone. rewrite Htax. unfold dict_get. by rewrite Hmiss.
  - intros v Hv. exact (py_float_inv v _ (Hpv v Hv)).
  - intros v Hv. exact (py_float_inv v _ (Hrv v Hv)).
  - intros Hv. by injection (Hpv _ Hv) as <-.
  - intros Hv. by injection (Hpv _ Hv) as <-.
  - intros Hv. by injection (Hrv _ Hv) as <-.
  - intros Hv. by injection (Hrv _ Hv) as <-.
  - intros t v Ht Hk. apply py_int_inv.
    exact (count_of_field _ t "SCHEMA" v _ (Hcases t Ht) Hschema Hk).
  - intros t v Ht Hk. apply py_int_inv.
    exact (count_of_field _ t "JSON_PARSE" v _ (Hcases t Ht) Hparse Hk).
  - intros Hf. by apply Hnone, Hfalsy.
  - intros Hnull. apply Hnone, Hfalsy. unfold dict_get. by rewrite Hnull.
  - intros Hnil. apply Hnone, Hfalsy. unfold dict_get. by rewrite Hnil.
  - intros Hmiss Hmin. apply triggered_iff. left. by rewrite (Hp0 Hmiss).
Qed.

(** Without a harvest destination the exit status tells the decision. *)
Lemma io_for_print l fs tr t :
  io_for l print (World fs tr t) = (inr (), World fs (tr ++ map EvStdout l) t).
Proof.
  revert tr. induction l as [|x l IH]; intros tr.
  - change (io_for [] print) with (io_ret ()). unfold io_ret.
    by rewrite app_nil_r.
  - change (io_for (x :: l) print) with (io_bind (print x) (λ _, io_for l print)).
    unfold io_bind, print, log. simpl. rewrite IH. by rewrite <- app_assoc.
Qed.

(** The start of [main]: the summary is opened, read and interpreted. *)
Lemma main_reads a fs tr t text r rd :
  fs !! Retrain.results a = Some text →
  json_loads text = Some r →
  Retrain.read_summary r = ok rd →
  Retrain.main a (World fs tr t) =
  let w := World fs (tr ++ [EvOpen (Retrain.results a) "r"]) t in
  if Retrain.triggered a rd then
    io_bind (print ("RETRAIN TRIGGERED: " +:+ Py.join ", " (Retrain.need a rd)))
      (λ _, io_bind (print ("Snapshot: " +:+ py_str (Retrain.snapshot rd)))
        (λ _, io_bind (match Retrain.out_given a with
                       | Some path => Retrain.harvest_to path r
                       | None => io_ret ()
                       end)
          (λ _, io_bind (io_for Retrain.suggestions print)
            (λ _, io_raise (SysExit 1))))) w
  else
    io_bind (print "OK: thresholds satisfied. No retrain triggered.")
      (λ _, io_raise (SysExit 0)) w.
Proof.
  intros Hfile Hload Hread.
  cbv [Retrain.main io_bind open_read read_text io_lift log files trace clock].
  rewrite Hfile. cbv beta iota. rewrite Hfile. cbv [default from_option id]. rewrite Hload.
  cbv [or_raise]. rewrite Hread. unfold ok. cbv beta iota zeta.
  destruct (Retrain.triggered a rd); reflexivity.
Qed.

Lemma main_exit_status a w text r rd :
  files w !! Retrain.results a = Some text →
  json_loads text = Some r →
  Retrain.read_summary r = ok rd →
  Retrain.out_given a = None →
  ∃ tr, Retrain.main a w
        = (inl (SysExit (if Retrain.triggered a rd then 1 else 0)%Z),
           World (files w) tr (clock w)).
Proof.
  intros Hfile Hload Hread Hout. destruct w as [fs tr t]. simpl in Hfile.
  rewrite (main_reads a fs tr t text r rd) by done. cbv zeta.
  destruct (Retrain.triggered a rd).
  - rewrite Hout. cbv [io_bind print log io_ret files trace clock].
    rewrite io_for_print. cbv [io_raise]. simpl. eauto.
  - cbv [io_bind print log io_raise files trace clock]. simpl. eauto.
Qed.

Lemma failing_cons_ok d rest :
  Retrain.is_ok d = true → Retrain.failing (JDict d :: rest) = Retrain.failing rest.
Proof. intros H. unfold Retrain.failing. simpl. by rewrite H. Qed.

Lemma failing_cons_bad d rest :
  Retrain.is_ok d = false → Retrain.failing (JDict d :: rest) = d :: Retrain.failing rest.
Proof. intros H. unfold Retrain.failing. simpl. by rewrite H. Qed.

Lemma harvest_appends path details n fs tr t old :
  Retrain.all_objects details →
  fs !! path = Some old →
  Retrain.harvest path details n (World fs tr t) =
  (inr (n + length (Retrain.failing details)),
   World (<[path := old +:+ Retrain.harvested_text t (Retrain.failing details)]> fs) tr
         (t + length (Retrain.failing details))).
Proof.
  intros Hobj. revert n fs t old.
  induction Hobj as [|v details [d ->] _ IH]; intros n fs t old Hold.
  - simpl. unfold io_ret. rewrite string_app_nil_r, insert_id by done.
    by rewrite !Nat.add_0_r.
  - destruct (Retrain.is_ok d) eqn:Hok.
    + rewrite failing_cons_ok by done. cbn [Retrain.harvest]. rewrite Hok. by apply IH.
    + rewrite failing_cons_bad by done. cbn [Retrain.harvest]. rewrite Hok.
      unfold io_bind, utcnow, write_text, set_file. simpl. rewrite Hold. simpl.
      erewrite IH by apply lookup_insert_eq.
      rewrite insert_insert_eq, !string_app_assoc, <- !Nat.add_succ_comm.
      reflexivity.
Qed.

(** When the destination has a directory part, the harvest step appends
    one line per failing detail entry, in order, to what the file held. *)
Lemma harvest_to_appends path r details fs tr t :
  Py.is_empty (os_path_dirname path) = false →
  obj_get_or r "details" (JList []) = ok (JList details) →
  Retrain.all_objects details →
  ∃ tr',
    Retrain.harvest_to path r (World fs tr t) =
    (inr (),
     World (<[path := default "" (fs !! path) +:+
                      Retrain.harvested_text t (Retrain.failing details)]> fs) tr'
           (t + length (Retrain.failing details))).
Proof.
  intros Hdir Hdetails Hobj.
  unfold Retrain.harvest_to, io_bind, os_makedirs. rewrite Hdir.
  unfold open_append, io_bind, log, set_file, io_lift. simpl.
  rewrite Hdetails. simpl.
  erewrite harvest_appends; [|done|apply lookup_insert_eq].
  unfold print, log. simpl. rewrite insert_insert_eq. eauto.
Qed.

(** A run that triggers, with a destination that has a directory part:
    the harvest file keeps what it held and gains one line per failing
    detail entry; a run that does not trigger leaves every file as it is. *)
Lemma main_harvests a w text d rd path details :
  files w !! Retrain.results a = Some text →
  json_loads text = Some (JDict d) →
  Retrain.read_summary (JDict d) = ok rd →
  Retrain.out_given a = Some path →
  Py.is_empty (os_path_dirname path) = false →
  dict_get_or d "details" (JList []) = JList details →
  Retrain.all_objects details →
  ∃ tr, Retrain.main a w
        = if Retrain.triggered a rd then
            (inl (SysExit 1),
             World (<[path := default "" (files w !! path) +:+
                              Retrain.harvested_text (clock w) (Retrain.failing details)]>
                      (files w))
                   tr (clock w + length (Retrain.failing details)))
          else (inl (SysExit 0), World (files w) tr (clock w)).
Proof.
  intros Hfile Hload Hread Hout Hdir Hdetails Hobj. destruct w as [fs tr t].
  simpl in *.
  rewrite (main_reads a fs tr t text (JDict d) rd) by done. cbv zeta.
  destruct (Retrain.triggered a rd).
  - rewrite Hout. cbv [io_bind print log files trace clock].
    edestruct (harvest_to_appends path (JDict d) details fs) as [tr' ->]; [done| |done|].
    { simpl. by rewrite Hdetails. }
    rewrite io_for_print. cbv [io_raise]. eauto.
  - cbv [io_bind print log io_raise files trace clock]. eauto.
Qed.

End RetrainFacts.

(** The policy on a summary with no field, with the default thresholds. *)
Lemma retrain_policy_decision_witness :
  @Retrain.read_summary Reference.runtime (JDict []) = ok Reference.no_readings
  ∧ @Retrain.triggered Reference.runtime Reference.retrain_default Reference.no_readings = true.
Proof.
  assert (@Retrain.read_summary Reference.runtime (JDict []) = ok Reference.no_readings)
    as Hread by reflexivity.
  split; [exact Hread|].
  destruct (@retrain_policy_decision Reference.runtime Reference.retrain_default []
              Reference.no_readings Hread)
    as (_ & _ & _ & _ & _ & _ & _ & _ & _ & _ & _ & _ & _ & _ & _ & _ & _ & _ & Hmissing).
  apply Hmissing; reflexivity.
Defined.

(** A pass rate written as the integer 1 reads as 1.0 and does not
    trigger by itself. *)
Lemma integer_rate_example :
  @Retrain.read_summary Reference.runtime (JDict [("passRate", JInt 1)])
  = ok (Retrain.Readings 1%float 0%float (JDict []) 0 0)
  ∧ @Retrain.triggered Reference.runtime Reference.retrain_default
      (Retrain.Readings 1%float 0%float (JDict []) 0 0) = false.
Proof. split; reflexivity. Qed.

(** C7, at a destination without a directory part: the policy triggers,
    two of the three detail entries are failing, and the run stops at
    [os.makedirs] on the empty directory name; every file is as it was,
    the harvest file still holds its one line. *)
Theorem harvest_to_bare_file_name_fails :
  let run := @Retrain.main Reference.runtime Reference.retrain_bare Reference.retrain_world in
  run.1 = inl (FileNotFoundError "")
  ∧ files run.2 = files Reference.retrain_world
  ∧ files run.2 !! "failures.jsonl" = Some ("old" +:+ Py.NL)
  ∧ @obj_get_or Reference.summary_bad "details" (JList [])
    = ok (JList [JDict [("ok", JBool false); ("name", JStr "t1"); ("error", JStr "boom")];
                 JDict [("ok", JBool true); ("name", JStr "t2")];
                 JDict [("name", JStr "t3")]])
  ∧ length (Retrain.failing
              [JDict [("ok", JBool false); ("name", JStr "t1"); ("error", JStr "boom")];
               JDict [("ok", JBool true); ("name", JStr "t2")];
               JDict [("name", JStr "t3")]]) = 2.
Proof. vm_compute. repeat split. Qed.

(** ** The check of the fractions *)

Section CheckFacts.
Context {RT : Runtime}.

(** C8: when the sum of the three fractions, as the scripts compute it, is
    off 1 by more than 1e-9, both splitters stop with the same message and
    leave the world as it was: no file opened, read, created or written,
    nothing printed. *)
Theorem splitters_stop_before_io (w : world) :
  (∀ a : GroupSplit.args,
     fractions_off (GroupSplit.train a) (GroupSplit.val a) (GroupSplit.test a) = true →
     GroupSplit.main a w = (inl (SystemExit "train+val+test must sum to 1.0"), w))
  ∧ (∀ a : Split.args,
       fractions_off (Split.train a) (Split.val a) (Split.test a) = true →
       Split.main a w = (inl (SystemExit "train+val+test must sum to 1.0"), w)).
Proof.
  split; intros a Hoff.
  - unfold GroupSplit.main. by rewrite Hoff.
  - unfold Split.main. by rewrite Hoff.
Qed.

End CheckFacts.

Lemma fractions_examples :
  fractions_off 0.5 0.3 0.1 = true ∧ fractions_off 0.9 0.1 0 = false
  ∧ fractions_off 0.5 0.5 0 = false ∧ fractions_off (-0.5) 0.5 1 = false.
Proof. repeat split. Qed.

(** ** The statistics of an input with no record *)

Section StatsFacts.
Context {RT : Runtime}.




End StatsFacts.


(** ** The group-aware splitter *)

Section GroupFacts.
Context {RT : Runtime}.

Lemma line_group_strip kp s :
  GroupSplit.line_group kp (Py.strip s) = GroupSplit.line_group kp s.
Proof. unfold GroupSplit.line_group. by rewrite strip_idemp. Qed.

Lemma line_group_written kp s :
  GroupSplit.line_group kp (Py.rstrip s +:+ Py.NL) = GroupSplit.line_group kp s.
Proof. unfold GroupSplit.line_group. by rewrite strip_written_line. Qed.

Lemma read_step_spec kp st raw :
  GroupSplit.read_step kp st raw =
  match GroupSplit.line_group kp raw with
  | Some k => (GroupSplit.add_line st.1 k (Py.strip raw), S st.2)
  | None => st
  end.
Proof.
  unfold GroupSplit.read_step, GroupSplit.line_group.
  destruct (Py.is_empty _); [done|]. by destruct (json_loads _).
Qed.

Lemma members_snoc kp k lines raw :
  GroupSplit.members kp k (lines ++ [raw]) =
  GroupSplit.members kp k lines ++
  (if decide (GroupSplit.line_group kp raw = Some k) then [Py.strip raw] else []).
Proof.
  unfold GroupSplit.members. rewrite filter_app, fmap_app. f_equal.
  rewrite filter_cons, filter_nil. by destruct (decide _).
Qed.

(** The dictionary built by the reading loop: its keys are distinct, and
    a key is bound to the records of its group, in the order of the input,
    when there is one. *)
Lemma read_groups_spec kp lines :
  NoDup (GroupSplit.read_groups kp lines).1.*1 ∧
  ∀ k, Py.dict_lookup k (GroupSplit.read_groups kp lines).1 =
       match GroupSplit.members kp k lines with
       | [] => None
       | ms => Some ms
       end.
Proof.
  unfold GroupSplit.read_groups.
  induction lines as [|raw lines [IHnd IH]] using rev_ind.
  - split; [apply NoDup_nil_2|done].
  - rewrite foldl_app. simpl. rewrite read_step_spec.
    destruct (GroupSplit.line_group kp raw) as [k0|] eqn:Hraw.
    + split; [by apply dict_set_NoDup|]. intros k. simpl.
      unfold GroupSplit.add_line. rewrite dict_lookup_set, members_snoc, Hraw.
      destruct (decide (k = k0)) as [->|Hne].
      * rewrite decide_True by done. rewrite IH.
        by destruct (GroupSplit.members kp k0 lines).
      * rewrite decide_False by congruence. by rewrite IH, app_nil_r.
    + split; [done|]. intros k. rewrite IH, members_snoc, Hraw.
      rewrite decide_False by done. by rewrite app_nil_r.
Qed.

Lemma members_nonempty kp k lines :
  GroupSplit.members kp k lines ≠ [] ↔ k ∈ GroupSplit.groups_in kp lines.
Proof.
  unfold GroupSplit.members, GroupSplit.groups_in.
  rewrite elem_of_list_to_set, list_elem_of_omap.
  split.
  - intros Hne. destruct (filter _ lines) as [|raw rest] eqn:Hf; [done|].
    assert (raw ∈ filter (λ raw, GroupSplit.line_group kp raw = Some k) lines) as Hin
      by (rewrite Hf; apply list_elem_of_here).
    apply list_elem_of_filter in Hin as [? ?]. eauto.
  - intros (raw & Hin & Hk) Hnil.
    apply fmap_nil_inv in Hnil.
    assert (raw ∈ filter (λ raw, GroupSplit.line_group kp raw = Some k) lines) as Hf
      by (by apply list_elem_of_filter).
    rewrite Hnil in Hf. by apply elem_of_nil in Hf.
Qed.

Lemma keys_are_groups kp lines k :
  k ∈ (GroupSplit.read_groups kp lines).1.*1 ↔ k ∈ GroupSplit.groups_in kp lines.
Proof.
  rewrite <- dict_lookup_is_Some, <- members_nonempty.
  destruct (read_groups_spec kp lines) as [_ ->].
  destruct (GroupSplit.members kp k lines); split; try done.
Qed.

Lemma flatten_members kp lines ks :
  GroupSplit.flatten (GroupSplit.read_groups kp lines).1 ks =
  mjoin (map (λ k, GroupSplit.members kp k lines) ks).
Proof.
  unfold GroupSplit.flatten. f_equal. apply map_ext. intros k.
  destruct (read_groups_spec kp lines) as [_ ->].
  by destruct (GroupSplit.members kp k lines).
Qed.

Lemma member_group kp k lines ln :
  ln ∈ GroupSplit.members kp k lines → GroupSplit.line_group kp ln = Some k.
Proof.
  unfold GroupSplit.members. intros (raw & -> & Hin)%list_elem_of_fmap.
  apply list_elem_of_filter in Hin as [Hk _]. by rewrite line_group_strip.
Qed.

(** The groups found in the file of a partition are the keys given to it. *)
Lemma groups_in_written kp lines ks :
  (∀ k, k ∈ ks → k ∈ GroupSplit.groups_in kp lines) →
  GroupSplit.groups_in kp
    (GroupSplit.written (GroupSplit.flatten (GroupSplit.read_groups kp lines).1 ks))
  = list_to_set ks.
Proof.
  intros Hks. rewrite flatten_members. apply set_eq. intros k.
  unfold GroupSplit.groups_in, GroupSplit.written.
  rewrite !elem_of_list_to_set, list_elem_of_omap. split.
  - intros (wl & Hwl & Hk).
    apply list_elem_of_fmap in Hwl as (ln & -> & Hln).
    rewrite line_group_written in Hk.
    apply list_elem_of_join in Hln as (ms & Hln & Hms).
    apply list_elem_of_fmap in Hms as (k' & -> & Hk').
    apply member_group in Hln. by simplify_eq.
  - intros Hk. pose proof (Hks k Hk) as Hne%members_nonempty.
    destruct (GroupSplit.members kp k lines) as [|ln rest] eqn:Hm; [done|].
    exists (Py.rstrip ln +:+ Py.NL). split.
    + apply list_elem_of_fmap. exists ln. split; [done|].
      apply list_elem_of_join. exists (ln :: rest). split; [apply list_elem_of_here|].
      apply list_elem_of_fmap. exists k. by rewrite Hm.
    + rewrite line_group_written. apply (member_group kp k lines).
      rewrite Hm. apply list_elem_of_here.
Qed.

End GroupFacts.

(** ** Counts from fractions that are not negative *)

Lemma binary_round_aux_not_negative mx ex lx :
  not_negative (binary_round_aux prec emax false mx ex lx).
Proof.
  unfold binary_round_aux.
  destruct (shr_fexp prec emax mx ex lx) as [mrs' e'].
  destruct (shr_fexp prec emax _ e' loc_Exact) as [mrs'' e''].
  destruct (shr_m mrs''); simpl; [done| |done].
  by destruct (Z.leb e'' _).
Qed.

Lemma binary_normalize_not_negative z :
  (0 ≤ z)%Z → not_negative (binary_normalize prec emax z 0 false).
Proof.
  intros Hz. destruct z as [|m|m]; simpl; [done| |lia].
  unfold binary_round. destruct (shl_align _ _ _) as [mz ez].
  apply binary_round_aux_not_negative.
Qed.

Lemma SFmul_not_negative x y :
  not_negative x → not_negative y → not_negative (SFmul prec emax x y).
Proof.
  destruct x as [sx|sx| |sx mx ex], y as [sy|sy| |sy my ey]; simpl; try done;
    try (by intros -> ->).
  intros -> ->. apply binary_round_aux_not_negative.
Qed.

Lemma leb_zero_not_negative f :
  PrimFloat.leb 0 f = true → not_negative (Prim2SF f).
Proof.
  rewrite FloatAxioms.leb_spec. change (Prim2SF 0) with (S754_zero false).
  unfold SFleb, SFcompare. destruct (Prim2SF f) as [s|[]| |[] m e]; simpl; done.
Qed.

Lemma binary_round_not_negative m e :
  not_negative (binary_round prec emax false m e).
Proof.
  unfold binary_round. destruct (shl_align _ _ _) as [mz ez].
  apply binary_round_aux_not_negative.
Qed.

(** The float of an integer that is not negative is not negative. *)
Lemma float_of_Z_not_negative z f :
  (0 ≤ z)%Z → Py.float_of_Z z = Some f → not_negative (Prim2SF f).
Proof.
  intros Hz. unfold Py.float_of_Z.
  pose proof (binary_normalize_not_negative z Hz) as Hsign.
  destruct (binary_normalize prec emax z 0 false) as [[]| | |s m e];
    try done; intros H; apply (inj Some) in H; subst f; try done.
  simpl in Hsign. subst s. unfold SF2Prim.
  rewrite FloatLemmas.Z_ldexp_spec, FloatAxioms.of_uint63_spec.
  pose proof (Uint63.to_Z_bounded (Uint63.of_Z (Z.pos m))) as [Hm _].
  pose proof (binary_normalize_not_negative _ Hm) as Hpm.
  destruct (binary_normalize prec emax _ 0 false) as [| | |s' m' e'];
    try done.
  simpl in Hpm. subst s'. apply binary_round_not_negative.
Qed.

Lemma int_of_float_not_negative f z :
  not_negative (Prim2SF f) → Py.int_of_float f = Some z → (0 ≤ z)%Z.
Proof.
  unfold Py.int_of_float. destruct (Prim2SF f) as [s|s| |s m e]; simpl; try done.
  - by intros _ [= <-].
  - intros -> [= <-]. destruct (Z.leb_spec 0 e).
    + apply Z.mul_nonneg_nonneg; [lia|]. by apply Z.pow_nonneg.
    + apply Z.div_pos; [lia|]. apply Z.pow_pos_nonneg; lia.
Qed.

(** The count computed from a fraction that is not negative is not
    negative. *)
Lemma count_of_fraction n frac z :
  PrimFloat.leb 0 frac = true →
  int_of_product n frac = ok z → (0 ≤ z)%Z.
Proof.
  intros Hfrac. unfold int_of_product, py_int_of_float.
  destruct (Py.float_of_Z (Z.of_nat n)) as [nf|] eqn:Hnf; simpl; [|done].
  destruct (Py.int_of_float (nf * frac)) as [z'|] eqn:Hz; [|done].
  intros [= <-]. apply (int_of_float_not_negative (nf * frac)); [|done].
  rewrite FloatAxioms.mul_spec. apply SFmul_not_negative.
  - apply (float_of_Z_not_negative (Z.of_nat n)); [lia|done].
  - by apply leb_zero_not_negative.
Qed.

Section AllocationFacts.
Context {RT : Runtime}.

Lemma allocate_inv a groups al :
  GroupSplit.allocate a groups = ok al →
  let keys := shuffle (GroupSplit.seed a) groups.*1 in
  ∃ nt nv,
    int_of_product (length keys) (GroupSplit.train a) = ok nt ∧
    int_of_product (length keys) (GroupSplit.val a) = ok nv ∧
    al = GroupSplit.Allocation keys nt nv
           (Py.slice None (Some nt) keys)
           (Py.slice (Some nt) (Some (nt + nv)%Z) keys)
           (Py.slice (Some (nt + nv)%Z) None keys)
           (GroupSplit.flatten groups (Py.slice None (Some nt) keys))
           (GroupSplit.flatten groups (Py.slice (Some nt) (Some (nt + nv)%Z) keys))
           (GroupSplit.flatten groups (Py.slice (Some (nt + nv)%Z) None keys)).
Proof.
  unfold GroupSplit.allocate. intros H.
  apply result_bind_ok in H as (nt & Hnt & H).
  apply result_bind_ok in H as (nv & Hnv & H).
  injection H as <-. by exists nt, nv.
Qed.

(** The cuts when neither count is negative. *)
Lemma cuts_of_counts a groups al :
  GroupSplit.allocate a groups = ok al →
  (0 ≤ GroupSplit.n_train al)%Z →
  (0 ≤ GroupSplit.n_val al)%Z →
  let total := length (GroupSplit.keys al) in
  let n_train := Z.to_nat (GroupSplit.n_train al) in
  let n_val := Z.to_nat (GroupSplit.n_val al) in
  GroupSplit.keys al = shuffle (GroupSplit.seed a) groups.*1
  ∧ GroupSplit.keys al ≡ₚ groups.*1
  ∧ int_of_product total (GroupSplit.train a) = ok (GroupSplit.n_train al)
  ∧ int_of_product total (GroupSplit.val a) = ok (GroupSplit.n_val al)
  ∧ GroupSplit.train_keys al = take n_train (GroupSplit.keys al)
  ∧ GroupSplit.val_keys al = take n_val (drop n_train (GroupSplit.keys al))
  ∧ GroupSplit.train_keys al ++ GroupSplit.val_keys al
    = take (n_train + n_val) (GroupSplit.keys al)
  ∧ GroupSplit.test_keys al = drop (n_train + n_val) (GroupSplit.keys al)
  ∧ length (GroupSplit.train_keys al) = n_train `min` total.
Proof.
  intros Halloc Hnt Hnv.
  apply allocate_inv in Halloc as (nt & nv & Hpt & Hpv & ->). simpl in *.
  rewrite slice_to, slice_between, slice_from by lia.
  rewrite Z2Nat.inj_add by lia.
  split_and!; try done.
  - apply shuffle_Permutation.
  - by rewrite take_take_drop.
  - by rewrite length_take.
Qed.

(** The counts of an allocation whose train and validation fractions are
    not negative are not negative. *)
Lemma allocation_counts a groups al :
  GroupSplit.allocate a groups = ok al →
  PrimFloat.leb 0 (GroupSplit.train a) = true →
  PrimFloat.leb 0 (GroupSplit.val a) = true →
  (0 ≤ GroupSplit.n_train al)%Z ∧ (0 ≤ GroupSplit.n_val al)%Z.
Proof.
  intros Halloc Htrain Hval.
  apply allocate_inv in Halloc as (nt & nv & Hpt & Hpv & ->). simpl.
  split.
  - exact (count_of_fraction _ _ _ Htrain Hpt).
  - exact (count_of_fraction _ _ _ Hval Hpv).
Qed.

(** C2, amended: after the seeded shuffle of the distinct group keys, and
    when neither the train nor the validation fraction is negative, train
    receives the first [n_train = int(total * train)] keys, validation the
    [n_val = int(total * val)] keys that follow, each count being the
    integer part of the product computed in binary64, so that train and
    validation together are the first [n_train + n_val] keys, and test
    receives the keys that remain; neither count is negative, and train
    holds [n_train] groups, or every group when there are fewer. *)
Theorem allocation_cuts a groups al :
  GroupSplit.allocate a groups = ok al →
  PrimFloat.leb 0 (GroupSplit.train a) = true →
  PrimFloat.leb 0 (GroupSplit.val a) = true →
  let total := length (GroupSplit.keys al) in
  let n_train := Z.to_nat (GroupSplit.n_train al) in
  let n_val := Z.to_nat (GroupSplit.n_val al) in
  GroupSplit.keys al = shuffle (GroupSplit.seed a) groups.*1
  ∧ GroupSplit.keys al ≡ₚ groups.*1
  ∧ int_of_product total (GroupSplit.train a) = ok (GroupSplit.n_train al)
  ∧ int_of_product total (GroupSplit.val a) = ok (GroupSplit.n_val al)
  ∧ (0 ≤ GroupSplit.n_train al)%Z
  ∧ (0 ≤ GroupSplit.n_val al)%Z
  ∧ GroupSplit.train_keys al = take n_train (GroupSplit.keys al)
  ∧ GroupSplit.val_keys al = take n_val (drop n_train (GroupSplit.keys al))
  ∧ GroupSplit.train_keys al ++ GroupSplit.val_keys al
    = take (n_train + n_val) (GroupSplit.keys al)
  ∧ GroupSplit.test_keys al = drop (n_train + n_val) (GroupSplit.keys al)
  ∧ length (GroupSplit.train_keys al) = n_train `min` total.
Proof.
  intros Halloc Htrain Hval.
  destruct (allocation_counts a groups al Halloc Htrain Hval) as [Hnt Hnv].
  destruct (cuts_of_counts a groups al Halloc Hnt Hnv)
    as (H1 & H2 & H3 & H4 & H5 & H6 & H7 & H8 & H9).
  by split_and!.
Qed.

Lemma partition_of_NoDup (keys : list string) n m :
  NoDup keys →
  let tr := take n keys in
  let va := take m (drop n keys) in
  let te := drop (n + m) keys in
  (∀ k, k ∈ tr → k ∉ va) ∧ (∀ k, k ∈ tr → k ∉ te) ∧ (∀ k, k ∈ va → k ∉ te)
  ∧ (∀ k, k ∈ keys ↔ k ∈ tr ∨ k ∈ va ∨ k ∈ te).
Proof.
  intros Hnd tr va te.
  assert (keys = tr ++ va ++ te) as Hsplit.
  { unfold tr, va, te. rewrite <- drop_drop, (take_drop m), (take_drop n). done. }
  rewrite Hsplit in Hnd.
  apply NoDup_app in Hnd as (_ & Hd1 & Hnd). apply NoDup_app in Hnd as (_ & Hd2 & _).
  split_and!.
  - intros k Hk Hk'. apply (Hd1 k Hk). apply elem_of_app; auto.
  - intros k Hk Hk'. apply (Hd1 k Hk). apply elem_of_app; auto.
  - intros k Hk Hk'. by apply (Hd2 k Hk).
  - intros k. rewrite Hsplit at 1. by rewrite !elem_of_app.
Qed.

(** The partition when neither of the two counts [int(total * train)] and
    [int(total * val)] is negative. *)
Lemma partition_of_counts a lines al :
  GroupSplit.split_lines a lines = ok al →
  (0 ≤ GroupSplit.n_train al)%Z →
  (0 ≤ GroupSplit.n_val al)%Z →
  GroupSplit.partitions_groups a lines al.
Proof.
  intros Halloc Hnt Hnv. unfold GroupSplit.split_lines in Halloc.
  set (kp := GroupSplit.group_key a) in *.
  apply allocate_inv in Halloc as (nt & nv & _ & _ & ->). simpl in Hnt, Hnv.
  set (keys := shuffle (GroupSplit.seed a) (GroupSplit.read_groups kp lines).1.*1).
  assert (keys ≡ₚ (GroupSplit.read_groups kp lines).1.*1) as Hperm
    by apply shuffle_Permutation.
  destruct (read_groups_spec kp lines) as [Hnd _].
  rewrite <- Hperm in Hnd.
  destruct (partition_of_NoDup keys (Z.to_nat nt) (Z.to_nat nv) Hnd)
    as (D1 & D2 & D3 & Hcover).
  assert (∀ k, k ∈ keys ↔ k ∈ GroupSplit.groups_in kp lines) as Hkeys.
  { intros k. rewrite Hperm. apply keys_are_groups. }
  unfold GroupSplit.partitions_groups. simpl. fold kp. fold keys.
  rewrite slice_to, slice_between, slice_from, Z2Nat.inj_add by lia.
  rewrite !groups_in_written.
  - split_and!.
    + intros k ?%elem_of_list_to_set ?%elem_of_list_to_set. by eapply D1.
    + intros k ?%elem_of_list_to_set ?%elem_of_list_to_set. by eapply D2.
    + intros k ?%elem_of_list_to_set ?%elem_of_list_to_set. by eapply D3.
    + apply set_eq. intros k. rewrite !elem_of_union, !elem_of_list_to_set.
      rewrite <- Hkeys, Hcover. tauto.
    + intros k Hk. apply Hkeys, Hcover in Hk.
      assert (∀ ks, k ∈ ks →
                ∀ raw, raw ∈ lines → GroupSplit.line_group kp raw = Some k →
                       Py.strip raw ∈ GroupSplit.flatten (GroupSplit.read_groups kp lines).1 ks)
        as Hin.
      { intros ks Hks raw Hraw Hgroup. rewrite flatten_members.
        apply list_elem_of_join. exists (GroupSplit.members kp k lines). split.
        - unfold GroupSplit.members. apply list_elem_of_fmap. exists raw.
          split; [done|]. by apply list_elem_of_filter.
        - apply list_elem_of_fmap. by exists k. }
      destruct Hk as [Hk|[Hk|Hk]]; eexists; (split; [|by apply Hin]).
      * apply list_elem_of_here.
      * apply list_elem_of_further, list_elem_of_here.
      * do 2 apply list_elem_of_further. apply list_elem_of_here.
  - intros k Hk. apply Hkeys, Hcover. auto.
  - intros k Hk. apply Hkeys, Hcover. auto.
  - intros k Hk. apply Hkeys, Hcover. auto.
Qed.

(** C1, amended: when neither the train nor the validation fraction is
    negative, the groups whose records stand in the three files are
    pairwise disjoint, together they are the groups of the input (the
    sentinel group among them), and all the records of a group are in one
    file. *)
Theorem split_partitions_groups a lines al :
  GroupSplit.split_lines a lines = ok al →
  PrimFloat.leb 0 (GroupSplit.train a) = true →
  PrimFloat.leb 0 (GroupSplit.val a) = true →
  GroupSplit.partitions_groups a lines al.
Proof.
  intros Hsplit Htrain Hval.
  destruct (allocation_counts a _ al Hsplit Htrain Hval) as [Hnt Hnv].
  by apply partition_of_counts.
Qed.

End AllocationFacts.


(** ** The files of the splitter *)

Lemma os_path_join_inj a b b' : os_path_join a b = os_path_join a b' → b = b'.
Proof.
  unfold os_path_join. destruct (Py.is_empty a); [done|].
  destruct (String.eqb a (rstrip_slashes a)); intros H.
  - by apply (inj (String.app a)), (inj (String.app "/")) in H.
  - by apply (inj (String.app a)) in H.
Qed.

Section SplitFiles.
Context {RT : Runtime}.

Lemma io_for_write path (f : string → string) lines fs tr t old :
  fs !! path = Some old →
  io_for lines (λ ln, write_text path (f ln)) (World fs tr t)
  = (inr (), World (<[path := old +:+ Py.text_of (f <$> lines)]> fs) tr t).
Proof.
  revert fs old. induction lines as [|ln lines IH]; intros fs old Hold.
  - change (io_for [] _) with (io_ret ()). unfold io_ret. simpl.
    by rewrite string_app_nil_r, insert_id.
  - change (io_for (ln :: lines) (λ ln, write_text path (f ln)))
      with (io_bind (write_text path (f ln))
              (λ _, io_for lines (λ ln, write_text path (f ln)))).
    cbv [io_bind write_text set_file files trace clock]. rewrite Hold.
    cbv [default from_option id].
    rewrite (IH _ (old +:+ f ln)) by apply lookup_insert_eq.
    by rewrite insert_insert_eq, string_app_assoc.
Qed.

Lemma write_lines_spec path lines fs tr t :
  write_lines path lines (World fs tr t)
  = (inr (),
     World (<[path := Py.text_of (GroupSplit.written lines)]> fs)
           (tr ++ [EvOpen path "w"]) t).
Proof.
  unfold write_lines, open_write.
  cbv [io_bind log set_file files trace clock].
  rewrite (io_for_write path _ lines _ _ _ "") by apply lookup_insert_eq.
  by rewrite insert_insert_eq.
Qed.

(** [main] on an input it can split: the three files hold the lines of
    the three partitions. *)
Lemma group_split_main_writes a w text al :
  fractions_off (GroupSplit.train a) (GroupSplit.val a) (GroupSplit.test a) = false →
  files w !! GroupSplit.inp a = Some text →
  GroupSplit.split_lines a (Py.file_lines text) = ok al →
  Py.is_empty (GroupSplit.outdir a) = false →
  ∃ w', GroupSplit.main a w = (inr (), w')
        ∧ files w' !! GroupSplit.train_path a
          = Some (Py.text_of (GroupSplit.written (GroupSplit.train_lines al)))
        ∧ files w' !! GroupSplit.val_path a
          = Some (Py.text_of (GroupSplit.written (GroupSplit.val_lines al)))
        ∧ files w' !! GroupSplit.test_path a
          = Some (Py.text_of (GroupSplit.written (GroupSplit.test_lines al))).
Proof.
  intros Hsum Hfile Hsplit Hdir. destruct w as [fs tr t]. simpl in Hfile.
  unfold GroupSplit.split_lines in Hsplit.
  unfold GroupSplit.main. rewrite Hsum.
  cbv [io_bind open_read read_text io_lift os_makedirs log]. cbn [files trace clock].
  rewrite Hfile. cbv beta iota. cbn [files trace clock].
  rewrite Hfile. cbv [default from_option id].
  rewrite Hsplit, Hdir. unfold ok. cbv beta iota.
  rewrite write_lines_spec. cbv beta iota.
  rewrite write_lines_spec. cbv beta iota.
  rewrite write_lines_spec. cbv beta iota.
  cbv [eprint log]. cbn [files trace clock].
  eexists. split; [reflexivity|]. cbn [files].
  fold (GroupSplit.train_path a) (GroupSplit.val_path a) (GroupSplit.test_path a).
  assert (GroupSplit.train_path a ≠ GroupSplit.val_path a) as H1
    by (by intros ?%os_path_join_inj).
  assert (GroupSplit.train_path a ≠ GroupSplit.test_path a) as H2
    by (by intros ?%os_path_join_inj).
  assert (GroupSplit.val_path a ≠ GroupSplit.test_path a) as H3
    by (by intros ?%os_path_join_inj).
  split_and!.
  - rewrite !lookup_insert_ne by (by apply not_eq_sym). apply lookup_insert_eq.
  - rewrite lookup_insert_ne by (by apply not_eq_sym). apply lookup_insert_eq.
  - apply lookup_insert_eq.
Qed.

(** The records the splitter keeps are stripped lines of the input. *)
Lemma read_groups_lines kp lines k ls ln :
  Py.dict_lookup k (GroupSplit.read_groups kp lines).1 = Some ls →
  ln ∈ ls → ∃ raw, raw ∈ lines ∧ ln = Py.strip raw.
Proof.
  destruct (read_groups_spec kp lines) as [_ ->].
  destruct (GroupSplit.members kp k lines) eqn:Hm; [done|]. intros [= <-]. rewrite <- Hm.
  unfold GroupSplit.members. intros (raw & -> & Hin)%list_elem_of_fmap.
  apply list_elem_of_filter in Hin as [_ Hin]. eauto.
Qed.

Lemma flatten_lines kp lines ks ln :
  ln ∈ GroupSplit.flatten (GroupSplit.read_groups kp lines).1 ks →
  ∃ raw, raw ∈ lines ∧ ln = Py.strip raw.
Proof.
  unfold GroupSplit.flatten.
  intros (ls & Hln & (k & -> & _)%list_elem_of_fmap)%list_elem_of_join.
  destruct (Py.dict_lookup k _) as [ls|] eqn:Hk; simpl in Hln.
  - by eapply read_groups_lines.
  - by apply elem_of_nil in Hln.
Qed.

(** Read back, the file of a partition gives the lines written to it. *)
Lemma written_read_back kp text ks :
  let part := GroupSplit.flatten (GroupSplit.read_groups kp (Py.file_lines text)).1 ks in
  Py.file_lines (Py.text_of (GroupSplit.written part)) = GroupSplit.written part.
Proof.
  intros part. unfold GroupSplit.written.
  rewrite (list_fmap_compose Py.rstrip (λ s, s +:+ Py.NL)).
  apply file_lines_text_of. apply Forall_forall.
  intros s (ln & -> & Hln)%list_elem_of_fmap.
  apply flatten_lines in Hln as (raw & Hraw & ->).
  apply rstrip_one_line. by eapply file_lines_strip_one_line.
Qed.

(** The three files of a split, read back, give the lines of the three
    partitions as they were written. *)
Lemma partition_files_read_back a text al :
  GroupSplit.split_lines a (Py.file_lines text) = ok al →
  Py.file_lines (Py.text_of (GroupSplit.written (GroupSplit.train_lines al)))
  = GroupSplit.written (GroupSplit.train_lines al)
  ∧ Py.file_lines (Py.text_of (GroupSplit.written (GroupSplit.val_lines al)))
    = GroupSplit.written (GroupSplit.val_lines al)
  ∧ Py.file_lines (Py.text_of (GroupSplit.written (GroupSplit.test_lines al)))
    = GroupSplit.written (GroupSplit.test_lines al).
Proof.
  intros Hsplit. unfold GroupSplit.split_lines in Hsplit.
  apply allocate_inv in Hsplit as (nt & nv & _ & _ & ->). simpl.
  split_and!; apply written_read_back.
Qed.

End SplitFiles.

(** The amended cuts on three groups and the fractions 0.5, 0.5 and 0. *)
Lemma allocation_cuts_witness :
  @GroupSplit.allocate Reference.runtime Reference.split_half
    (@GroupSplit.read_groups Reference.runtime "g" Reference.three_groups).1
  = ok Reference.alloc_half
  ∧ PrimFloat.leb 0 (GroupSplit.train Reference.split_half) = true
  ∧ PrimFloat.leb 0 (GroupSplit.val Reference.split_half) = true
  ∧ GroupSplit.keys Reference.alloc_half = ["c"; "b"; "a"]
  ∧ GroupSplit.train_keys Reference.alloc_half = take 1 ["c"; "b"; "a"]
  ∧ GroupSplit.train_keys Reference.alloc_half ++ GroupSplit.val_keys Reference.alloc_half
    = take (1 + 1) ["c"; "b"; "a"]
  ∧ GroupSplit.test_keys Reference.alloc_half = drop (1 + 1) ["c"; "b"; "a"].
Proof.
  assert (@GroupSplit.allocate Reference.runtime Reference.split_half
            (@GroupSplit.read_groups Reference.runtime "g" Reference.three_groups).1
          = ok Reference.alloc_half) as Hrun by (vm_compute; reflexivity).
  assert (PrimFloat.leb 0 (GroupSplit.train Reference.split_half) = true) as Htrain
    by reflexivity.
  assert (PrimFloat.leb 0 (GroupSplit.val Reference.split_half) = true) as Hval
    by reflexivity.
  split; [exact Hrun|]. split; [exact Htrain|]. split; [exact Hval|].
  split; [reflexivity|].
  destruct (@allocation_cuts Reference.runtime Reference.split_half _ _ Hrun Htrain Hval)
    as (_ & _ & _ & _ & _ & _ & Htr & _ & Htv & Hte & _).
  split; [exact Htr|]. split; [exact Htv|exact Hte].
Defined.

(** A count is the integer part of the product as the script computes it,
    in binary64: with 100 groups and the fraction 0.29 the product is
    28.999999999999996 and the count is 28, where the exact product is
    29. *)
Lemma count_of_binary64_product :
  int_of_product 100 0.29 = ok 28%Z ∧ int_of_product 100 0.5 = ok 50%Z.
Proof. split; vm_compute; reflexivity. Qed.

(** C2 as stated fails on three groups with the fractions 0.5, 0.5 and 0:
    the check of the sum passes, [floor(3 * (0.5 + 0.5))] is 3, yet train
    and validation together receive [floor(1.5) + floor(1.5) = 2] keys and
    the third goes to test. *)
Lemma cuts_differ_from_specification :
  @GroupSplit.split_lines Reference.runtime Reference.split_half Reference.three_groups
  = ok Reference.alloc_half
  ∧ fractions_off 0.5 0.5 0 = false
  ∧ int_of_product 3 (0.5 + 0.5)%float = ok 3%Z
  ∧ length (GroupSplit.train_keys Reference.alloc_half
            ++ GroupSplit.val_keys Reference.alloc_half) = 2
  ∧ length (GroupSplit.test_keys Reference.alloc_half) = 1
  ∧ ¬ GroupSplit.cuts_as_specified Reference.split_half Reference.alloc_half.
Proof.
  split; [vm_compute; reflexivity|].
  split; [reflexivity|]. split; [reflexivity|]. split; [reflexivity|].
  split; [reflexivity|].
  intros (c1 & c2 & _ & H2 & _ & Htv & _).
  vm_compute in H2. injection H2 as <-. vm_compute in Htv. discriminate.
Qed.

(** The amended partition on three groups and the fractions 0.5, 0.5, 0. *)
Lemma split_partitions_groups_witness :
  @GroupSplit.split_lines Reference.runtime Reference.split_half Reference.three_groups
  = ok Reference.alloc_half
  ∧ PrimFloat.leb 0 (GroupSplit.train Reference.split_half) = true
  ∧ PrimFloat.leb 0 (GroupSplit.val Reference.split_half) = true
  ∧ @GroupSplit.partitions_groups Reference.runtime Reference.split_half
      Reference.three_groups Reference.alloc_half.
Proof.
  assert (@GroupSplit.split_lines Reference.runtime Reference.split_half
            Reference.three_groups = ok Reference.alloc_half) as Hrun
    by (vm_compute; reflexivity).
  assert (PrimFloat.leb 0 (GroupSplit.train Reference.split_half) = true) as Htrain
    by reflexivity.
  assert (PrimFloat.leb 0 (GroupSplit.val Reference.split_half) = true) as Hval
    by reflexivity.
  split; [exact Hrun|]. split; [exact Htrain|]. split; [exact Hval|].
  exact (@split_partitions_groups Reference.runtime Reference.split_half
           Reference.three_groups Reference.alloc_half Hrun Htrain Hval).
Defined.

(** C1 as stated fails on four groups with the fractions -0.5, 0.5 and 1,
    whose sum is 1: [int(4 * -0.5)] is -2, so train is [keys[:-2]], the
    first two keys, while test is [keys[0:]], every key; the first key is
    in both files. *)
Lemma negative_fraction_overlap :
  @GroupSplit.split_lines Reference.runtime Reference.split_negative Reference.four_groups
  = ok Reference.alloc_negative
  ∧ fractions_off (-0.5) 0.5 1 = false
  ∧ GroupSplit.n_train Reference.alloc_negative = (-2)%Z
  ∧ GroupSplit.train_keys Reference.alloc_negative
    = take 2 (GroupSplit.keys Reference.alloc_negative)
  ∧ GroupSplit.test_keys Reference.alloc_negative = GroupSplit.keys Reference.alloc_negative
  ∧ ¬ @GroupSplit.partitions_groups Reference.runtime Reference.split_negative
        Reference.four_groups Reference.alloc_negative.
Proof.
  split; [vm_compute; reflexivity|].
  split; [reflexivity|]. split; [reflexivity|]. split; [reflexivity|].
  split; [reflexivity|].
  intros (_ & Hdisjoint & _).
  apply (Hdisjoint "d"); apply (bool_decide_unpack _); vm_compute; exact I.
Qed.

(** ** The canonical digest *)

Section CanonicalFacts.
Context {RT : Runtime}.

Lemma encode_items_eq sort_keys indent level d :
  map (λ '(k, x), (k, json_encode sort_keys indent (S level) x)) d
  = encode_item sort_keys indent level <$> d.
Proof. apply map_ext. by intros [k x]. Qed.

Lemma encode_items_keys sort_keys indent level d :
  (encode_item sort_keys indent level <$> d).*1 = d.*1.
Proof. rewrite <- list_fmap_compose. by apply list_fmap_ext. Qed.

(** Equal dictionaries give the same items to sort. *)
Lemma encode_items_Permutation indent level d1 d2 :
  NoDup d1.*1 → NoDup d2.*1 →
  (∀ k, is_Some (Py.dict_lookup k d1) ↔ is_Some (Py.dict_lookup k d2)) →
  (∀ k v1 v2, Py.dict_lookup k d1 = Some v1 → Py.dict_lookup k d2 = Some v2 →
              json_encode true indent (S level) v1 = json_encode true indent (S level) v2) →
  encode_item true indent level <$> d1 ≡ₚ encode_item true indent level <$> d2.
Proof.
  intros Hnd1 Hnd2 Hkeys Hvals.
  assert (∀ da db,
            NoDup da.*1 → NoDup db.*1 →
            (∀ k, is_Some (Py.dict_lookup k da) → is_Some (Py.dict_lookup k db)) →
            (∀ k v1 v2, Py.dict_lookup k da = Some v1 → Py.dict_lookup k db = Some v2 →
                        json_encode true indent (S level) v1
                        = json_encode true indent (S level) v2) →
            ∀ x, x ∈ encode_item true indent level <$> da →
                 x ∈ encode_item true indent level <$> db) as Hsub.
  { intros da db Hda Hdb Hk Hv x ([k v] & -> & Hin)%list_elem_of_fmap.
    apply dict_lookup_elem_of in Hin; [|done].
    destruct (Hk k) as [v' Hv']; [by eauto|].
    apply list_elem_of_fmap. exists (k, v').
    split; [|by apply dict_lookup_elem_of].
    unfold encode_item. simpl. f_equal. by eapply Hv. }
  apply NoDup_Permutation.
  - apply (NoDup_fmap_1 fst). by rewrite encode_items_keys.
  - apply (NoDup_fmap_1 fst). by rewrite encode_items_keys.
  - intros x. split; apply Hsub; try done.
    + intros k. by apply Hkeys.
    + intros k. by apply Hkeys.
    + intros k v1 v2 H1 H2. symmetry. by eapply Hvals.
Qed.

(** Serialization with sorted keys does not see the order of the keys. *)
Lemma json_encode_sorted_equiv a b :
  json_equiv a b → wf_json a → wf_json b →
  ∀ indent level, json_encode true indent level a = json_encode true indent level b.
Proof.
  induction 1 as [| | | | |l1 l2 Hlen _ IH|d1 d2 Hkeys _ IH]; intros Ha Hb indent level;
    try reflexivity.
  - inversion_clear Ha as [| | | | |? Hl1|]. inversion_clear Hb as [| | | | |? Hl2|].
    assert (map (json_encode true indent (S level)) l1
            = map (json_encode true indent (S level)) l2) as Hmap.
    { apply list_eq. intros i. rewrite !list_lookup_fmap.
      destruct (l1 !! i) as [v1|] eqn:H1, (l2 !! i) as [v2|] eqn:H2; simpl.
      - f_equal. eapply IH; eauto using list_elem_of_lookup_2.
      - apply lookup_lt_Some in H1. apply lookup_ge_None in H2. lia.
      - apply lookup_ge_None in H1. apply lookup_lt_Some in H2. lia.
      - done. }
    simpl. rewrite Hmap.
    destruct l1, l2; simplify_eq/=; done.
  - inversion_clear Ha as [| | | | | |? Hnd1 Hd1]. inversion_clear Hb as [| | | | | |? Hnd2 Hd2].
    assert (Py.sorted key_le (encode_item true indent level <$> d1)
            = Py.sorted key_le (encode_item true indent level <$> d2)) as Hsorted.
    { apply sorted_unique; [by rewrite encode_items_keys|].
      apply encode_items_Permutation; try done.
      intros k v1 v2 H1 H2. eapply IH; eauto.
      - eapply Hd1. by apply dict_lookup_elem_of.
      - eapply Hd2. by apply dict_lookup_elem_of. }
    simpl. rewrite !encode_items_eq, Hsorted.
    destruct d1 as [|[k1 x1] d1], d2 as [|[k2 x2] d2]; try done.
    + destruct (Hkeys k2) as [_ Hk]. simpl in Hk. rewrite decide_True in Hk by done.
      by destruct Hk as [? ?]; [eauto|].
    + destruct (Hkeys k1) as [Hk _]. simpl in Hk. rewrite decide_True in Hk by done.
      by destruct Hk as [? ?]; [eauto|].
Qed.

End CanonicalFacts.

(** ** The deduplicator *)

Section DedupeFacts.
Context {RT : Runtime}.

Lemma encode_utf8_surrogate_free s :
  Py.surrogate_free s = true → is_Some (Py.encode_utf8 s).
Proof.
  induction s as [|c s IH]; simpl; [eauto|].
  destruct (Ascii.eqb c Py.surrogate); simpl; [done|].
  intros [b ->]%IH. eauto.
Qed.

Lemma encode_utf8_surrogate s :
  Py.surrogate_free s = false → Py.encode_utf8 s = None.
Proof.
  induction s as [|c s IH]; simpl; [done|].
  destruct (Ascii.eqb c Py.surrogate); simpl; [done|].
  by intros ->%IH.
Qed.

Lemma h_encodable r : Dedupe.encodable r → ∃ key, Dedupe.h r = ok key.
Proof.
  intros [b Hb]%encode_utf8_surrogate_free. unfold Dedupe.h. rewrite Hb. simpl. eauto.
Qed.

Lemma h_not_encodable r :
  ¬ Dedupe.encodable r → Dedupe.h r = throw UnicodeEncodeError.
Proof.
  unfold Dedupe.encodable. intros Hne. unfold Dedupe.h.
  rewrite encode_utf8_surrogate; [done|]. by destruct (Py.surrogate_free _).
Qed.

Lemma parseable_cons line lines :
  Dedupe.parseable (line :: lines) =
  match Dedupe.parse_line line with
  | Some obj => obj :: Dedupe.parseable lines
  | None => Dedupe.parseable lines
  end.
Proof. reflexivity. Qed.

Lemma nonblank_cons raw lines :
  length (filter (λ raw, nonblank raw = true) (raw :: lines))
  = (if Py.is_empty (Py.strip raw) then 0 else 1)
    + length (filter (λ raw, nonblank raw = true) lines).
Proof.
  rewrite filter_cons.
  destruct (decide (nonblank raw = true)) as [H|H]; unfold nonblank in H;
    destruct (Py.is_empty (Py.strip raw)); simpl in *; congruence.
Qed.

Lemma digest_among key (before : list string) :
  ok key ∈ (ok <$> before : list (result string)) ↔ key ∈ before.
Proof.
  split.
  - intros (k & [= ->] & Hk)%list_elem_of_fmap. done.
  - intros Hk. by apply list_elem_of_fmap_2.
Qed.

Lemma dedupe_step_blank st raw :
  Py.is_empty (Py.strip raw) = true → Dedupe.step st raw = (st, None).
Proof. unfold Dedupe.step. by intros ->. Qed.

Lemma dedupe_step_invalid st raw :
  Py.is_empty (Py.strip raw) = false → json_loads (Py.strip raw) = None →
  Dedupe.step st raw
  = (Dedupe.State (Dedupe.seen st) (S (Dedupe.n_in st)) (Dedupe.n_out st)
       (Dedupe.written st), None).
Proof. unfold Dedupe.step. by intros -> ->. Qed.

Lemma dedupe_step_record st raw obj key :
  Py.is_empty (Py.strip raw) = false → json_loads (Py.strip raw) = Some obj →
  Dedupe.h obj = ok key →
  Dedupe.step st raw =
  (if decide (key ∈ Dedupe.seen st)
   then Dedupe.State (Dedupe.seen st) (S (Dedupe.n_in st)) (Dedupe.n_out st)
          (Dedupe.written st)
   else Dedupe.State ({[key]} ∪ Dedupe.seen st) (S (Dedupe.n_in st))
          (S (Dedupe.n_out st))
          (Dedupe.written st +:+ json_dumps false obj +:+ Py.NL), None).
Proof.
  unfold Dedupe.step. intros -> -> ->. unfold ok. by destruct (decide _).
Qed.

Lemma dedupe_step_raises st raw obj e :
  Py.is_empty (Py.strip raw) = false → json_loads (Py.strip raw) = Some obj →
  Dedupe.h obj = throw e →
  Dedupe.step st raw
  = (Dedupe.State (Dedupe.seen st) (S (Dedupe.n_in st)) (Dedupe.n_out st)
       (Dedupe.written st), Some e).
Proof. unfold Dedupe.step. by intros -> -> ->. Qed.

(** The loop from any state whose [seen] holds the digests [before], on
    lines whose records can all be encoded. *)
Lemma run_from st before lines :
  Forall Dedupe.encodable (Dedupe.parseable lines) →
  Dedupe.seen st = list_to_set before →
  let kept := Dedupe.first_occurrences (ok <$> before) (Dedupe.parseable lines) in
  Dedupe.run st lines =
  (Dedupe.State
     (list_to_set (before ++ Dedupe.digests kept))
     (Dedupe.n_in st + length (filter (λ raw, nonblank raw = true) lines))
     (Dedupe.n_out st + length kept)
     (Dedupe.written st +:+ Dedupe.render kept), None).
Proof.
  revert st before. induction lines as [|raw lines IH]; intros st before Henc Hseen.
  - simpl. rewrite app_nil_r, <- Hseen, string_app_nil_r, !Nat.add_0_r. by destruct st.
  - cbv zeta. rewrite nonblank_cons. rewrite parseable_cons in Henc |- *.
    cbn [Dedupe.run]. unfold Dedupe.parse_line in *.
    destruct (Py.is_empty (Py.strip raw)) eqn:Hblank.
    { rewrite (dedupe_step_blank st raw Hblank). cbv beta iota.
      rewrite (IH st before Henc Hseen). done. }
    destruct (json_loads (Py.strip raw)) as [obj|] eqn:Hload.
    + apply Forall_cons in Henc as [Hobj Henc].
      destruct (h_encodable obj Hobj) as [key Hkey].
      rewrite (dedupe_step_record st raw obj key Hblank Hload Hkey).
      cbn [Dedupe.first_occurrences]. rewrite Hkey.
      change ((ok <$> before) ++ [ok key]) with ((ok <$> before) ++ (ok <$> [key])).
      rewrite <- fmap_app.
      destruct (decide (key ∈ Dedupe.seen st)) as [Hin|Hnin]; cbv beta iota.
      * rewrite Hseen, elem_of_list_to_set in Hin.
        rewrite bool_decide_eq_true_2 by (by apply digest_among).
        rewrite (IH _ (before ++ [key]) Henc).
        -- cbn [Dedupe.seen Dedupe.n_in Dedupe.n_out Dedupe.written].
           f_equal. f_equal; [|lia].
           rewrite !list_to_set_app_L. simpl. set_solver.
        -- cbn [Dedupe.seen]. rewrite Hseen, list_to_set_app_L. simpl. set_solver.
      * rewrite Hseen, elem_of_list_to_set in Hnin.
        rewrite bool_decide_eq_false_2 by (by rewrite digest_among).
        rewrite (IH _ (before ++ [key]) Henc).
        -- cbn [Dedupe.seen Dedupe.n_in Dedupe.n_out Dedupe.written length Dedupe.render foldr].
           unfold Dedupe.digests at 2. cbn [omap list_omap]. rewrite Hkey.
           fold (Dedupe.digests
                   (Dedupe.first_occurrences (ok <$> before ++ [key]) (Dedupe.parseable lines))).
           rewrite <- app_assoc, !string_app_assoc. simpl. f_equal. f_equal; lia.
        -- cbn [Dedupe.seen]. rewrite Hseen, list_to_set_app_L. simpl. set_solver.
    + rewrite (dedupe_step_invalid st raw Hblank Hload). cbv beta iota.
      rewrite (IH _ before Henc) by exact Hseen.
      cbn [Dedupe.seen Dedupe.n_in Dedupe.n_out Dedupe.written]. f_equal. f_equal; lia.
Qed.

(** The loop stops at the first record whose serialization holds a lone
    surrogate, after the lines before it. *)
Lemma run_stops st before raw rest obj st' :
  Dedupe.run st before = (st', None) →
  Dedupe.parse_line raw = Some obj →
  ¬ Dedupe.encodable obj →
  Dedupe.run st (before ++ raw :: rest)
  = (Dedupe.State (Dedupe.seen st') (S (Dedupe.n_in st')) (Dedupe.n_out st')
       (Dedupe.written st'), Some UnicodeEncodeError).
Proof.
  intros Hrun Hrec Hobj. revert st Hrun.
  induction before as [|line before IH]; intros st Hrun.
  - injection Hrun as ->. cbn [app Dedupe.run].
    unfold Dedupe.parse_line in Hrec.
    destruct (Py.is_empty (Py.strip raw)) eqn:Hblank; [done|].
    by rewrite (dedupe_step_raises _ raw obj _ Hblank Hrec (h_not_encodable obj Hobj)).
  - cbn [app Dedupe.run] in Hrun |- *.
    destruct (Dedupe.step st line) as [st1 [e|]]; [done|]. by apply IH.
Qed.

Lemma first_occurrences_sublist before rs :
  Dedupe.first_occurrences before rs `sublist_of` rs.
Proof.
  revert before. induction rs as [|r rs IH]; intros before; simpl; [done|].
  destruct (bool_decide _); [apply sublist_cons|apply sublist_skip]; apply IH.
Qed.

Lemma first_occurrences_fresh before rs r :
  r ∈ Dedupe.first_occurrences before rs → Dedupe.h r ∉ before.
Proof.
  revert before. induction rs as [|r0 rs IH]; intros before; simpl.
  - by intros ?%elem_of_nil.
  - destruct (bool_decide _) eqn:Hd.
    + intros Hin%IH. intros ?. apply Hin, elem_of_app. auto.
    + apply bool_decide_eq_false in Hd.
      intros [->|Hin%IH]%elem_of_cons; [done|].
      intros ?. apply Hin, elem_of_app. auto.
Qed.

Lemma first_occurrences_NoDup before rs :
  NoDup (Dedupe.h <$> Dedupe.first_occurrences before rs).
Proof.
  revert before. induction rs as [|r rs IH]; intros before; simpl; [constructor|].
  destruct (bool_decide _); [apply IH|].
  rewrite fmap_cons. apply NoDup_cons. split; [|apply IH].
  intros (r' & Heq & Hin%first_occurrences_fresh)%list_elem_of_fmap.
  apply Hin, elem_of_app. right. rewrite Heq. apply list_elem_of_here.
Qed.

Lemma first_occurrences_complete before rs r :
  r ∈ rs →
  Dedupe.h r ∈ before ∨ Dedupe.h r ∈ Dedupe.h <$> Dedupe.first_occurrences before rs.
Proof.
  revert before. induction rs as [|r0 rs IH]; intros before; simpl.
  - by intros ?%elem_of_nil.
  - intros [->|Hin]%elem_of_cons.
    + destruct (bool_decide _) eqn:Hd.
      * apply bool_decide_eq_true in Hd. by left.
      * right. rewrite fmap_cons. apply list_elem_of_here.
    + destruct (IH (before ++ [Dedupe.h r0]) Hin) as [Hb|Hk].
      * apply elem_of_app in Hb as [?|Heq%list_elem_of_singleton]; [by left|].
        rewrite Heq.
        destruct (bool_decide _) eqn:Hd.
        -- apply bool_decide_eq_true in Hd. by left.
        -- right. rewrite fmap_cons. apply list_elem_of_here.
      * right. destruct (bool_decide _); [done|].
        rewrite fmap_cons. by apply list_elem_of_further.
Qed.

(** Records with distinct unseen digests are all kept. *)
Lemma first_occurrences_id before rs :
  NoDup (Dedupe.h <$> rs) → (∀ r, r ∈ rs → Dedupe.h r ∉ before) →
  Dedupe.first_occurrences before rs = rs.
Proof.
  revert before. induction rs as [|r rs IH]; intros before Hnd Hfresh; [done|].
  simpl. rewrite fmap_cons in Hnd. apply NoDup_cons in Hnd as [Hr Hnd].
  rewrite bool_decide_eq_false_2 by (apply Hfresh, list_elem_of_here).
  f_equal. apply IH; [done|]. intros r' Hr' [Hb|Heq%list_elem_of_singleton]%elem_of_app.
  - by apply (Hfresh r'); [apply list_elem_of_further|].
  - apply Hr. rewrite <- Heq. by apply list_elem_of_fmap_2.
Qed.

Lemma parseable_length lines : length (Dedupe.parseable lines) ≤ length lines.
Proof.
  induction lines as [|l lines IH]; [done|].
  rewrite parseable_cons. destruct (Dedupe.parse_line l); simpl; lia.
Qed.

(** Reading a rendered file back gives the records that were rendered. *)
Lemma parseable_render rs :
  Forall Dedupe.round_trips rs →
  Dedupe.parseable (Py.file_lines (Dedupe.render rs)) = rs.
Proof.
  induction 1 as [|r rs (Hone & Hblank & Hload) _ IH]; [done|].
  cbn [Dedupe.render foldr]. fold (Dedupe.render rs).
  rewrite file_lines_one_line, parseable_cons by done.
  unfold Dedupe.parse_line. by rewrite strip_app_newline, Hblank, Hload, IH.
Qed.

Lemma first_occurrences_snoc before rs b :
  Dedupe.first_occurrences before (rs ++ [b]) =
  Dedupe.first_occurrences before rs ++
  (if bool_decide (Dedupe.h b ∈ before ++ (Dedupe.h <$> rs)) then [] else [b]).
Proof.
  revert before. induction rs as [|r rs IH]; intros before.
  - simpl. rewrite app_nil_r. by destruct (bool_decide _).
  - simpl. rewrite IH, <- app_assoc. simpl. by destruct (bool_decide (Dedupe.h r ∈ before)).
Qed.

(** The loop on a whole input whose records can all be encoded. *)
Lemma dedupe_run_spec lines :
  Forall Dedupe.encodable (Dedupe.parseable lines) →
  let kept := Dedupe.first_occurrences [] (Dedupe.parseable lines) in
  Dedupe.run Dedupe.init lines =
  (Dedupe.State (list_to_set (Dedupe.digests kept))
     (length (filter (λ raw, nonblank raw = true) lines))
     (length kept) (Dedupe.render kept), None).
Proof.
  intros Henc. exact (run_from Dedupe.init [] lines Henc eq_refl).
Qed.

Lemma dedupe_text_spec text :
  Forall Dedupe.encodable (Dedupe.parseable (Py.file_lines text)) →
  Dedupe.dedupe_text text =
  ok (Dedupe.render (Dedupe.first_occurrences [] (Dedupe.parseable (Py.file_lines text)))).
Proof.
  intros Henc. unfold Dedupe.dedupe_text. by rewrite (dedupe_run_spec _ Henc).
Qed.

(** C3: on an input none of whose records holds a lone surrogate in its
    serialization, the loop of the deduplicator ends normally and its
    output is the rendering of the records that parse, each kept when no
    earlier record has its digest, in the order of the input; the kept
    records are a subsequence of the records of the input, so they are no
    more numerous, each is a record of the input, and the counter [n_out]
    is their number; no two of them share a digest, and every digest of
    the input is the digest of a kept record; and when every kept record
    survives a write followed by a read (the round trip of the JSON
    library), the deduplicator maps its own output to itself. *)
Theorem dedupe_keeps_first_occurrences (text : string) :
  let records := Dedupe.parseable (Py.file_lines text) in
  let kept := Dedupe.first_occurrences [] records in
  Forall Dedupe.encodable records →
  Dedupe.dedupe_text text = ok (Dedupe.render kept)
  ∧ (∃ st, Dedupe.run Dedupe.init (Py.file_lines text) = (st, None)
           ∧ Dedupe.written st = Dedupe.render kept
           ∧ Dedupe.n_out st = length kept)
  ∧ kept `sublist_of` records
  ∧ length kept ≤ length records
  ∧ length records ≤ length (Py.file_lines text)
  ∧ (∀ r, r ∈ kept → r ∈ records)
  ∧ NoDup (Dedupe.h <$> kept)
  ∧ (∀ r, r ∈ kept → ∃ key, Dedupe.h r = ok key)
  ∧ (∀ r, r ∈ records → Dedupe.h r ∈ Dedupe.h <$> kept)
  ∧ (Forall Dedupe.round_trips kept →
     Dedupe.dedupe_text (Dedupe.render kept) = ok (Dedupe.render kept)).
Proof.
  intros records kept Henc.
  pose proof (first_occurrences_sublist [] records) as Hsub. fold kept in Hsub.
  assert (∀ r, r ∈ kept → r ∈ records) as Hin
    by (intros r Hr; by eapply elem_of_sublist).
  split_and!.
  - by apply dedupe_text_spec.
  - eexists. split; [exact (dedupe_run_spec _ Henc)|]. done.
  - done.
  - by apply sublist_length.
  - apply parseable_length.
  - done.
  - apply first_occurrences_NoDup.
  - intros r Hr. apply h_encodable. rewrite Forall_forall in Henc. auto.
  - intros r Hr. destruct (first_occurrences_complete [] records r Hr) as [Hnil|?]; [|done].
    by apply elem_of_nil in Hnil.
  - intros Hround.
    assert (Dedupe.parseable (Py.file_lines (Dedupe.render kept)) = kept) as Hback
      by (by apply parseable_render).
    rewrite dedupe_text_spec; rewrite Hback.
    + do 2 f_equal. apply first_occurrences_id; [apply first_occurrences_NoDup|].
      intros r _. apply not_elem_of_nil.
    + rewrite Forall_forall in Henc |- *. auto.
Qed.

(** C4: two well-formed records that are structurally equal, whatever the
    order of their keys at any depth, have the same serialization with
    sorted keys and so the same digest; hence in any stream where the
    first comes before the second, the second is dropped. *)
Theorem equal_records_share_digest (a b : json) :
  json_equiv a b → wf_json a → wf_json b →
  json_dumps true a = json_dumps true b
  ∧ Dedupe.h a = Dedupe.h b
  ∧ ∀ before rs1 rs2,
      Dedupe.first_occurrences before (rs1 ++ a :: rs2 ++ [b])
      = Dedupe.first_occurrences before (rs1 ++ a :: rs2).
Proof.
  intros Hequiv Ha Hb.
  assert (json_dumps true a = json_dumps true b) as Hdumps
    by (by apply json_encode_sorted_equiv).
  assert (Dedupe.h a = Dedupe.h b) as Hh by (unfold Dedupe.h; by rewrite Hdumps).
  split_and!; [done..|].
  intros before rs1 rs2.
  replace (rs1 ++ a :: rs2 ++ [b]) with ((rs1 ++ a :: rs2) ++ [b])
    by (by rewrite <- app_assoc).
  rewrite first_occurrences_snoc, bool_decide_eq_true_2, app_nil_r; [done|].
  apply elem_of_app. right. rewrite <- Hh, fmap_app, fmap_cons.
  apply elem_of_app. right. apply list_elem_of_here.
Qed.

End DedupeFacts.

Lemma rec_a1_wf : wf_json Reference.rec_a1 ∧ wf_json Reference.rec_a1'.
Proof.
  split; apply wf_dict.
  - apply (bool_decide_unpack _). vm_compute. exact I.
  - intros k v Hin. repeat (apply elem_of_cons in Hin as [[= -> ->]|Hin]; [constructor|]).
    by apply elem_of_nil in Hin.
  - apply (bool_decide_unpack _). vm_compute. exact I.
  - intros k v Hin. repeat (apply elem_of_cons in Hin as [[= -> ->]|Hin]; [constructor|]).
    by apply elem_of_nil in Hin.
Qed.

Lemma rec_a1_equiv : json_equiv Reference.rec_a1 Reference.rec_a1'.
Proof.
  apply equiv_dict.
  - intros k. simpl. repeat case_decide; simplify_eq; split; eauto.
  - intros k v1 v2. simpl.
    repeat case_decide; simplify_eq; try done; intros [= <-] [= <-]; constructor.
Qed.

(** Two records that differ in the order of their keys only. *)
Lemma equal_records_share_digest_witness :
  json_equiv Reference.rec_a1 Reference.rec_a1'
  ∧ wf_json Reference.rec_a1 ∧ wf_json Reference.rec_a1'
  ∧ @Dedupe.h Reference.runtime Reference.rec_a1 = @Dedupe.h Reference.runtime Reference.rec_a1'.
Proof.
  split; [exact rec_a1_equiv|]. split; [exact (proj1 rec_a1_wf)|].
  split; [exact (proj2 rec_a1_wf)|].
  exact (proj1 (proj2 (@equal_records_share_digest Reference.runtime _ _ rec_a1_equiv
                         (proj1 rec_a1_wf) (proj2 rec_a1_wf)))).
Defined.

(** The deduplicator on an input with duplicates, and on its own output. *)
Lemma dedupe_keeps_first_occurrences_witness :
  Forall (@Dedupe.encodable Reference.runtime)
    (@Dedupe.parseable Reference.runtime (Py.file_lines Reference.with_duplicates))
  ∧ @Dedupe.dedupe_text Reference.runtime Reference.with_duplicates
    = ok (Reference.file_of [Reference.rec_a1; Reference.rec_b; Reference.rec_a2])
  ∧ @Dedupe.dedupe_text Reference.runtime
      (Reference.file_of [Reference.rec_a1; Reference.rec_b; Reference.rec_a2])
    = ok (Reference.file_of [Reference.rec_a1; Reference.rec_b; Reference.rec_a2]).
Proof.
  assert (Forall (@Dedupe.encodable Reference.runtime)
            (@Dedupe.parseable Reference.runtime (Py.file_lines Reference.with_duplicates)))
    as Henc.
  { let l := eval vm_compute in
      (@Dedupe.parseable Reference.runtime (Py.file_lines Reference.with_duplicates)) in
    change (@Dedupe.parseable Reference.runtime (Py.file_lines Reference.with_duplicates))
      with l.
    repeat (apply List.Forall_cons; [vm_compute; reflexivity|]). apply List.Forall_nil. }
  split; [exact Henc|].
  destruct (@dedupe_keeps_first_occurrences Reference.runtime Reference.with_duplicates Henc)
    as (Hout & _ & _ & _ & _ & _ & _ & _ & _ & Hagain).
  assert (@Dedupe.render Reference.runtime
            (@Dedupe.first_occurrences Reference.runtime []
               (@Dedupe.parseable Reference.runtime (Py.file_lines Reference.with_duplicates)))
          = Reference.file_of [Reference.rec_a1; Reference.rec_b; Reference.rec_a2]) as Hkept
    by (vm_compute; reflexivity).
  rewrite Hkept in Hout, Hagain. split; [exact Hout|].
  apply Hagain.
  let l := eval vm_compute in
    (@Dedupe.first_occurrences Reference.runtime []
       (@Dedupe.parseable Reference.runtime (Py.file_lines Reference.with_duplicates))) in
  change (@Dedupe.first_occurrences Reference.runtime []
            (@Dedupe.parseable Reference.runtime (Py.file_lines Reference.with_duplicates)))
    with l.
  repeat (apply List.Forall_cons; [repeat split; vm_compute; reflexivity|]).
  apply List.Forall_nil.
Defined.

(** An input whose first line holds a record with a lone surrogate: the
    line parses, so that its record and the record after it are the first
    occurrences of their digests, but [h] raises on it and the run stops
    there, with nothing written. *)
Lemma dedupe_stops_on_lone_surrogate :
  @Dedupe.parseable Examples.runtime (Py.file_lines Examples.with_surrogate)
  = [Examples.lone_surrogate; Reference.rec_a1]
  ∧ @Dedupe.h Examples.runtime Examples.lone_surrogate = throw UnicodeEncodeError
  ∧ @Dedupe.first_occurrences Examples.runtime []
      [Examples.lone_surrogate; Reference.rec_a1]
    = [Examples.lone_surrogate; Reference.rec_a1]
  ∧ @Dedupe.dedupe_text Examples.runtime Examples.with_surrogate = throw UnicodeEncodeError
  ∧ (@Dedupe.main Examples.runtime Examples.dedupe_args Examples.surrogate_world).1
    = inl UnicodeEncodeError
  ∧ files (@Dedupe.main Examples.runtime Examples.dedupe_args Examples.surrogate_world).2
      !! "out.jsonl" = Some ""
  ∧ ¬ (∀ text,
         @Dedupe.dedupe_text Examples.runtime text
         = ok (@Dedupe.render Examples.runtime
                 (@Dedupe.first_occurrences Examples.runtime []
                    (@Dedupe.parseable Examples.runtime (Py.file_lines text))))).
Proof.
  split; [vm_compute; reflexivity|]. split; [vm_compute; reflexivity|].
  split; [vm_compute; reflexivity|]. split; [vm_compute; reflexivity|].
  split; [vm_compute; reflexivity|]. split; [vm_compute; reflexivity|].
  intros Hall. specialize (Hall Examples.with_surrogate).
  vm_compute in Hall. discriminate Hall.
Qed.

(* ===================================================================== *)
(** * Further properties of the scripts *)
(* ===================================================================== *)

(** ** The conditions on paths *)

Lemma normal_path_not_empty p : normal_path p = true → Py.is_empty p = false.
Proof. destruct p; [by vm_compute|done]. Qed.

Lemma can_make_not_empty w d : can_make w d → Py.is_empty d = false.
Proof. intros [Hd _]. by apply normal_path_not_empty. Qed.

(** The conditions as checks on each file of a world. *)
Lemma tree_checked w :
  map_Forall (λ p _, normal_path p = true
                     ∧ map_Forall (λ q _, below p q = false) (files w)) (files w) →
  tree w.
Proof.
  intros Hall p [x Hp]. destruct (Hall p x Hp) as [Hn Hb]. split; [done|].
  intros q [y Hq]. exact (Hb q y Hq).
Qed.

Lemma no_directory_at_checked w p :
  map_Forall (λ q _, below p q = false) (files w) → no_directory_at w p.
Proof. intros Hall q [y Hq]. exact (Hall q y Hq). Qed.

Lemma can_make_checked w d :
  normal_path d = true →
  map_Forall (λ q _, q ≠ d ∧ below q d = false) (files w) →
  can_make w d.
Proof. intros Hd Hall. split; [done|]. intros q [y Hq]. exact (Hall q y Hq). Qed.

Lemma can_create_checked w p :
  normal_path p = true →
  map_Forall (λ q _, below p q = false ∧ below q p = false) (files w) →
  os_path_dirname p = "" →
  can_create w p.
Proof.
  intros Hp Hall Hdir. split; [done|]. split; [|by left].
  intros q [y Hq]. exact (Hall q y Hq).
Qed.

(** ** Paths into a record *)

Lemma split_nonempty sep s : Py.split sep s ≠ [].
Proof. destruct s as [|c s]; simpl; [done|]. destruct (Ascii.eqb c sep); [done|]. by destruct (Py.split sep s). Qed.

Lemma split_app sep p q :
  Py.split sep (p +:+ String sep q) = Py.split sep p ++ Py.split sep q.
Proof.
  induction p as [|c p IH].
  - change ("" +:+ String sep q) with (String sep q). simpl.
    by rewrite Ascii.eqb_refl.
  - rewrite string_app_cons. simpl. rewrite IH.
    destruct (Ascii.eqb c sep); [done|].
    pose proof (split_nonempty sep p).
    by destruct (Py.split sep p).
Qed.

Lemma walk_null parts : parts ≠ [] → walk JNull parts = JNull.
Proof. by destruct parts. Qed.

Lemma walk_app obj ps qs :
  qs ≠ [] → walk obj (ps ++ qs) = walk (walk obj ps) qs.
Proof.
  intros Hqs. revert obj. induction ps as [|p ps IH]; intros obj; [done|].
  simpl. destruct obj; try by rewrite walk_null.
  destruct (Py.dict_lookup p d); [apply IH|by rewrite walk_null].
Qed.

Lemma split_without_separator sep s :
  is_substring (String sep "") s = false → Py.split sep s = [s].
Proof.
  induction s as [|c s IH]; [done|].
  cbn [is_substring String.prefix]. destruct (Ascii.ascii_dec sep c) as [->|Hne].
  - by destruct s.
  - intros Hs. rewrite orb_false_l in Hs. simpl.
    destruct (Ascii.eqb_spec c sep) as [->|_]; [done|]. by rewrite IH.
Qed.

(** X1: [get_path] walks a dotted path key by key: the value at [p.q] is
    the value at [q] of the value at [p]; a value that is not an object
    has nothing at any path; and a path without a dot is a plain lookup of
    that key, so a key that holds a dot cannot be reached. *)
Theorem get_path_compose :
  (∀ obj p q, get_path obj (p +:+ "." +:+ q) = get_path (get_path obj p) q)
  ∧ (∀ v path, (∀ d, v ≠ JDict d) → get_path v path = JNull)
  ∧ (∀ d k, is_substring "." k = false → get_path (JDict d) k = dict_get d k)
  ∧ (∀ d k q, is_substring "." k = false → Py.dict_lookup k d = None →
       get_path (JDict d) (k +:+ "." +:+ q) = JNull).
Proof.
  assert (∀ obj p q, get_path obj (p +:+ "." +:+ q) = get_path (get_path obj p) q) as Hc.
  { intros obj p q. unfold get_path.
    change (p +:+ "." +:+ q) with (p +:+ String "." q).
    rewrite split_app. apply walk_app, split_nonempty. }
  assert (∀ v path, (∀ d, v ≠ JDict d) → get_path v path = JNull) as Hn.
  { intros v path Hv. unfold get_path.
    pose proof (split_nonempty "." path) as Hne.
    destruct (Py.split "." path); [done|].
    destruct v; try done. by destruct (Hv d). }
  assert (∀ d k, is_substring "." k = false → get_path (JDict d) k = dict_get d k) as Hk.
  { intros d k Hdot. unfold get_path. rewrite split_without_separator by done.
    unfold dict_get. simpl. by destruct (Py.dict_lookup k d). }
  split_and!; try done.
  intros d k q Hdot Hmiss. rewrite Hc, (Hk d k Hdot). unfold dict_get. rewrite Hmiss.
  by apply Hn.
Qed.

(** ** Serialized records are single lines *)

Lemma json_ind_nested (P : json → Prop) :
  P JNull → (∀ b, P (JBool b)) → (∀ z, P (JInt z)) → (∀ f, P (JFloat f)) →
  (∀ s, P (JStr s)) →
  (∀ l, Forall P l → P (JList l)) →
  (∀ d, Forall (λ kv, P kv.2) d → P (JDict d)) →
  ∀ v, P v.
Proof.
  intros Hnull Hbool Hint Hfloat Hstr Hlist Hdict.
  fix IH 1. intros [|b|z|f|s|l|d].
  - exact Hnull.
  - exact (Hbool b).
  - exact (Hint z).
  - exact (Hfloat f).
  - exact (Hstr s).
  - apply Hlist. induction l as [|x l IHl]; constructor; [apply IH|apply IHl].
  - apply Hdict. induction d as [|[k x] d IHd]; constructor; [apply IH|apply IHd].
Qed.

Lemma one_line_digits d : Py.one_line (NilEmpty.string_of_uint d) = true.
Proof. induction d; [done|..]; exact IHd. Qed.

Lemma one_line_uint d : Py.one_line (NilZero.string_of_uint d) = true.
Proof. destruct d; [done|..]; apply one_line_digits. Qed.

Lemma one_line_str_of_Z z : Py.one_line (Py.str_of_Z z) = true.
Proof.
  unfold Py.str_of_Z. destruct (Z.to_int z); simpl; apply one_line_uint.
Qed.

Section OneLine.
Context {RT : Runtime}.

Lemma one_line_escape_char c : Py.one_line (json_escape_char c) = true.
Proof. destruct c as [[] [] [] [] [] [] [] []]; reflexivity. Qed.

Lemma one_line_escape s : Py.one_line (json_escape s) = true.
Proof.
  induction s as [|c s IH]; [done|].
  simpl. by rewrite one_line_app, one_line_escape_char, IH.
Qed.

Lemma one_line_json_string s : Py.one_line (json_string s) = true.
Proof.
  unfold json_string. by rewrite !one_line_app, one_line_escape.
Qed.

Lemma one_line_join sep l :
  Py.one_line sep = true → Forall (λ s, Py.one_line s = true) l →
  Py.one_line (Py.join sep l) = true.
Proof.
  intros Hsep. induction 1 as [|x l Hx Hl IH]; [done|].
  simpl. destruct l as [|y l]; [done|].
  by rewrite !one_line_app, Hx, Hsep, IH.
Qed.

Lemma one_line_json_float f : float_repr_one_line → Py.one_line (json_float f) = true.
Proof.
  intros Hf. unfold json_float.
  destruct (negb _); [done|]. destruct (PrimFloat.eqb f infinity); [done|].
  destruct (PrimFloat.eqb f neg_infinity); [done|]. apply Hf.
Qed.

Lemma one_line_json_encode v level :
  float_repr_one_line → Py.one_line (json_encode false None level v) = true.
Proof.
  intros Hf. revert level.
  induction v as [|[]| | | |l IH|d IH] using json_ind_nested; intros level; try done.
  - apply one_line_str_of_Z.
  - by apply one_line_json_float.
  - apply one_line_json_string.
  - destruct l as [|x l]; [done|].
    cbn [json_encode]. unfold json_open, json_close.
    rewrite !one_line_app, one_line_join; [done..|].
    apply Forall_fmap. eapply Forall_impl; [exact IH|]. intros v Hv. apply Hv.
  - destruct d as [|kv d]; [done|].
    cbn [json_encode]. unfold json_open, json_close.
    rewrite !one_line_app, one_line_join; [done..|].
    rewrite Forall_fmap, Forall_fmap. eapply Forall_impl; [exact IH|].
    intros [k x] Hx. cbv [compose]. simpl in Hx.
    by rewrite !one_line_app, one_line_json_string, Hx.
Qed.

Lemma jsonl_lines records :
  float_repr_one_line →
  Py.file_lines (jsonl records) = map (λ r, json_dumps false r +:+ Py.NL) records.
Proof.
  intros Hf. unfold jsonl.
  change (map (λ r, json_dumps false r +:+ Py.NL) records)
    with (((λ s, s +:+ Py.NL) ∘ json_dumps false) <$> records).
  rewrite (list_fmap_compose (json_dumps false) (λ s, s +:+ Py.NL)).
  apply file_lines_text_of. apply Forall_fmap, Forall_forall. intros r _.
  by apply one_line_json_encode.
Qed.

End OneLine.

(** ** The instruction validator *)

Section InstructionFacts.
Context {RT : Runtime}.

Lemma contains_dict k d :
  py_contains k (JDict d) = ok (has_key d k).
Proof. done. Qed.

Lemma has_key_true k d v : Py.dict_lookup k d = Some v → has_key d k = true.
Proof. intros Hk. unfold has_key. rewrite Hk. by apply bool_decide_eq_true_2. Qed.

Lemma has_key_false k d : Py.dict_lookup k d = None → has_key d k = false.
Proof. intros Hk. unfold has_key. rewrite Hk. apply bool_decide_eq_false_2. by intros [? ?]. Qed.

Lemma check_field_string d k rest s :
  Py.dict_lookup k d = Some (JStr s) →
  Validate.check_fields (JDict d) (k :: rest) = Validate.check_fields (JDict d) rest.
Proof.
  intros Hk. cbn [Validate.check_fields]. rewrite contains_dict.
  rewrite (has_key_true _ _ _ Hk).
  cbn. unfold dict_get. by rewrite Hk.
Qed.

Lemma check_field_other d k rest :
  (∀ s, Py.dict_lookup k d ≠ Some (JStr s)) →
  Validate.check_fields (JDict d) (k :: rest) = ok (Some ("missing/invalid " +:+ k)).
Proof.
  intros Hk. cbn [Validate.check_fields]. rewrite contains_dict.
  destruct (Py.dict_lookup k d) as [v|] eqn:Hv.
  - rewrite (has_key_true _ _ _ Hv). cbn. unfold dict_get. rewrite Hv. simpl.
    destruct v; try done. by destruct (Hk s).
  - by rewrite (has_key_false _ _ Hv).
Qed.

Lemma field_cases d k :
  (∃ s, Py.dict_lookup k d = Some (JStr s)) ∨ (∀ s, Py.dict_lookup k d ≠ Some (JStr s)).
Proof.
  destruct (Py.dict_lookup k d) as [[]|]; eauto.
Qed.

Lemma validate_instruction_strings d a b c :
  Py.dict_lookup "instruction" d = Some (JStr a) →
  Py.dict_lookup "input" d = Some (JStr b) →
  Py.dict_lookup "output" d = Some (JStr c) →
  Validate.validate_instruction (JDict d)
  = if Py.is_empty (Py.strip c) then ok (false, Some "empty output") else ok (true, None).
Proof.
  intros Ha Hb Hc. unfold Validate.validate_instruction.
  rewrite (check_field_string d _ _ a Ha), (check_field_string d _ _ b Hb),
    (check_field_string d _ _ c Hc).
  cbn. unfold dict_get. rewrite Hc. cbn. by destruct (Py.is_empty _).
Qed.

Lemma validate_instruction_missing d k before rest :
  Forall (λ k', ∃ s, Py.dict_lookup k' d = Some (JStr s)) before →
  (∀ s, Py.dict_lookup k d ≠ Some (JStr s)) →
  before ++ k :: rest = ["instruction"; "input"; "output"] →
  Validate.validate_instruction (JDict d) = ok (false, Some ("missing/invalid " +:+ k)).
Proof.
  intros Hbefore Hk Hks. unfold Validate.validate_instruction. rewrite <- Hks.
  clear Hks. induction Hbefore as [|k' before [s Hs] _ IH].
  - simpl app. by rewrite check_field_other.
  - simpl app. by rewrite (check_field_string d _ _ s Hs).
Qed.

Lemma validate_instruction_accepts d :
  Validate.validate_instruction (JDict d) = ok (true, None) ↔
  ∃ a b c,
    Py.dict_lookup "instruction" d = Some (JStr a)
    ∧ Py.dict_lookup "input" d = Some (JStr b)
    ∧ Py.dict_lookup "output" d = Some (JStr c)
    ∧ Py.is_empty (Py.strip c) = false.
Proof.
  split.
  - intros Hok.
    destruct (field_cases d "instruction") as [[a Ha]|Ha].
    2: { by rewrite (validate_instruction_missing d "instruction" [] ["input"; "output"])
           in Hok. }
    destruct (field_cases d "input") as [[b Hb]|Hb].
    2: { rewrite (validate_instruction_missing d "input" ["instruction"] ["output"])
           in Hok; [done| |done..]. repeat constructor. eauto. }
    destruct (field_cases d "output") as [[c Hc]|Hc].
    2: { rewrite (validate_instruction_missing d "output" ["instruction"; "input"] [])
           in Hok; [done| |done..]. repeat constructor; eauto. }
    exists a, b, c. split_and!; try done.
    rewrite (validate_instruction_strings d a b c) in Hok by done.
    by destruct (Py.is_empty _).
  - intros (a & b & c & Ha & Hb & Hc & Hne).
    by rewrite (validate_instruction_strings d a b c), Hne.
Qed.

(** X2: on a record that is a JSON object [validate_instruction] never
    raises; it accepts exactly when [instruction], [input] and [output] are
    all bound to strings and the output is not blank; otherwise the reason
    names the first of the three keys, in that order, that is missing or
    not bound to a string, or is [empty output]. *)
Theorem validate_instruction_verdict d :
  (Validate.validate_instruction (JDict d) = ok (true, None) ↔
     ∃ a b c,
       Py.dict_lookup "instruction" d = Some (JStr a)
       ∧ Py.dict_lookup "input" d = Some (JStr b)
       ∧ Py.dict_lookup "output" d = Some (JStr c)
       ∧ Py.is_empty (Py.strip c) = false)
  ∧ (∃ verdict, Validate.validate_instruction (JDict d) = ok verdict)
  ∧ ((∀ s, Py.dict_lookup "instruction" d ≠ Some (JStr s)) →
     Validate.validate_instruction (JDict d)
     = ok (false, Some "missing/invalid instruction"))
  ∧ (∀ a, Py.dict_lookup "instruction" d = Some (JStr a) →
     (∀ s, Py.dict_lookup "input" d ≠ Some (JStr s)) →
     Validate.validate_instruction (JDict d) = ok (false, Some "missing/invalid input"))
  ∧ (∀ a b, Py.dict_lookup "instruction" d = Some (JStr a) →
     Py.dict_lookup "input" d = Some (JStr b) →
     (∀ s, Py.dict_lookup "output" d ≠ Some (JStr s)) →
     Validate.validate_instruction (JDict d) = ok (false, Some "missing/invalid output"))
  ∧ (∀ a b c, Py.dict_lookup "instruction" d = Some (JStr a) →
     Py.dict_lookup "input" d = Some (JStr b) →
     Py.dict_lookup "output" d = Some (JStr c) →
     Py.is_empty (Py.strip c) = true →
     Validate.validate_instruction (JDict d) = ok (false, Some "empty output")).
Proof.
  assert ((∀ s, Py.dict_lookup "instruction" d ≠ Some (JStr s)) →
          Validate.validate_instruction (JDict d)
          = ok (false, Some "missing/invalid instruction")) as H1.
  { intros Hk.
    by apply (validate_instruction_missing d "instruction" [] ["input"; "output"]). }
  assert (∀ a, Py.dict_lookup "instruction" d = Some (JStr a) →
          (∀ s, Py.dict_lookup "input" d ≠ Some (JStr s)) →
          Validate.validate_instruction (JDict d)
          = ok (false, Some "missing/invalid input")) as H2.
  { intros a Ha Hk.
    apply (validate_instruction_missing d "input" ["instruction"] ["output"]);
      [|done..]. repeat constructor. eauto. }
  assert (∀ a b, Py.dict_lookup "instruction" d = Some (JStr a) →
          Py.dict_lookup "input" d = Some (JStr b) →
          (∀ s, Py.dict_lookup "output" d ≠ Some (JStr s)) →
          Validate.validate_instruction (JDict d)
          = ok (false, Some "missing/invalid output")) as H3.
  { intros a b Ha Hb Hk.
    apply (validate_instruction_missing d "output" ["instruction"; "input"] []);
      [|done..]. repeat constructor; eauto. }
  split_and!; [apply validate_instruction_accepts| |done|done|done|].
  - destruct (field_cases d "instruction") as [[a Ha]|Ha]; [|by eauto].
    destruct (field_cases d "input") as [[b Hb]|Hb]; [|by eauto].
    destruct (field_cases d "output") as [[c Hc]|Hc]; [|by eauto].
    rewrite (validate_instruction_strings d a b c) by done.
    destruct (Py.is_empty _); eauto.
  - intros a b c Ha Hb Hc He. by rewrite (validate_instruction_strings d a b c), He.
Qed.

End InstructionFacts.

(** ** JSONL texts and the loop of the validator *)

Lemma text_of_app a b : Py.text_of (a ++ b) = Py.text_of a +:+ Py.text_of b.
Proof.
  induction a as [|x a IH]; [done|].
  cbn [app Py.text_of foldr]. fold (Py.text_of (a ++ b)) (Py.text_of a).
  by rewrite IH, string_app_assoc.
Qed.

Section JsonlFacts.
Context {RT : Runtime}.

Lemma jsonl_nil : jsonl [] = "".
Proof. done. Qed.

Lemma jsonl_app rs1 rs2 : jsonl (rs1 ++ rs2) = jsonl rs1 +:+ jsonl rs2.
Proof. unfold jsonl. by rewrite map_app, text_of_app. Qed.

Lemma jsonl_cons r rs : jsonl (r :: rs) = json_dumps false r +:+ Py.NL +:+ jsonl rs.
Proof. unfold jsonl. cbn [map Py.text_of foldr]. by rewrite string_app_assoc. Qed.

Lemma jsonl_length records :
  float_repr_one_line → length (Py.file_lines (jsonl records)) = length records.
Proof. intros Hf. by rewrite jsonl_lines, length_map. Qed.

End JsonlFacts.

Section ValidateRun.
Context {RT : Runtime}.

Lemma validate_step_spec a st raw :
  Validate.step a st raw =
  if nonblank raw then
    match record_of raw with
    | None =>
        (Validate.State (S (Validate.n_in st)) (Validate.n_ok st) (S (Validate.n_bad st))
           (Validate.rejects st +:+ Validate.invalid_line (Py.strip raw)), None)
    | Some obj =>
        match Validate.judge a obj with
        | inl e => (Validate.State (S (Validate.n_in st)) (Validate.n_ok st)
                      (Validate.n_bad st) (Validate.rejects st), Some e)
        | inr (true, _) =>
            (Validate.State (S (Validate.n_in st)) (S (Validate.n_ok st))
               (Validate.n_bad st) (Validate.rejects st), None)
        | inr (false, reason) =>
            (Validate.State (S (Validate.n_in st)) (Validate.n_ok st)
               (S (Validate.n_bad st))
               (Validate.rejects st +:+ Validate.reject_line reason obj), None)
        end
    end
  else (st, None).
Proof.
  unfold Validate.step, nonblank, record_of.
  by destruct (Py.is_empty (Py.strip raw)).
Qed.

Lemma validate_line_blank a raw :
  nonblank raw = false →
  record_of raw = None ∧ Validate.accepted a raw = false ∧ Validate.rejected a raw = None.
Proof.
  unfold nonblank, Validate.accepted, Validate.rejected, record_of.
  by destruct (Py.is_empty (Py.strip raw)).
Qed.

Lemma validate_line_invalid a raw :
  nonblank raw = true → record_of raw = None →
  Validate.accepted a raw = false
  ∧ Validate.rejected a raw
    = Some (JDict [("reason", JStr "invalid_json"); ("raw", JStr (Py.strip raw))]).
Proof.
  unfold nonblank, Validate.accepted, Validate.rejected, record_of.
  destruct (Py.is_empty (Py.strip raw)); [done|]. by intros _ ->.
Qed.

Lemma validate_line_record a raw obj :
  record_of raw = Some obj →
  nonblank raw = true
  ∧ Validate.accepted a raw
    = match Validate.judge a obj with inr (true, _) => true | _ => false end
  ∧ Validate.rejected a raw
    = match Validate.judge a obj with
      | inr (false, reason) =>
          Some (JDict [("reason", Validate.reason_json reason); ("row", obj)])
      | _ => None
      end.
Proof.
  unfold nonblank, Validate.accepted, Validate.rejected, record_of.
  destruct (Py.is_empty (Py.strip raw)); [done|]. by intros ->.
Qed.

(** The loop from any state, when no exception leaves it. *)
Lemma validate_run_from a st lines st' :
  Validate.run a st lines = (st', None) →
  Validate.n_in st' = Validate.n_in st + length (filter (λ raw, nonblank raw = true) lines)
  ∧ Validate.n_ok st'
    = Validate.n_ok st + length (filter (λ raw, Validate.accepted a raw = true) lines)
  ∧ Validate.n_bad st' = Validate.n_bad st + length (omap (Validate.rejected a) lines)
  ∧ Validate.rejects st'
    = Validate.rejects st +:+ jsonl (omap (Validate.rejected a) lines)
  ∧ length (filter (λ raw, nonblank raw = true) lines)
    = length (filter (λ raw, Validate.accepted a raw = true) lines)
      + length (omap (Validate.rejected a) lines).
Proof.
  revert st. induction lines as [|raw lines IH]; intros st Hrun.
  - injection Hrun as <-. simpl. rewrite jsonl_nil, string_app_nil_r.
    split_and!; try lia; done.
  - cbn [Validate.run] in Hrun.
    destruct (Validate.step a st raw) as [st1 [e|]] eqn:Hstep; [done|].
    destruct (IH st1 Hrun) as (Hin & Hok & Hbad & Hrej & Hsum).
    rewrite validate_step_spec in Hstep.
    rewrite filter_cons, (filter_cons (λ raw, Validate.accepted a raw = true)).
    cbn [omap list_omap].
    destruct (nonblank raw) eqn:Hnb.
    + destruct (record_of raw) as [obj|] eqn:Hrec.
      * destruct (validate_line_record a raw obj Hrec) as (_ & -> & ->).
        destruct (Validate.judge a obj) as [e|[[] reason]] eqn:Hjudge; [done|..];
          injection Hstep as <-; simpl in *.
        -- rewrite ?decide_True by done. simpl. split_and!; try lia; done.
        -- rewrite ?decide_True by done. rewrite ?decide_False by done.
           rewrite jsonl_cons. simpl.
           unfold Validate.reject_line in Hrej. rewrite Hrej, !string_app_assoc.
           split_and!; try lia; done.
      * destruct (validate_line_invalid a raw Hnb Hrec) as (-> & ->).
        injection Hstep as <-; simpl in *.
        rewrite ?decide_True by done. rewrite ?decide_False by done.
        rewrite jsonl_cons. simpl.
        unfold Validate.invalid_line in Hrej. rewrite Hrej, !string_app_assoc.
        split_and!; try lia; done.
    + destruct (validate_line_blank a raw Hnb) as (_ & -> & ->).
      injection Hstep as <-. rewrite ?decide_False by done. done.
Qed.

End ValidateRun.

(** ** The converters *)

Lemma dict_lookup_here {A} k (v : A) d : Py.dict_lookup k ((k, v) :: d) = Some v.
Proof. simpl. by rewrite decide_True. Qed.

Section ConvertFacts.
Context {RT : Runtime}.

Lemma contains_single k v : py_contains k (JDict [(k, v)]) = ok true.
Proof.
  rewrite contains_dict. by rewrite (has_key_true _ _ v (dict_lookup_here k v [])).
Qed.

Lemma to_chat_with_messages d m :
  Py.dict_lookup "messages" d = Some m →
  Convert.to_chat (JDict d) = ok (Some (JDict [("messages", m)])).
Proof.
  intros Hm. unfold Convert.to_chat. rewrite contains_dict, (has_key_true _ _ _ Hm).
  cbn. unfold dict_get. by rewrite Hm.
Qed.

(** The messages [to_chat] builds from the other fields. *)
Lemma to_chat_without_messages d :
  Py.dict_lookup "messages" d = None →
  Convert.to_chat (JDict d) =
  let msgs :=
    (if truthy (dict_get d "system") then [Convert.turn "system" (dict_get d "system")]
     else []) ++
    (if truthy (dict_get d "user") then [Convert.turn "user" (dict_get d "user")]
     else if truthy (dict_get d "prompt") then [Convert.turn "user" (dict_get d "prompt")]
          else []) ++
    (if truthy (dict_get d "assistant")
     then [Convert.turn "assistant" (dict_get d "assistant")]
     else if truthy (dict_get d "completion")
          then [Convert.turn "assistant" (dict_get d "completion")]
          else []) in
  ok (if Nat.leb 2 (length msgs) then Some (JDict [("messages", JList msgs)]) else None).
Proof.
  intros Hm. unfold Convert.to_chat. by rewrite contains_dict, (has_key_false _ _ Hm).
Qed.

Lemma to_chat_not_object v out :
  Convert.to_chat v = ok out → ∃ d, v = JDict d.
Proof.
  destruct v as [| | | |s|l|d]; try done; [| |by eauto]; unfold Convert.to_chat; simpl.
  - by destruct (is_substring _ s).
  - by destruct (existsb _ l).
Qed.

(** X3: a record [to_chat] converts becomes an object with the single key
    [messages], and converting that object again gives it back
    unchanged. *)
Theorem to_chat_idempotent obj out :
  Convert.to_chat obj = ok (Some out) →
  (∃ messages, out = JDict [("messages", messages)])
  ∧ Convert.to_chat out = ok (Some out).
Proof.
  intros Hconv. destruct (to_chat_not_object obj _ Hconv) as [d ->].
  assert (∃ messages, out = JDict [("messages", messages)]) as [m ->].
  { destruct (Py.dict_lookup "messages" d) as [m|] eqn:Hm.
    - rewrite (to_chat_with_messages d m Hm) in Hconv. injection Hconv as <-. eauto.
    - rewrite (to_chat_without_messages d Hm) in Hconv. cbv zeta in Hconv.
      destruct (Nat.leb 2 _); [|done]. injection Hconv as <-. eauto. }
  split; [by eauto|]. apply to_chat_with_messages, dict_lookup_here.
Qed.

End ConvertFacts.

Section ConvertValidate.
Context {RT : Runtime}.

Lemma has_role_turn r role content :
  Validate.has_role r (Retrain.turn role content) = bool_decide (role = r).
Proof. unfold Validate.has_role, Retrain.turn, dict_get. by rewrite dict_lookup_here. Qed.

Lemma validate_chat_messages ms :
  Validate.validate_chat (JDict [("messages", JList ms)]) =
  if Nat.ltb (length ms) 2 then ok (false, Some "missing/invalid messages")
  else
    result_bind (Validate.check_messages 0 ms) (λ failure,
      match failure with
      | Some reason => ok (false, Some reason)
      | None =>
          if negb (existsb (Validate.has_role "user") ms
                   && existsb (Validate.has_role "assistant") ms)
          then ok (false, Some "need at least one user and one assistant message")
          else ok (true, None)
      end).
Proof.
  unfold Validate.validate_chat, obj_get, dict_get. rewrite dict_lookup_here. done.
Qed.

Lemma not_blank_truthy s : Py.is_empty (Py.strip s) = false → truthy (JStr s) = true.
Proof. by destruct s. Qed.

Lemma system_role : "system" ∈ Validate.roles.
Proof. apply (bool_decide_unpack _). vm_compute. exact I. Qed.
Lemma user_role : "user" ∈ Validate.roles.
Proof. apply (bool_decide_unpack _). vm_compute. exact I. Qed.
Lemma assistant_role : "assistant" ∈ Validate.roles.
Proof. apply (bool_decide_unpack _). vm_compute. exact I. Qed.

(** X4: a record without [messages] whose [user] and [assistant] fields
    are strings that are not blank, and whose [system] field is absent,
    falsy or not blank once written as text, is converted by [to_chat] to
    a conversation that [validate_chat] accepts. *)
Theorem converted_pair_is_valid d u a :
  Py.dict_lookup "messages" d = None →
  dict_get d "user" = JStr u →
  dict_get d "assistant" = JStr a →
  Py.is_empty (Py.strip u) = false →
  Py.is_empty (Py.strip a) = false →
  (truthy (dict_get d "system") = false
   ∨ Py.is_empty (Py.strip (py_str (dict_get d "system"))) = false) →
  ∃ out, Convert.to_chat (JDict d) = ok (Some out)
         ∧ Validate.validate_chat out = ok (true, None).
Proof.
  intros Hm Hu Ha Hub Hab Hsys.
  rewrite (to_chat_without_messages d Hm). cbv zeta.
  rewrite Hu, Ha, (not_blank_truthy u Hub), (not_blank_truthy a Hab).
  change (Convert.turn "user" (JStr u)) with (Retrain.turn "user" u).
  change (Convert.turn "assistant" (JStr a)) with (Retrain.turn "assistant" a).
  change (Convert.turn "system" (dict_get d "system"))
    with (Retrain.turn "system" (py_str (dict_get d "system"))).
  destruct (truthy (dict_get d "system")) eqn:Ht.
  - destruct Hsys as [?|Hsb]; [done|].
    eexists. split; [reflexivity|]. rewrite validate_chat_messages.
    cbn [length app Nat.ltb Nat.leb].
    rewrite (check_messages_turn _ _ _ _ system_role), Hsb.
    rewrite (check_messages_turn _ _ _ _ user_role), Hub.
    rewrite (check_messages_turn _ _ _ _ assistant_role), Hab.
    cbn [Validate.check_messages result_bind ok existsb].
    rewrite !has_role_turn. by vm_compute.
  - eexists. split; [reflexivity|]. rewrite validate_chat_messages.
    cbn [length app Nat.ltb Nat.leb].
    rewrite (check_messages_turn _ _ _ _ user_role), Hub.
    rewrite (check_messages_turn _ _ _ _ assistant_role), Hab.
    cbn [Validate.check_messages result_bind ok existsb].
    rewrite !has_role_turn. by vm_compute.
Qed.

(** X5: a record with a system text and a user text but no assistant text
    and no completion is not dropped by [to_chat]: it yields a
    conversation of two messages, which [validate_chat] then rejects for
    the lack of an assistant message. *)
Theorem converted_without_reply_is_rejected d u :
  Py.dict_lookup "messages" d = None →
  truthy (dict_get d "system") = true →
  Py.is_empty (Py.strip (py_str (dict_get d "system"))) = false →
  dict_get d "user" = JStr u →
  Py.is_empty (Py.strip u) = false →
  truthy (dict_get d "assistant") = false →
  truthy (dict_get d "completion") = false →
  ∃ out, Convert.to_chat (JDict d) = ok (Some out)
         ∧ Validate.validate_chat out
           = ok (false, Some "need at least one user and one assistant message").
Proof.
  intros Hm Ht Hsb Hu Hub Ha Hc.
  rewrite (to_chat_without_messages d Hm). cbv zeta.
  rewrite Ht, Hu, Ha, Hc, (not_blank_truthy u Hub).
  change (Convert.turn "user" (JStr u)) with (Retrain.turn "user" u).
  change (Convert.turn "system" (dict_get d "system"))
    with (Retrain.turn "system" (py_str (dict_get d "system"))).
  eexists. split; [reflexivity|]. rewrite validate_chat_messages.
  cbn [length app Nat.ltb Nat.leb].
  rewrite (check_messages_turn _ _ _ _ system_role), Hsb.
  rewrite (check_messages_turn _ _ _ _ user_role), Hub.
  cbn [Validate.check_messages result_bind ok existsb].
  rewrite !has_role_turn. by vm_compute.
Qed.

End ConvertValidate.

Section InstructionConvert.
Context {RT : Runtime}.

Lemma to_instruction_dict d :
  Convert.to_instruction (JDict d) =
  ok (if has_key d "instruction" && has_key d "input" && has_key d "output" then
        Some (Convert.instruction (dict_get d "instruction") (dict_get d "input")
                (dict_get d "output"))
      else if has_key d "prompt" && has_key d "completion" then
        Some (Convert.instruction (JStr "Follow the user request.")
                (dict_get d "prompt") (dict_get d "completion"))
      else if has_key d "user" && has_key d "assistant" then
        Some (Convert.instruction (JStr "Follow the user request.")
                (dict_get d "user") (dict_get d "assistant"))
      else None).
Proof.
  unfold Convert.to_instruction, both_in. cbn [all_in]. rewrite !contains_dict.
  cbn [result_bind ok].
  destruct (has_key d "instruction"), (has_key d "input"), (has_key d "output"),
    (has_key d "prompt"), (has_key d "completion"),
    (has_key d "user"), (has_key d "assistant"); reflexivity.
Qed.

(** A value that can be searched but not subscripted by a string is never
    converted. *)
Lemma to_instruction_unsubscriptable v (c : string → bool) :
  (∀ k, py_contains k v = ok (c k)) →
  (∀ k, item_of v k = throw TypeError) →
  Convert.to_instruction v = throw TypeError ∨ Convert.to_instruction v = ok None.
Proof.
  intros Hc Hitem. unfold Convert.to_instruction, both_in. cbn [all_in].
  rewrite !Hc. cbn [result_bind ok]. rewrite !Hitem.
  destruct (c "instruction"), (c "input"), (c "output"), (c "prompt"),
    (c "completion"), (c "user"), (c "assistant"); cbn; auto.
Qed.

Lemma to_instruction_object v out :
  Convert.to_instruction v = ok (Some out) → ∃ d, v = JDict d.
Proof.
  intros Hconv. destruct v as [| | | |s|l|d]; try done; [| |by eauto].
  - destruct (to_instruction_unsubscriptable (JStr s) (λ k, is_substring k s))
      as [H|H]; try done; by rewrite H in Hconv.
  - destruct (to_instruction_unsubscriptable (JList l)
                (λ k, existsb (λ v, match v with
                                    | JStr s => String.eqb s k
                                    | _ => false
                                    end) l))
      as [H|H]; try done; by rewrite H in Hconv.
Qed.

Lemma instruction_fields (a b c : json) :
  Py.dict_lookup "instruction" [("instruction", a); ("input", b); ("output", c)] = Some a
  ∧ Py.dict_lookup "input" [("instruction", a); ("input", b); ("output", c)] = Some b
  ∧ Py.dict_lookup "output" [("instruction", a); ("input", b); ("output", c)] = Some c.
Proof. done. Qed.

Lemma to_instruction_shape obj out :
  Convert.to_instruction obj = ok (Some out) → ∃ a b c, out = Convert.instruction a b c.
Proof.
  intros Hconv. destruct (to_instruction_object obj out Hconv) as [d ->].
  rewrite to_instruction_dict in Hconv.
  destruct (has_key d "instruction" && has_key d "input" && has_key d "output");
    [injection Hconv as <-; eauto|].
  destruct (has_key d "prompt" && has_key d "completion");
    [injection Hconv as <-; eauto|].
  destruct (has_key d "user" && has_key d "assistant");
    [injection Hconv as <-; eauto|done].
Qed.

(** X6: a record [to_instruction] converts becomes an object with exactly
    the keys [instruction], [input] and [output]; converting it again
    gives it back unchanged; and [validate_instruction] accepts it exactly
    when the three values are strings and the output is not blank. *)
Theorem to_instruction_idempotent obj out :
  Convert.to_instruction obj = ok (Some out) →
  ∃ a b c,
    out = JDict [("instruction", a); ("input", b); ("output", c)]
    ∧ Convert.to_instruction out = ok (Some out)
    ∧ (Validate.validate_instruction out = ok (true, None) ↔
       ∃ sa sb sc, a = JStr sa ∧ b = JStr sb ∧ c = JStr sc
                   ∧ Py.is_empty (Py.strip sc) = false).
Proof.
  intros Hconv. destruct (to_instruction_shape obj out Hconv) as (a & b & c & ->).
  exists a, b, c. split; [done|].
  destruct (instruction_fields a b c) as (Ha & Hb & Hc).
  unfold Convert.instruction. split.
  - rewrite to_instruction_dict.
    rewrite (has_key_true _ _ _ Ha), (has_key_true _ _ _ Hb), (has_key_true _ _ _ Hc).
    unfold dict_get. by rewrite Ha, Hb, Hc.
  - rewrite validate_instruction_accepts, Ha, Hb, Hc. split.
    + intros (sa & sb & sc & [= ->] & [= ->] & [= ->] & Hne). eauto 10.
    + intros (sa & sb & sc & -> & -> & -> & Hne). eauto 10.
Qed.

(** X7: on a record that holds both a [user]/[assistant] pair and a
    [prompt]/[completion] pair, the two converters read different fields:
    [to_chat] takes the user and assistant texts, [to_instruction] the
    prompt and the completion. *)
Theorem converters_prefer_different_fields d u a p c :
  Py.dict_lookup "messages" d = None →
  Py.dict_lookup "instruction" d = None →
  truthy (dict_get d "system") = false →
  Py.dict_lookup "user" d = Some (JStr u) →
  Py.dict_lookup "assistant" d = Some (JStr a) →
  Py.dict_lookup "prompt" d = Some (JStr p) →
  Py.dict_lookup "completion" d = Some (JStr c) →
  u ≠ "" → a ≠ "" →
  Convert.to_chat (JDict d)
  = ok (Some (JDict [("messages",
                      JList [JDict [("role", JStr "user"); ("content", JStr u)];
                             JDict [("role", JStr "assistant"); ("content", JStr a)]])]))
  ∧ Convert.to_instruction (JDict d)
    = ok (Some (JDict [("instruction", JStr "Follow the user request.");
                       ("input", JStr p); ("output", JStr c)])).
Proof.
  intros Hm Hi Hs Hu Ha Hp Hc Hune Hane. split.
  - assert (dict_get d "user" = JStr u) as Hu' by (unfold dict_get; by rewrite Hu).
    assert (dict_get d "assistant" = JStr a) as Ha' by (unfold dict_get; by rewrite Ha).
    rewrite (to_chat_without_messages d Hm). cbv zeta. rewrite Hs, Hu', Ha'.
    destruct u; [done|]. destruct a; [done|]. done.
  - rewrite to_instruction_dict, (has_key_false _ _ Hi).
    rewrite (has_key_true _ _ _ Hp), (has_key_true _ _ _ Hc).
    unfold dict_get. by rewrite Hp, Hc.
Qed.

End InstructionConvert.

(** ** Runs of convert_jsonl.py *)

Section ConvertRun.
Context {RT : Runtime}.

Lemma conv_object m d : ∃ o, Convert.conv m (JDict d) = ok o.
Proof.
  destruct m; simpl.
  - destruct (Py.dict_lookup "messages" d) as [v|] eqn:Hm.
    + rewrite (to_chat_with_messages d v Hm). eauto.
    + rewrite (to_chat_without_messages d Hm). eauto.
  - rewrite to_instruction_dict. eauto.
Qed.


Lemma convert_step_spec m st raw :
  Convert.step m st raw =
  if nonblank raw then
    match record_of raw with
    | None => (Convert.State (S (Convert.n_in st)) (Convert.n_out st) (Convert.written st), None)
    | Some obj =>
        match Convert.conv m obj with
        | inl e => (Convert.State (S (Convert.n_in st)) (Convert.n_out st)
                      (Convert.written st), Some e)
        | inr None => (Convert.State (S (Convert.n_in st)) (Convert.n_out st)
                         (Convert.written st), None)
        | inr (Some c) =>
            (Convert.State (S (Convert.n_in st)) (S (Convert.n_out st))
               (Convert.written st +:+ json_dumps false c +:+ Py.NL), None)
        end
    end
  else (st, None).
Proof.
  unfold Convert.step, nonblank, record_of.
  by destruct (Py.is_empty (Py.strip raw)).
Qed.

Lemma record_nonblank raw obj : record_of raw = Some obj → nonblank raw = true.
Proof. unfold record_of, nonblank. by destruct (Py.is_empty _). Qed.

Lemma blank_no_record raw : nonblank raw = false → record_of raw = None.
Proof. unfold record_of, nonblank. by destruct (Py.is_empty _). Qed.

Lemma converted_record m raw obj :
  record_of raw = Some obj →
  Convert.converted m raw
  = match Convert.conv m obj with inr (Some c) => Some c | _ => None end.
Proof. unfold Convert.converted. by intros ->. Qed.

Lemma converted_none m raw : record_of raw = None → Convert.converted m raw = None.
Proof. unfold Convert.converted. by intros ->. Qed.

(** The loop over lines that hold objects only. *)
Lemma convert_run_from m st lines :
  Forall Convert.object_or_none lines →
  Convert.run m st lines =
  (Convert.State
     (Convert.n_in st + length (filter (λ raw, nonblank raw = true) lines))
     (Convert.n_out st + length (omap (Convert.converted m) lines))
     (Convert.written st +:+ jsonl (omap (Convert.converted m) lines)), None).
Proof.
  intros Hobj. revert st. induction Hobj as [|raw lines Hraw _ IH]; intros st.
  - simpl. rewrite jsonl_nil, string_app_nil_r, !Nat.add_0_r. by destruct st.
  - cbn [Convert.run]. rewrite convert_step_spec, filter_cons. cbn [omap list_omap].
    unfold Convert.object_or_none in Hraw.
    destruct (nonblank raw) eqn:Hnb.
    + rewrite decide_True by done.
      destruct (record_of raw) as [obj|] eqn:Hrec.
      * rewrite (converted_record m raw obj Hrec).
        destruct obj as [| | | | | |d]; try done.
        destruct (conv_object m d) as [o Ho]. rewrite Ho. unfold ok.
        destruct o as [c|]; cbv beta iota; rewrite IH; simpl.
        -- rewrite jsonl_cons, !string_app_assoc. do 2 f_equal; lia.
        -- do 2 f_equal; lia.
      * rewrite (converted_none m raw Hrec), IH. simpl. do 2 f_equal; lia.
    + rewrite decide_False by done.
      rewrite (converted_none m raw (blank_no_record raw Hnb)). apply IH.
Qed.


(** [main] on an input that exists and is not the output file. *)
Lemma convert_main_spec a fs tr t text :
  Convert.inp a ≠ Convert.out a →
  fs !! Convert.inp a = Some text →
  Convert.main a (World fs tr t) =
  let r := Convert.run (Convert.mode_of a) Convert.init (Py.file_lines text) in
  (match r.2 with Some e => inl e | None => inr () end,
   World (<[Convert.out a := Convert.written r.1]> fs)
     (tr ++ [EvOpen (Convert.inp a) "r"] ++ [EvOpen (Convert.out a) "w"] ++
      match r.2 with
      | Some _ => []
      | None => [EvStderr ("converted: in=" +:+ Py.str_of_Z (Z.of_nat (Convert.n_in r.1))
                           +:+ " out=" +:+ Py.str_of_Z (Z.of_nat (Convert.n_out r.1)))]
      end) t).
Proof.
  intros Hne Hfile.
  cbv [Convert.main io_bind open_read open_write read_text write_text set_file log
       files trace clock].
  rewrite Hfile. cbv beta iota.
  rewrite !(lookup_insert_ne fs (Convert.out a) (Convert.inp a)) by done.
  rewrite Hfile. cbv [default from_option id].
  destruct (Convert.run _ _ _) as [st [e|]]; cbv beta iota zeta;
    cbv [io_raise eprint log files trace clock fst snd];
    rewrite lookup_insert_eq, insert_insert_eq; cbv [default from_option id];
    rewrite <- ?app_assoc; reflexivity.
Qed.

(** X8: in a tree of files where the output can be created and is not
    the input, on an input whose records are all JSON objects and whose
    converted records hold no lone surrogate, [main] of convert_jsonl.py
    ends normally; the output file, and no other file, changes and holds
    the converted records, one per line, in the order of the input; the
    message on standard error gives the number of lines that are not blank
    and the number of records written, which is never the larger of the
    two; and the output has as many lines as records when the runtime
    writes floats on one line. *)
Theorem convert_writes_converted_records a w text :
  tree w →
  can_create w (Convert.out a) →
  Convert.inp a ≠ Convert.out a →
  files w !! Convert.inp a = Some text →
  Forall Convert.object_or_none (Py.file_lines text) →
  let lines := Py.file_lines text in
  let records := omap (Convert.converted (Convert.mode_of a)) lines in
  let n_in := length (filter (λ raw, nonblank raw = true) lines) in
  Py.surrogate_free (jsonl records) = true →
  ∃ w',
    Convert.main a w = (inr (), w')
    ∧ files w' = <[Convert.out a := jsonl records]> (files w)
    ∧ last (trace w')
      = Some (EvStderr ("converted: in=" +:+ Py.str_of_Z (Z.of_nat n_in)
                        +:+ " out=" +:+ Py.str_of_Z (Z.of_nat (length records))))
    ∧ length records ≤ n_in
    ∧ (float_repr_one_line → length (Py.file_lines (jsonl records)) = length records).
Proof.
  intros _ _ Hne Hfile Hobj lines records n_in _. destruct w as [fs tr t]. simpl in Hfile.
  rewrite (convert_main_spec a fs tr t text Hne Hfile).
  rewrite (convert_run_from _ _ _ Hobj). cbv zeta. cbn [fst snd Convert.n_in Convert.n_out
    Convert.written Convert.init]. fold lines. fold records. fold n_in.
  eexists. split; [reflexivity|]. cbn [files trace].
  split_and!.
  - done.
  - by rewrite !app_assoc, last_snoc.
  - unfold records, n_in. clear. induction lines as [|raw lines IH]; [done|].
    rewrite filter_cons. cbn [omap list_omap].
    destruct (record_of raw) as [obj|] eqn:Hrec.
    + rewrite (converted_record _ raw obj Hrec).
      rewrite (record_nonblank raw obj Hrec). rewrite decide_True by done.
      destruct (Convert.conv _ obj) as [e|[c|]]; simpl; lia.
    + rewrite (converted_none _ raw Hrec). destruct (decide _); simpl; lia.
  - apply jsonl_length.
Qed.


End ConvertRun.

(** ** Runs of validate_jsonl.py *)

Section ValidateMain.
Context {RT : Runtime}.


(** [main] on an input that exists and is not the file of the rejected
    rows. *)
Lemma validate_main_spec a fs tr t text :
  given (Validate.out_bad a) ≠ Some (Validate.inp a) →
  fs !! Validate.inp a = Some text →
  Validate.main a (World fs tr t) =
  let r := Validate.run a Validate.init (Py.file_lines text) in
  (match r.2 with Some e => inl e | None => inr () end,
   World (match given (Validate.out_bad a) with
          | Some path => <[path := Validate.rejects r.1]> fs
          | None => fs
          end)
     (tr ++ match given (Validate.out_bad a) with
            | Some path => [EvOpen path "w"]
            | None => []
            end ++ [EvOpen (Validate.inp a) "r"] ++
      match r.2 with
      | Some _ => []
      | None => [EvStderr (json_dumps_indent 2 (Validate.counts r.1))]
      end) t).
Proof.
  intros Hne Hfile. unfold Validate.main.
  destruct (given (Validate.out_bad a)) as [path|].
  - assert (path ≠ Validate.inp a) as Hne' by congruence.
    cbv [io_bind open_read open_write read_text write_text set_file log
         files trace clock].
    rewrite !(lookup_insert_ne fs path (Validate.inp a)) by done.
    rewrite Hfile. cbv beta iota.
    rewrite !(lookup_insert_ne fs path (Validate.inp a)) by done.
    rewrite Hfile. cbv [default from_option id].
    destruct (Validate.run _ _ _) as [st [e|]]; cbv beta iota zeta;
      cbv [io_raise eprint log files trace clock fst snd];
      rewrite lookup_insert_eq, insert_insert_eq; cbv [default from_option id];
      rewrite <- ?app_assoc; reflexivity.
  - cbv [io_bind io_ret open_read read_text log files trace clock].
    rewrite Hfile. cbv beta iota. rewrite Hfile. cbv [default from_option id].
    destruct (Validate.run _ _ _) as [st [e|]]; cbv beta iota zeta;
      cbv [io_raise io_ret eprint log files trace clock fst snd];
      rewrite <- ?app_assoc; reflexivity.
Qed.

(** X10: in a tree of files, when the validator raises on no record and,
    if a file of rejected rows is given, that file can be created, is not
    the input and the rejected rows hold no lone surrogate, [main] of
    validate_jsonl.py ends normally and the counters it prints add up:
    [in] is the number of lines that are not blank, [ok] the number of
    lines whose record is accepted, [bad] the number of rejected rows, and
    [in = ok + bad]; the file of rejected rows, when one is given, holds
    these rows, one per line, and no other file changes. *)
Theorem validate_counts_add_up a w text st :
  tree w →
  (∀ path, given (Validate.out_bad a) = Some path →
           can_create w path ∧ path ≠ Validate.inp a
           ∧ Py.surrogate_free (Validate.rejects st) = true) →
  files w !! Validate.inp a = Some text →
  Validate.run a Validate.init (Py.file_lines text) = (st, None) →
  let lines := Py.file_lines text in
  let rows := omap (Validate.rejected a) lines in
  Validate.n_in st = length (filter (λ raw, nonblank raw = true) lines)
  ∧ Validate.n_ok st = length (filter (λ raw, Validate.accepted a raw = true) lines)
  ∧ Validate.n_bad st = length rows
  ∧ Validate.n_in st = Validate.n_ok st + Validate.n_bad st
  ∧ ∃ w',
      Validate.main a w = (inr (), w')
      ∧ files w' = match given (Validate.out_bad a) with
                   | Some path => <[path := jsonl rows]> (files w)
                   | None => files w
                   end
      ∧ last (trace w') = Some (EvStderr (json_dumps_indent 2 (Validate.counts st)))
      ∧ (float_repr_one_line → length (Py.file_lines (jsonl rows)) = Validate.n_bad st).
Proof.
  intros _ Hbad_out Hfile Hrun lines rows.
  assert (given (Validate.out_bad a) ≠ Some (Validate.inp a)) as Hne.
  { intros Hsame. by destruct (Hbad_out _ Hsame) as (_ & ? & _). }
  destruct (validate_run_from a _ _ _ Hrun) as (Hin & Hok & Hbad & Hrej & Hsum).
  simpl in Hin, Hok, Hbad, Hrej. fold lines in Hin, Hok, Hbad, Hrej, Hsum.
  fold rows in Hbad, Hrej, Hsum.
  split_and!; try done; [lia|].
  destruct w as [fs tr t]. simpl in Hfile.
  rewrite (validate_main_spec a fs tr t text Hne Hfile), Hrun. cbv zeta. cbn [fst snd].
  eexists. split; [reflexivity|]. cbn [files trace]. split_and!.
  - by rewrite Hrej.
  - by rewrite !app_assoc, last_snoc.
  - intros Hf. rewrite Hbad. by apply jsonl_length.
Qed.


(** X12: [validate_chat] raises [AttributeError] on every record that is
    not a JSON object, and [TypeError] when the role of the first of at
    least two messages is a list or an object; [validate_instruction]
    raises [TypeError] on [null], booleans and numbers, and on an array
    that holds the string [instruction], while it rejects every other
    array with the reason [missing/invalid instruction]. *)
Theorem validators_raise_on_malformed_records :
  (∀ v, (∀ d, v ≠ JDict d) → Validate.validate_chat v = throw AttributeError)
  ∧ (∀ d md m ms role,
       dict_get d "messages" = JList (JDict md :: m :: ms) →
       dict_get md "role" = role →
       match role with JList _ | JDict _ => True | _ => False end →
       Validate.validate_chat (JDict d) = throw TypeError)
  ∧ (∀ v, match v with JNull | JBool _ | JInt _ | JFloat _ => True | _ => False end →
          Validate.validate_instruction v = throw TypeError)
  ∧ (∀ l, JStr "instruction" ∈ l → Validate.validate_instruction (JList l) = throw TypeError)
  ∧ (∀ l, JStr "instruction" ∉ l →
          Validate.validate_instruction (JList l)
          = ok (false, Some "missing/invalid instruction")).
Proof.
  split_and!.
  - intros v Hv. destruct v; try done. by destruct (Hv d).
  - intros d md m ms role Hmsgs Hrole Hbad.
    unfold Validate.validate_chat, obj_get. cbn [result_bind ok]. rewrite Hmsgs.
    cbn [length Nat.ltb Nat.leb Validate.check_messages]. rewrite Hrole.
    by destruct role.
  - by intros [] Hv.
  - intros l Hin. unfold Validate.validate_instruction. cbn [Validate.check_fields py_contains].
    assert (existsb (λ v, match v with JStr s => String.eqb s "instruction" | _ => false end) l
            = true) as ->; [|done].
    apply existsb_exists. exists (JStr "instruction"). split; [|done].
    by apply list_elem_of_In.
  - intros l Hnin. unfold Validate.validate_instruction. cbn [Validate.check_fields py_contains].
    assert (existsb (λ v, match v with JStr s => String.eqb s "instruction" | _ => false end) l
            = false) as ->; [|done].
    apply not_true_is_false. intros (v & Hin & Hv)%existsb_exists.
    destruct v; try done. apply String.eqb_eq in Hv as ->.
    by apply Hnin, list_elem_of_In.
Qed.

End ValidateMain.

(** ** Missing inputs and runs in place *)

Section FileErrors.
Context {RT : Runtime}.


(** X14: when the output names the input file, the file is emptied before
    it is read: dedupe and convert with [--out] equal to [--in], and the
    validator with [--out_bad] equal to [--in], end normally, report zero
    lines and leave the input empty, whatever it held. *)
Theorem in_place_run_empties_the_input (w : world) (text : string) :
  (∀ a, Dedupe.out a = Dedupe.inp a → files w !! Dedupe.inp a = Some text →
     ∃ w', Dedupe.main a w = (inr (), w')
           ∧ files w' = <[Dedupe.inp a := ""]> (files w)
           ∧ last (trace w') = Some (EvStderr "dedupe: in=0 out=0"))
  ∧ (∀ a, Convert.out a = Convert.inp a → files w !! Convert.inp a = Some text →
     ∃ w', Convert.main a w = (inr (), w')
           ∧ files w' = <[Convert.inp a := ""]> (files w)
           ∧ last (trace w') = Some (EvStderr "converted: in=0 out=0"))
  ∧ (∀ a, given (Validate.out_bad a) = Some (Validate.inp a) →
     files w !! Validate.inp a = Some text →
     ∃ w', Validate.main a w = (inr (), w')
           ∧ files w' = <[Validate.inp a := ""]> (files w)
           ∧ last (trace w')
             = Some (EvStderr (json_dumps_indent 2
                                 (JDict [("in", JInt 0); ("ok", JInt 0); ("bad", JInt 0)])))).
Proof.
  destruct w as [fs tr t]. split_and!.
  - intros a Hsame Hfile. simpl in Hfile.
    cbv [Dedupe.main io_bind open_read open_write read_text write_text set_file log
         files trace clock].
    rewrite Hsame, Hfile. cbv beta iota. rewrite !lookup_insert_eq. cbv [default from_option id].
    change (Py.file_lines "") with (@nil string).
    cbn [Dedupe.run Dedupe.written Dedupe.n_in Dedupe.n_out Dedupe.init].
    cbv [eprint log files trace clock].
    eexists. split; [reflexivity|]. cbn [files trace]. split.
    + rewrite lookup_insert_eq. by rewrite !insert_insert_eq.
    + by rewrite last_snoc.
  - intros a Hsame Hfile. simpl in Hfile.
    cbv [Convert.main io_bind open_read open_write read_text write_text set_file log
         files trace clock].
    rewrite Hsame, Hfile. cbv beta iota. rewrite !lookup_insert_eq. cbv [default from_option id].
    change (Py.file_lines "") with (@nil string).
    cbn [Convert.run Convert.written Convert.n_in Convert.n_out Convert.init].
    cbv [eprint log files trace clock].
    eexists. split; [reflexivity|]. cbn [files trace]. split.
    + rewrite lookup_insert_eq. by rewrite !insert_insert_eq.
    + by rewrite last_snoc.
  - intros a Hsame Hfile. simpl in Hfile. unfold Validate.main. rewrite Hsame.
    cbv [io_bind open_read open_write read_text write_text set_file log
         files trace clock].
    rewrite !lookup_insert_eq. cbv [default from_option id].
    change (Py.file_lines "") with (@nil string).
    cbn [Validate.run Validate.rejects Validate.init].
    cbv [eprint log files trace clock].
    eexists. split; [reflexivity|]. cbn [files trace]. split.
    + rewrite lookup_insert_eq. by rewrite !insert_insert_eq.
    + by rewrite last_snoc.
Qed.

End FileErrors.

(** ** The counters of the deduplicator *)

Section DedupeCounts.
Context {RT : Runtime}.

Lemma render_jsonl rs : Dedupe.render rs = jsonl rs.
Proof.
  induction rs as [|r rs IH]; [done|].
  rewrite jsonl_cons, <- IH. done.
Qed.

Lemma parse_line_record raw : Dedupe.parse_line raw = record_of raw.
Proof. done. Qed.

Lemma records_among_nonblank lines :
  length (Dedupe.parseable lines) ≤ length (filter (λ raw, nonblank raw = true) lines).
Proof.
  induction lines as [|raw lines IH]; [done|].
  rewrite parseable_cons, filter_cons, parse_line_record.
  destruct (record_of raw) as [obj|] eqn:Hrec.
  - rewrite (record_nonblank raw obj Hrec), decide_True by done. simpl. lia.
  - destruct (decide _); simpl; lia.
Qed.

Lemma digests_of_encodable rs :
  Forall Dedupe.encodable rs → ok <$> Dedupe.digests rs = Dedupe.h <$> rs.
Proof.
  induction 1 as [|r rs Hr _ IH]; [done|].
  destruct (h_encodable r Hr) as [key Hkey].
  unfold Dedupe.digests in *. cbn [omap list_omap]. rewrite fmap_cons, Hkey.
  change (match ok key with inl _ => None | inr key0 => Some key0 end) with (Some key).
  cbv beta iota. by rewrite fmap_cons, IH.
Qed.

(** [main] on an input that exists and is not the output file. *)
Lemma dedupe_main_spec a fs tr t text :
  Dedupe.inp a ≠ Dedupe.out a →
  fs !! Dedupe.inp a = Some text →
  Dedupe.main a (World fs tr t) =
  let r := Dedupe.run Dedupe.init (Py.file_lines text) in
  (match r.2 with Some e => inl e | None => inr () end,
   World (<[Dedupe.out a := Dedupe.written r.1]> fs)
     (tr ++ [EvOpen (Dedupe.inp a) "r"] ++ [EvOpen (Dedupe.out a) "w"] ++
      match r.2 with
      | Some _ => []
      | None => [EvStderr ("dedupe: in=" +:+ Py.str_of_Z (Z.of_nat (Dedupe.n_in r.1))
                           +:+ " out=" +:+ Py.str_of_Z (Z.of_nat (Dedupe.n_out r.1)))]
      end) t).
Proof.
  intros Hne Hfile.
  cbv [Dedupe.main io_bind open_read open_write read_text write_text set_file log
       files trace clock].
  rewrite Hfile. cbv beta iota.
  rewrite !(lookup_insert_ne fs (Dedupe.out a) (Dedupe.inp a)) by done.
  rewrite Hfile. cbv [default from_option id].
  destruct (Dedupe.run _ _) as [st [e|]]; cbv beta iota zeta;
    cbv [io_raise eprint log files trace clock fst snd];
    rewrite lookup_insert_eq, insert_insert_eq; cbv [default from_option id];
    rewrite <- ?app_assoc; reflexivity.
Qed.

(** X15: in a tree of files where the output can be created and is not
    the input, on an input none of whose records holds a lone surrogate
    in its serialization, [main] of dedupe_jsonl.py ends normally; the
    output file, and no other file, changes and holds the first
    occurrences of the records, one per line; the message on standard
    error gives the number of lines that are not blank and the number of
    records kept, which is never the larger of the two; the set [seen]
    holds the digests of the kept records, as many as records; and the
    output has as many lines as records when the runtime writes floats on
    one line. *)
Theorem dedupe_reports_its_counts a w text :
  tree w →
  can_create w (Dedupe.out a) →
  Dedupe.inp a ≠ Dedupe.out a →
  files w !! Dedupe.inp a = Some text →
  let lines := Py.file_lines text in
  let kept := Dedupe.first_occurrences [] (Dedupe.parseable lines) in
  let n_in := length (filter (λ raw, nonblank raw = true) lines) in
  Forall Dedupe.encodable (Dedupe.parseable lines) →
  ∃ w' st,
    Dedupe.main a w = (inr (), w')
    ∧ Dedupe.run Dedupe.init lines = (st, None)
    ∧ files w' = <[Dedupe.out a := jsonl kept]> (files w)
    ∧ last (trace w')
      = Some (EvStderr ("dedupe: in=" +:+ Py.str_of_Z (Z.of_nat n_in)
                        +:+ " out=" +:+ Py.str_of_Z (Z.of_nat (length kept))))
    ∧ length kept ≤ n_in
    ∧ Dedupe.seen st = list_to_set (Dedupe.digests kept)
    ∧ size (Dedupe.seen st) = length kept
    ∧ (float_repr_one_line → length (Py.file_lines (jsonl kept)) = length kept).
Proof.
  intros _ _ Hne Hfile lines kept n_in Henc. destruct w as [fs tr t]. simpl in Hfile.
  pose proof (dedupe_run_spec lines Henc) as Hrun. cbv zeta in Hrun.
  fold kept in Hrun. fold n_in in Hrun.
  assert (Forall Dedupe.encodable kept) as Hkept.
  { rewrite Forall_forall in Henc |- *. intros r Hr. apply Henc.
    by eapply elem_of_sublist; [|apply first_occurrences_sublist]. }
  assert (length (Dedupe.digests kept) = length kept) as Hlen.
  { rewrite <- (length_fmap ok), (digests_of_encodable kept Hkept). apply length_fmap. }
  rewrite (dedupe_main_spec a fs tr t text Hne Hfile). fold lines. rewrite Hrun.
  cbv zeta. cbn [fst snd Dedupe.n_in Dedupe.n_out Dedupe.written Dedupe.seen].
  eexists _, _. split; [reflexivity|]. split; [reflexivity|]. cbn [files trace Dedupe.seen].
  split_and!.
  - by rewrite render_jsonl.
  - by rewrite !app_assoc, last_snoc.
  - etransitivity; [|apply records_among_nonblank].
    apply sublist_length, first_occurrences_sublist.
  - done.
  - rewrite size_list_to_set; [done|].
    apply (NoDup_fmap_1 ok). rewrite (digests_of_encodable kept Hkept).
    apply first_occurrences_NoDup.
  - apply jsonl_length.
Qed.

End DedupeCounts.

(** ** The reading loop of the statistics *)

Lemma sum_Z_nonneg l : Forall (λ z, 0 ≤ z)%Z l → (0 ≤ Stats.sum_Z l)%Z.
Proof. induction 1 as [|z l Hz _ IH]; simpl; [done|]. unfold Stats.sum_Z in *. simpl. lia. Qed.

Lemma sum_Z_cons z l : Stats.sum_Z (z :: l) = (z + Stats.sum_Z l)%Z.
Proof. done. Qed.

(** Counting one more occurrence of a label. *)
Lemma count_label_sum key (d : list (string * Z)) :
  Stats.sum_Z (Py.dict_set key (default 0 (Py.dict_lookup key d) + 1)%Z d).*2
  = (Stats.sum_Z d.*2 + 1)%Z.
Proof.
  induction d as [|[k v] d IH]; [done|].
  cbn [Py.dict_set Py.dict_lookup]. destruct (decide (key = k)) as [->|Hne].
  - cbn [default from_option id]. rewrite !fmap_cons, !sum_Z_cons. simpl. lia.
  - rewrite !fmap_cons, !sum_Z_cons, IH. simpl. lia.
Qed.

Lemma count_label_positive key (d : list (string * Z)) :
  Forall (λ kv, 0 < kv.2)%Z d →
  Forall (λ kv, 0 < kv.2)%Z
    (Py.dict_set key (default 0 (Py.dict_lookup key d) + 1)%Z d).
Proof.
  induction 1 as [|[k v] d Hv Hd IH]; [by repeat constructor|].
  cbn [Py.dict_set Py.dict_lookup]. destruct (decide (key = k)) as [->|Hne].
  - cbn [default from_option id]. constructor; [simpl in *; lia|done].
  - by constructor.
Qed.

Section StatsRun.
Context {RT : Runtime}.

Lemma msg_text_len_nonneg m : (0 ≤ Stats.msg_text_len m)%Z.
Proof. unfold Stats.msg_text_len. destruct (dict_get_or _ _ _); lia. Qed.

Lemma record_length_nonneg m obj z : Stats.record_length m obj = ok z → (0 ≤ z)%Z.
Proof.
  destruct m; simpl; intros H.
  - repeat invert_bind H. injection H as <-. apply sum_Z_nonneg.
    clear. induction x0 as [|v l IH]; simpl; [constructor|].
    destruct v; simpl; try done. constructor; [apply msg_text_len_nonneg|done].
  - repeat invert_bind H. injection H as <-. unfold Stats.sum_Z. simpl. lia.
Qed.

Lemma stats_step_spec a st raw :
  Stats.step a st raw =
  match record_of raw with
  | None => ok st
  | Some obj =>
      result_bind (Stats.record_length (Stats.mode_of a) obj) (λ len,
        let lengths' := Stats.lengths st ++ [len] in
        match Stats.label_path_given a with
        | None => ok (Stats.State lengths' (Stats.label_counts st) (S (Stats.n st))
                        (Stats.n_missing_label st))
        | Some path =>
            match get_path obj path with
            | JNull => ok (Stats.State lengths' (Stats.label_counts st) (S (Stats.n st))
                             (S (Stats.n_missing_label st)))
            | lab =>
                let key := py_str lab in
                let count := default 0%Z (Py.dict_lookup key (Stats.label_counts st)) in
                ok (Stats.State lengths' (Py.dict_set key (count + 1)%Z (Stats.label_counts st))
                      (S (Stats.n st)) (Stats.n_missing_label st))
            end
        end)
  end.
Proof.
  unfold Stats.step, record_of. destruct (Py.is_empty _); [done|].
  by destruct (json_loads _).
Qed.

Lemma stats_step_invariant a st raw st' :
  Stats.invariant a st → Stats.step a st raw = ok st' →
  Stats.invariant a st'
  ∧ Stats.n st' = Stats.n st + length (omap record_of [raw]).
Proof.
  intros (Hlen & Hpos & Hnd & Hcounts & Hsum & Hnone). rewrite stats_step_spec.
  cbn [omap list_omap].
  destruct (record_of raw) as [obj|]; [|intros [= <-]; split; [done|simpl; lia]].
  intros H. invert_bind H. apply record_length_nonneg in Hx. cbv zeta in H.
  destruct (Stats.label_path_given a) as [path|] eqn:Hpath.
  - assert (∀ lab, lab ≠ JNull →
              let key := py_str lab in
              let count := default 0%Z (Py.dict_lookup key (Stats.label_counts st)) in
              st' = Stats.State (Stats.lengths st ++ [x])
                      (Py.dict_set key (count + 1)%Z (Stats.label_counts st))
                      (S (Stats.n st)) (Stats.n_missing_label st) →
              Stats.invariant a st' ∧ Stats.n st' = Stats.n st + 1) as Hlab.
    { intros lab _ key count ->. split; [|simpl; lia].
      pose proof (count_label_sum key (Stats.label_counts st)) as Hs.
      pose proof (count_label_positive key (Stats.label_counts st)) as Hp.
      unfold Stats.invariant. rewrite Hpath. simpl. try rewrite Hpath in Hsum.
      split_and!.
      - rewrite length_app. simpl. lia.
      - apply Forall_app. split; [done|]. by constructor.
      - by apply dict_set_NoDup.
      - by apply Hp.
      - fold key count. unfold count. rewrite Hs. lia.
      - done. }
    destruct (get_path obj path) eqn:Hget.
    2-7: injection H as H; symmetry in H;
      match type of Hget with _ = ?v => exact (Hlab v ltac:(discriminate) H) end.
    injection H as <-. split; [|simpl; lia].
    unfold Stats.invariant. rewrite Hpath. simpl. try rewrite Hpath in Hsum.
    split_and!; try done; try lia.
    + rewrite length_app. simpl. lia.
    + apply Forall_app. split; [done|]. by constructor.
  - injection H as <-. split; [|simpl; lia].
    unfold Stats.invariant. rewrite Hpath. simpl. try rewrite Hpath in Hsum.
    split_and!; try done; try lia.
    + rewrite length_app. simpl. lia.
    + apply Forall_app. split; [done|]. by constructor.
Qed.

Lemma stats_run_invariant a st lines st' :
  Stats.invariant a st → Stats.run a st lines = ok st' →
  Stats.invariant a st'
  ∧ Stats.n st' = Stats.n st + length (omap record_of lines).
Proof.
  revert st. induction lines as [|raw lines IH]; intros st Hinv Hrun.
  - injection Hrun as <-. split; [done|simpl; lia].
  - cbn [Stats.run] in Hrun. invert_bind Hrun.
    destruct (stats_step_invariant a st raw x Hinv Hx) as [Hinv1 Hn1].
    destruct (IH x Hinv1 Hrun) as [Hinv' Hn']. split; [done|].
    rewrite Hn', Hn1. cbn [omap list_omap]. destruct (record_of raw); simpl; lia.
Qed.

End StatsRun.

(** ** The order of the labels *)

Lemma insert_by_count_Permutation (x : string * Z) l :
  Py.insert_sorted (λ x y : string * Z, Z.leb y.2 x.2) x l ≡ₚ x :: l.
Proof.
  induction l as [|y l IH]; simpl; [done|].
  destruct (Z.leb _ _); [done|]. rewrite IH. apply perm_swap.
Qed.

Lemma sorted_by_count_Permutation (l : list (string * Z)) :
  Py.sorted (λ x y : string * Z, Z.leb y.2 x.2) l ≡ₚ l.
Proof.
  induction l as [|x l IH]; [done|]. simpl.
  by rewrite insert_by_count_Permutation, IH.
Qed.

Lemma insert_by_count_Sorted (x : string * Z) l :
  Sorted Stats.by_count l →
  Sorted Stats.by_count (Py.insert_sorted (λ x y : string * Z, Z.leb y.2 x.2) x l).
Proof.
  induction 1 as [|y l Hl IH Hy]; simpl.
  - by repeat constructor.
  - destruct (Z.leb_spec y.2 x.2) as [Hle|Hgt].
    + by repeat constructor.
    + constructor; [done|].
      destruct l as [|z l]; simpl in *.
      * constructor. unfold Stats.by_count. lia.
      * destruct (Z.leb z.2 x.2); constructor; [unfold Stats.by_count; lia|].
        by inversion Hy.
Qed.

Lemma sorted_by_count_Sorted (l : list (string * Z)) :
  Sorted Stats.by_count (Py.sorted (λ x y : string * Z, Z.leb y.2 x.2) l).
Proof.
  induction l as [|x l IH]; [constructor|]. simpl. by apply insert_by_count_Sorted.
Qed.

Lemma insert_by_count_stable (c : Z) (x : string * Z) l :
  filter (λ kv, kv.2 = c) (Py.insert_sorted (λ x y : string * Z, Z.leb y.2 x.2) x l)
  = filter (λ kv, kv.2 = c) (x :: l).
Proof.
  induction l as [|y l IH]; simpl; [done|].
  destruct (Z.leb_spec y.2 x.2) as [Hle|Hgt]; [done|].
  rewrite filter_cons, IH, !filter_cons.
  destruct (decide (y.2 = c)), (decide (x.2 = c)); try done. lia.
Qed.

Lemma sorted_by_count_stable (c : Z) (l : list (string * Z)) :
  filter (λ kv, kv.2 = c) (Py.sorted (λ x y : string * Z, Z.leb y.2 x.2) l)
  = filter (λ kv, kv.2 = c) l.
Proof.
  induction l as [|x l IH]; [done|]. simpl.
  by rewrite insert_by_count_stable, !filter_cons, IH.
Qed.

Global Instance by_count_trans : Transitive Stats.by_count.
Proof. unfold Stats.by_count. intros x y z. lia. Qed.

Section StatsReport.
Context {RT : Runtime}.

Lemma init_invariant a : Stats.invariant a Stats.init.
Proof.
  unfold Stats.invariant. simpl. split_and!; try done; try constructor.
  by destruct (Stats.label_path_given a).
Qed.

(** X16: when the reading loop of stats_report.py ends normally, [n] is the
    number of lines that hold a record and there is one length per record,
    none negative; every label is counted once, with a positive count;
    with a label path each record is counted under its label or as
    missing, so the counts and the missing add up to [n]; without one no
    label is counted. *)
Theorem stats_counts_every_record a lines st :
  Stats.run a Stats.init lines = ok st →
  Stats.n st = length (omap record_of lines)
  ∧ length (Stats.lengths st) = Stats.n st
  ∧ Forall (λ z, 0 ≤ z)%Z (Stats.lengths st)
  ∧ NoDup (Stats.label_counts st).*1
  ∧ Forall (λ kv, 0 < kv.2)%Z (Stats.label_counts st)
  ∧ (is_Some (Stats.label_path_given a) →
     (Stats.sum_Z (Stats.label_counts st).*2 + Z.of_nat (Stats.n_missing_label st))%Z
     = Z.of_nat (Stats.n st))
  ∧ (Stats.label_path_given a = None →
     Stats.label_counts st = [] ∧ Stats.n_missing_label st = 0).
Proof.
  intros Hrun.
  destruct (stats_run_invariant a _ _ _ (init_invariant a) Hrun)
    as [(Hlen & Hpos & Hnd & Hcounts & Hsum & Hnone) Hn].
  split_and!; try done.
  intros [path Hpath]. by rewrite Hpath in Hsum.
Qed.

(** X17: with a label path, the [counts] object of the report lists every
    counted label once, by decreasing count, labels of equal count in the
    order they were first met. *)
Theorem label_counts_sorted_by_count a st path :
  Stats.label_path_given a = Some path →
  ∃ items,
    Stats.labels a st
    = JDict [("label_path", JStr path);
             ("missing", JInt (Z.of_nat (Stats.n_missing_label st)));
             ("counts", JDict (map (λ kv, (kv.1, JInt kv.2)) items))]
    ∧ items ≡ₚ Stats.label_counts st
    ∧ StronglySorted Stats.by_count items
    ∧ ∀ c, filter (λ kv, kv.2 = c) items = filter (λ kv, kv.2 = c) (Stats.label_counts st).
Proof.
  intros Hpath. unfold Stats.labels. rewrite Hpath.
  eexists. split; [reflexivity|]. split_and!.
  - apply sorted_by_count_Permutation.
  - apply Sorted_StronglySorted; [apply by_count_trans|apply sorted_by_count_Sorted].
  - intros c. apply sorted_by_count_stable.
Qed.

Lemma chat_length_list d ms :
  dict_get d "messages" = JList ms →
  Stats.record_length Stats.Chat (JDict d)
  = ok (Stats.sum_Z (omap (λ x, match x with
                                | JDict md => Some (Stats.msg_text_len md)
                                | _ => None
                                end) ms)).
Proof.
  intros Hms. unfold Stats.record_length, obj_get, py_or.
  cbn [result_bind ok]. rewrite Hms. by destruct ms.
Qed.

(** X18: the length of a record: a record that is not an object raises
    [AttributeError] in both modes; a length is never negative; in chat
    mode a record with no messages, or whose messages are a string, has
    length 0, messages that are [true] or a number other than 0 raise
    [TypeError], entries that are not objects and contents that are not
    strings count 0, and string contents count their characters; in
    instruction mode a record with none of the three fields has length
    0. *)
Theorem record_length_edge_cases :
  (∀ m v, (∀ d, v ≠ JDict d) → Stats.record_length m v = throw AttributeError)
  ∧ (∀ m obj z, Stats.record_length m obj = ok z → (0 ≤ z)%Z)
  ∧ (∀ d, truthy (dict_get d "messages") = false →
          Stats.record_length Stats.Chat (JDict d) = ok 0%Z)
  ∧ (∀ d s, dict_get d "messages" = JStr s →
            Stats.record_length Stats.Chat (JDict d) = ok 0%Z)
  ∧ (∀ d v, dict_get d "messages" = v → truthy v = true →
            match v with JBool _ | JInt _ | JFloat _ => True | _ => False end →
            Stats.record_length Stats.Chat (JDict d) = throw TypeError)
  ∧ (∀ d ms, dict_get d "messages" = JList ms →
             Forall (λ m, match m with
                          | JDict md => ∀ c, Py.dict_lookup "content" md ≠ Some (JStr c)
                          | _ => True
                          end) ms →
             Stats.record_length Stats.Chat (JDict d) = ok 0%Z)
  ∧ (∀ d ms cs, dict_get d "messages" = JList ms →
             Forall2 (λ m c, ∃ md, m = JDict md ∧ Py.dict_lookup "content" md = Some (JStr c))
               ms cs →
             Stats.record_length Stats.Chat (JDict d)
             = ok (Stats.sum_Z (map (λ c, Z.of_nat (String.length c)) cs)))
  ∧ (∀ d, Py.dict_lookup "instruction" d = None → Py.dict_lookup "input" d = None →
          Py.dict_lookup "output" d = None →
          Stats.record_length Stats.Instruction (JDict d) = ok 0%Z).
Proof.
  split_and!.
  - intros m v Hv. destruct v; try (by destruct m). by destruct (Hv d).
  - apply record_length_nonneg.
  - intros d Hfalse. unfold Stats.record_length, obj_get, py_or.
    cbn [result_bind ok]. by rewrite Hfalse.
  - intros d s Hs. unfold Stats.record_length, obj_get, py_or.
    cbn [result_bind ok]. rewrite Hs. destruct s as [|c s]; [done|].
    cbn [truthy Py.is_empty negb py_iter result_bind ok]. f_equal.
    generalize (String c s). clear. intros s. induction s as [|c s IH]; [done|]. done.
  - intros d v Hv Htrue Hkind. unfold Stats.record_length, obj_get, py_or.
    cbn [result_bind ok]. rewrite Hv, Htrue. by destruct v.
  - intros d ms Hms Hall. rewrite (chat_length_list d ms Hms). f_equal. clear Hms.
    induction Hall as [|m ms' Hm _ IH]; [done|].
    cbn [omap list_omap]. destruct m as [| | | | | |md]; try exact IH.
    rewrite sum_Z_cons, IH. unfold Stats.msg_text_len, dict_get_or.
    destruct (Py.dict_lookup "content" md) as [[]|] eqn:Hc; try done.
    by destruct (Hm s).
  - intros d ms cs Hms Hall. rewrite (chat_length_list d ms Hms). f_equal. clear Hms.
    induction Hall as [|m c ms' cs' (md & -> & Hc) _ IH]; [done|].
    cbn [omap list_omap map]. rewrite !sum_Z_cons, IH.
    unfold Stats.msg_text_len, dict_get_or. by rewrite Hc.
  - intros d Ha Hb Hc. unfold Stats.record_length, obj_get_or, dict_get_or.
    cbn [result_bind ok]. by rewrite Ha, Hb, Hc.
Qed.

Lemma stats_run_app a st l1 l2 :
  Stats.run a st (l1 ++ l2) = result_bind (Stats.run a st l1) (λ st', Stats.run a st' l2).
Proof.
  revert st. induction l1 as [|raw l1 IH]; intros st; [done|].
  simpl. destruct (Stats.step a st raw) as [e|st1]; [done|]. simpl. apply IH.
Qed.

(** X19: a line holding a record that is not a JSON object makes [main] of
    stats_report.py stop with [AttributeError] before the report is
    opened: every file is as it was. *)
Theorem stats_stops_on_record_that_is_not_object a w text before raw rest st v :
  files w !! Stats.inp a = Some text →
  Py.file_lines text = before ++ raw :: rest →
  Stats.run a Stats.init before = ok st →
  record_of raw = Some v →
  (∀ d, v ≠ JDict d) →
  ∃ w', Stats.main a w = (inl AttributeError, w') ∧ files w' = files w.
Proof.
  intros Hfile Hlines Hrun Hrec Hv. destruct w as [fs tr t]. simpl in Hfile.
  assert (Stats.run a Stats.init (Py.file_lines text) = throw AttributeError) as Hfail.
  { rewrite Hlines, stats_run_app, Hrun. cbn [result_bind ok Stats.run].
    rewrite stats_step_spec, Hrec.
    assert (Stats.record_length (Stats.mode_of a) v = throw AttributeError) as ->; [|done].
    destruct v; try (by destruct (Stats.mode_of a)). by destruct (Hv d). }
  cbv [Stats.main io_bind open_read read_text io_lift log files trace clock].
  rewrite Hfile. cbv beta iota. rewrite Hfile. cbv [default from_option id].
  rewrite Hfail. eauto.
Qed.

End StatsReport.

(** ** The records of the partitions *)

Lemma mjoin_app_pointwise {A B} (f g : A → list B) (l : list A) :
  mjoin (map (λ x, f x ++ g x) l) ≡ₚ mjoin (map f l) ++ mjoin (map g l).
Proof.
  induction l as [|x l IH]; [done|]. simpl. rewrite IH.
  rewrite <- !app_assoc. f_equiv. rewrite !app_assoc. f_equiv. apply Permutation_app_comm.
Qed.

Lemma mjoin_single {B} (k0 : string) (y : B) (keys : list string) :
  NoDup keys →
  mjoin (map (λ k, if decide (k0 = k) then [y] else []) keys)
  = if decide (k0 ∈ keys) then [y] else [].
Proof.
  induction 1 as [|k keys Hk Hnd IH]; [done|]. simpl. rewrite IH.
  destruct (decide (k0 = k)) as [->|Hne].
  - rewrite (decide_True (P := k ∈ k :: keys)) by apply list_elem_of_here.
    by rewrite (decide_False (P := k ∈ keys)).
  - destruct (decide (k0 ∈ keys)).
    + by rewrite decide_True by (by apply list_elem_of_further).
    + rewrite decide_False; [done|]. by intros [?|?]%elem_of_cons.
Qed.

Section GroupRecords.
Context {RT : Runtime}.

Lemma line_group_record kp raw :
  GroupSplit.line_group kp raw = GroupSplit.group_of kp <$> record_of raw.
Proof. unfold GroupSplit.line_group, record_of. by destruct (Py.is_empty _). Qed.

Lemma members_cons kp k raw lines :
  GroupSplit.members kp k (raw :: lines) =
  (if decide (GroupSplit.line_group kp raw = Some k) then [Py.strip raw] else [])
  ++ GroupSplit.members kp k lines.
Proof.
  unfold GroupSplit.members. rewrite filter_cons. by destruct (decide _).
Qed.

(** The records of all the groups are the records of the input. *)
Lemma members_of_all_groups kp keys lines :
  NoDup keys →
  (∀ raw k, raw ∈ lines → GroupSplit.line_group kp raw = Some k → k ∈ keys) →
  mjoin (map (λ k, GroupSplit.members kp k lines) keys)
  ≡ₚ Py.strip <$> filter (λ raw, is_Some (record_of raw)) lines.
Proof.
  intros Hnd. induction lines as [|raw lines IH]; intros Hcover.
  - unfold GroupSplit.members. simpl. clear. induction keys; [done|]. done.
  - rewrite (map_ext _ (λ k, (if decide (GroupSplit.line_group kp raw = Some k)
                              then [Py.strip raw] else [])
                             ++ GroupSplit.members kp k lines))
      by (intros k; apply members_cons).
    rewrite mjoin_app_pointwise, IH.
    2: { intros raw' k Hin. apply Hcover. by apply list_elem_of_further. }
    rewrite filter_cons.
    destruct (GroupSplit.line_group kp raw) as [k0|] eqn:Hg.
    + rewrite (map_ext _ (λ k, if decide (k0 = k) then [Py.strip raw] else [])).
      2: { intros k. destruct (decide (Some k0 = Some k)) as [[= ->]|Hne].
           - by rewrite decide_True.
           - rewrite decide_False; [done|]. congruence. }
      rewrite mjoin_single by done.
      rewrite decide_True by (apply (Hcover raw); [apply list_elem_of_here|done]).
      rewrite line_group_record in Hg.
      destruct (record_of raw); [|done]. by rewrite decide_True by eauto.
    + rewrite (map_ext _ (λ k, [])) by (intros k; by rewrite decide_False).
      rewrite line_group_record in Hg.
      destruct (record_of raw); [done|].
      rewrite decide_False by (by intros [? ?]).
      assert (mjoin (map (λ _ : string, @nil string) keys) = []) as ->; [|done].
      clear. induction keys; [done|]. done.
Qed.

Lemma flatten_app groups ks1 ks2 :
  GroupSplit.flatten groups (ks1 ++ ks2)
  = GroupSplit.flatten groups ks1 ++ GroupSplit.flatten groups ks2.
Proof. unfold GroupSplit.flatten. by rewrite map_app, join_app. Qed.

Lemma flatten_Permutation groups ks1 ks2 :
  ks1 ≡ₚ ks2 → GroupSplit.flatten groups ks1 ≡ₚ GroupSplit.flatten groups ks2.
Proof. intros Hp. unfold GroupSplit.flatten. by rewrite Hp. Qed.

Lemma read_groups_rows kp lines st :
  (foldl (GroupSplit.read_step kp) st lines).2 = st.2 + length (omap record_of lines).
Proof.
  revert st. induction lines as [|raw lines IH]; intros st; [simpl; lia|].
  cbn [foldl]. rewrite IH, read_step_spec, line_group_record. cbn [omap list_omap].
  destruct (record_of raw); simpl; lia.
Qed.

(** X20: with train and validation fractions that are not negative, the
    three partitions of the group-aware splitter hold the records of the
    input, each stripped line once: nothing is lost or repeated, the row
    count [n] is the number of lines that hold a record, and the three
    row counts of the summary add up to it. *)
Theorem group_split_keeps_every_record a lines al :
  GroupSplit.split_lines a lines = ok al →
  PrimFloat.leb 0 (GroupSplit.train a) = true →
  PrimFloat.leb 0 (GroupSplit.val a) = true →
  GroupSplit.train_lines al ++ GroupSplit.val_lines al ++ GroupSplit.test_lines al
  ≡ₚ Py.strip <$> filter (λ raw, is_Some (record_of raw)) lines
  ∧ (GroupSplit.read_groups (GroupSplit.group_key a) lines).2
    = length (omap record_of lines)
  ∧ length (GroupSplit.train_lines al) + length (GroupSplit.val_lines al)
    + length (GroupSplit.test_lines al)
    = (GroupSplit.read_groups (GroupSplit.group_key a) lines).2.
Proof.
  intros Hsplit Htrain Hval. unfold GroupSplit.split_lines in Hsplit.
  set (kp := GroupSplit.group_key a) in *.
  destruct (allocation_counts a _ al Hsplit Htrain Hval) as [Hnt Hnv].
  destruct (cuts_of_counts a _ al Hsplit Hnt Hnv)
    as (_ & Hperm & _ & _ & Htr & Hva & _ & Hte & _).
  apply allocate_inv in Hsplit as (nt & nv & _ & _ & Hal).
  assert (GroupSplit.train_lines al ++ GroupSplit.val_lines al ++ GroupSplit.test_lines al
          = GroupSplit.flatten (GroupSplit.read_groups kp lines).1 (GroupSplit.keys al))
    as Hcat.
  { assert (GroupSplit.train_lines al
            = GroupSplit.flatten (GroupSplit.read_groups kp lines).1 (GroupSplit.train_keys al))
      as -> by (by rewrite Hal).
    assert (GroupSplit.val_lines al
            = GroupSplit.flatten (GroupSplit.read_groups kp lines).1 (GroupSplit.val_keys al))
      as -> by (by rewrite Hal).
    assert (GroupSplit.test_lines al
            = GroupSplit.flatten (GroupSplit.read_groups kp lines).1 (GroupSplit.test_keys al))
      as -> by (by rewrite Hal).
    rewrite Htr, Hva, Hte, <- !flatten_app. f_equal.
    by rewrite <- drop_drop, (take_drop (Z.to_nat (GroupSplit.n_val al))), take_drop. }
  assert (GroupSplit.train_lines al ++ GroupSplit.val_lines al ++ GroupSplit.test_lines al
          ≡ₚ Py.strip <$> filter (λ raw, is_Some (record_of raw)) lines) as Hall.
  { rewrite Hcat, (flatten_Permutation _ _ _ Hperm), flatten_members.
    destruct (read_groups_spec kp lines) as [Hnd _].
    apply members_of_all_groups; [done|].
    intros raw k Hin Hg. apply keys_are_groups.
    unfold GroupSplit.groups_in. rewrite elem_of_list_to_set, list_elem_of_omap. eauto. }
  assert ((GroupSplit.read_groups kp lines).2 = length (omap record_of lines)) as Hrows.
  { unfold GroupSplit.read_groups. by rewrite read_groups_rows. }
  split_and!; [done..|].
  rewrite Hrows, <- !length_app, <- app_assoc, Hall, length_fmap.
  clear. induction lines as [|raw lines IH]; [done|].
  rewrite filter_cons. cbn [omap list_omap].
  destruct (record_of raw); [rewrite decide_True by eauto|rewrite decide_False by (by intros [? ?])];
    simpl; lia.
Qed.

(** X21: in each partition of the group-aware splitter the records of a
    group stand together, in the order of the input, and the groups follow
    the order of the shuffled keys; every key has at least one record. *)
Theorem groups_stay_together a lines al :
  GroupSplit.split_lines a lines = ok al →
  let records_of := λ k, GroupSplit.members (GroupSplit.group_key a) k lines in
  GroupSplit.train_lines al = mjoin (map records_of (GroupSplit.train_keys al))
  ∧ GroupSplit.val_lines al = mjoin (map records_of (GroupSplit.val_keys al))
  ∧ GroupSplit.test_lines al = mjoin (map records_of (GroupSplit.test_keys al))
  ∧ (∀ k, k ∈ GroupSplit.keys al → records_of k ≠ [])
  ∧ (∀ k, records_of k
          = Py.strip <$> filter (λ raw, GroupSplit.group_of (GroupSplit.group_key a)
                                          <$> record_of raw = Some k) lines).
Proof.
  intros Hsplit records_of. unfold GroupSplit.split_lines in Hsplit.
  pose proof Hsplit as Hal. apply allocate_inv in Hal as (nt & nv & _ & _ & ->).
  cbn [GroupSplit.train_lines GroupSplit.val_lines GroupSplit.test_lines
       GroupSplit.train_keys GroupSplit.val_keys GroupSplit.test_keys GroupSplit.keys].
  rewrite !flatten_members. split_and!; try done.
  - intros k Hk. apply members_nonempty, keys_are_groups.
    by rewrite <- (shuffle_Permutation (GroupSplit.seed a)).
  - intros k. unfold records_of, GroupSplit.members. f_equal.
    apply list_filter_iff. intros raw. by rewrite line_group_record.
Qed.

End GroupRecords.

(** ** Runs of the splitters *)

Section SplitterRuns.
Context {RT : Runtime}.

(** X22: in a tree of files where the output directory can be made and
    none of the three files to write is a directory, a run of [main] of
    group_split_jsonl.py on an input that exists, with fractions that pass
    the check and are not negative and for which both counts can be
    computed, ends normally and writes the three files; read back, each
    file gives the lines of its partition, the groups found in the three
    files are pairwise disjoint and together they are the groups of the
    input. *)
Theorem group_split_files_partition_groups a w text al :
  tree w →
  can_make w (GroupSplit.outdir a) →
  no_directory_at w (GroupSplit.train_path a) →
  no_directory_at w (GroupSplit.val_path a) →
  no_directory_at w (GroupSplit.test_path a) →
  fractions_off (GroupSplit.train a) (GroupSplit.val a) (GroupSplit.test a) = false →
  files w !! GroupSplit.inp a = Some text →
  GroupSplit.split_lines a (Py.file_lines text) = ok al →
  PrimFloat.leb 0 (GroupSplit.train a) = true →
  PrimFloat.leb 0 (GroupSplit.val a) = true →
  ∃ w' train val test,
    GroupSplit.main a w = (inr (), w')
    ∧ files w' !! GroupSplit.train_path a = Some train
    ∧ files w' !! GroupSplit.val_path a = Some val
    ∧ files w' !! GroupSplit.test_path a = Some test
    ∧ Py.file_lines train = GroupSplit.written (GroupSplit.train_lines al)
    ∧ Py.file_lines val = GroupSplit.written (GroupSplit.val_lines al)
    ∧ Py.file_lines test = GroupSplit.written (GroupSplit.test_lines al)
    ∧ let G := λ content, GroupSplit.groups_in (GroupSplit.group_key a) (Py.file_lines content) in
      G train ## G val ∧ G train ## G test ∧ G val ## G test
      ∧ G train ∪ G val ∪ G test = G text.
Proof.
  intros _ Hdir%can_make_not_empty _ _ _ Hsum Hfile Hsplit Htrain Hval.
  destruct (group_split_main_writes a w text al Hsum Hfile Hsplit Hdir)
    as (w' & Hmain & Htr & Hva & Hte).
  destruct (partition_files_read_back a text al Hsplit) as (Rtr & Rva & Rte).
  destruct (allocation_counts a _ al Hsplit Htrain Hval) as [Hnt Hnv].
  destruct (partition_of_counts a _ al Hsplit Hnt Hnv) as (D1 & D2 & D3 & Hcover & _).
  exists w'. eexists _, _, _. split; [exact Hmain|].
  split; [exact Htr|]. split; [exact Hva|]. split; [exact Hte|].
  split; [exact Rtr|]. split; [exact Rva|]. split; [exact Rte|].
  cbv beta zeta. rewrite Rtr, Rva, Rte. done.
Qed.

(** [main] of split_jsonl.py on an input it can split. *)
Lemma split_main_spec a fs tr t text nt nv :
  fractions_off (Split.train a) (Split.val a) (Split.test a) = false →
  Py.is_empty (Split.outdir a) = false →
  fs !! Split.inp a = Some text →
  let kept := shuffle (Split.seed a)
                (filter (λ ln, Py.is_empty (Py.strip ln) = false) (Py.file_lines text)) in
  int_of_product (length kept) (Split.train a) = ok nt →
  int_of_product (length kept) (Split.val a) = ok nv →
  ∃ tr',
    Split.main a (World fs tr t) =
    (inr (),
     World (<[os_path_join (Split.outdir a) "test.jsonl" :=
                Py.text_of (GroupSplit.written (Py.slice (Some (nt + nv)%Z) None kept))]>
            (<[os_path_join (Split.outdir a) "val.jsonl" :=
                 Py.text_of (GroupSplit.written
                               (Py.slice (Some nt) (Some (nt + nv)%Z) kept))]>
             (<[os_path_join (Split.outdir a) "train.jsonl" :=
                  Py.text_of (GroupSplit.written (Py.slice None (Some nt) kept))]> fs)))
       tr' t).
Proof.
  intros Hsum Hdir Hfile kept Hnt Hnv.
  unfold Split.main. rewrite Hsum.
  cbv [io_bind os_makedirs open_read read_text io_lift log]. rewrite Hdir.
  cbn [files trace clock]. rewrite Hfile. cbv beta iota. cbn [files trace clock].
  rewrite Hfile. cbv [default from_option id]. fold kept.
  rewrite Hnt, Hnv. unfold ok. cbv beta iota.
  rewrite write_lines_spec. cbv beta iota.
  rewrite write_lines_spec. cbv beta iota.
  rewrite write_lines_spec. cbv beta iota.
  cbv [eprint log]. cbn [files trace clock]. eauto.
Qed.

(** X23: in a tree of files where the output directory can be made and
    none of the three files to write is a directory, a run of [main] of
    split_jsonl.py on an input that exists, with fractions that pass the
    check and are not negative and for which both counts [int(n * train)]
    and [int(n * val)] can be computed, ends normally; neither count is
    negative; train is the first [n_train] of the shuffled lines that are
    not blank, validation the [n_val] that follow and test the rest, so
    that together they are these lines, each once; and the three files
    hold them without trailing white space, one per line, no other file
    being changed. *)
Theorem split_keeps_every_line a w text nt nv :
  tree w →
  can_make w (Split.outdir a) →
  no_directory_at w (os_path_join (Split.outdir a) "train.jsonl") →
  no_directory_at w (os_path_join (Split.outdir a) "val.jsonl") →
  no_directory_at w (os_path_join (Split.outdir a) "test.jsonl") →
  fractions_off (Split.train a) (Split.val a) (Split.test a) = false →
  files w !! Split.inp a = Some text →
  let nonblank_lines :=
    filter (λ ln, Py.is_empty (Py.strip ln) = false) (Py.file_lines text) in
  let kept := shuffle (Split.seed a) nonblank_lines in
  int_of_product (length kept) (Split.train a) = ok nt →
  int_of_product (length kept) (Split.val a) = ok nv →
  PrimFloat.leb 0 (Split.train a) = true →
  PrimFloat.leb 0 (Split.val a) = true →
  let train := take (Z.to_nat nt) kept in
  let val := take (Z.to_nat nv) (drop (Z.to_nat nt) kept) in
  let test := drop (Z.to_nat nt + Z.to_nat nv) kept in
  (0 ≤ nt)%Z ∧ (0 ≤ nv)%Z
  ∧ train ++ val ++ test = kept
  ∧ train ++ val ++ test ≡ₚ nonblank_lines
  ∧ ∃ w',
      Split.main a w = (inr (), w')
      ∧ files w'
        = <[os_path_join (Split.outdir a) "test.jsonl" :=
              Py.text_of (GroupSplit.written test)]>
            (<[os_path_join (Split.outdir a) "val.jsonl" :=
                 Py.text_of (GroupSplit.written val)]>
               (<[os_path_join (Split.outdir a) "train.jsonl" :=
                    Py.text_of (GroupSplit.written train)]> (files w))).
Proof.
  intros _ Hdir%can_make_not_empty _ _ _ Hsum Hfile nonblank_lines kept Hnt Hnv
    Htrain Hval train val test.
  destruct w as [fs tr t]. simpl in Hfile.
  destruct (split_main_spec a fs tr t text nt nv Hsum Hdir Hfile Hnt Hnv) as [tr' Hmain].
  fold nonblank_lines kept in Hmain.
  pose proof (count_of_fraction _ _ _ Htrain Hnt) as Hnt0.
  pose proof (count_of_fraction _ _ _ Hval Hnv) as Hnv0.
  rewrite slice_to, slice_between, slice_from in Hmain by lia.
  rewrite Z2Nat.inj_add in Hmain by lia.
  assert (train ++ val ++ test = kept) as Hcat.
  { unfold train, val, test.
    by rewrite <- drop_drop, (take_drop (Z.to_nat nv)), take_drop. }
  split_and!; try done.
  - rewrite Hcat. apply shuffle_Permutation.
  - eexists. split; [exact Hmain|]. done.
Qed.

(** X24: an empty [--outdir] is refused by [os.makedirs] with
    [FileNotFoundError]: the plain splitter stops before it touches
    anything, the group-aware splitter after it has read the input, and
    neither writes a file. *)
Theorem empty_outdir_is_refused (w : world) :
  (∀ a, fractions_off (Split.train a) (Split.val a) (Split.test a) = false →
        Split.outdir a = "" →
        Split.main a w = (inl (FileNotFoundError ""), w))
  ∧ (∀ a text al,
       fractions_off (GroupSplit.train a) (GroupSplit.val a) (GroupSplit.test a) = false →
       GroupSplit.outdir a = "" →
       files w !! GroupSplit.inp a = Some text →
       GroupSplit.split_lines a (Py.file_lines text) = ok al →
       ∃ w', GroupSplit.main a w = (inl (FileNotFoundError ""), w')
             ∧ files w' = files w).
Proof.
  split.
  - intros a Hsum Hdir. unfold Split.main. rewrite Hsum, Hdir. done.
  - intros a text al Hsum Hdir Hfile Hsplit. destruct w as [fs tr t]. simpl in Hfile.
    unfold GroupSplit.split_lines in Hsplit.
    unfold GroupSplit.main. rewrite Hsum, Hdir.
    cbv [io_bind open_read read_text io_lift os_makedirs log]. cbn [files trace clock].
    rewrite Hfile. cbv beta iota. cbn [files trace clock].
    rewrite Hfile. cbv [default from_option id].
    rewrite Hsplit. unfold ok. cbv beta iota. cbn [Py.is_empty io_raise]. eauto.
Qed.

End SplitterRuns.

(** ** The harvest and the summary *)

Section RetrainMore.
Context {RT : Runtime}.

Lemma harvested_text_jsonl t ds :
  Retrain.harvested_text t ds
  = jsonl (imap (λ i d, Retrain.row d (utc_isoformat (t + i))) ds).
Proof.
  revert t. induction ds as [|d ds IH]; intros t; [done|].
  cbn [Retrain.harvested_text imap]. rewrite jsonl_cons, IH, Nat.add_0_r.
  do 3 f_equal. apply imap_ext. intros i x _. simpl. f_equal. f_equal. lia.
Qed.

(** X25: in a tree of files, when the summary can be read, its detail
    entries are objects, the destination is a path in normal form whose
    directory part can be made and at which no directory stands, and the
    rows to write hold no lone surrogate, a run that triggers ends with
    exit status 1 and appends to the destination, after what it held, one
    row per detail entry whose [ok] is not [true], in order, each stamped
    at its own reading of the clock, and changes no other file; a run that
    does not trigger ends with status 0 and changes no file; the appended
    text has one line per row when the runtime writes floats on one
    line. *)
Theorem harvest_appends_one_line_per_failure a w text d rd path details :
  tree w →
  normal_path path = true →
  can_make w (os_path_dirname path) →
  no_directory_at w path →
  files w !! Retrain.results a = Some text →
  json_loads text = Some (JDict d) →
  Retrain.read_summary (JDict d) = ok rd →
  Retrain.out_given a = Some path →
  dict_get_or d "details" (JList []) = JList details →
  Retrain.all_objects details →
  let failing := Retrain.failing details in
  let rows := imap (λ i entry, Retrain.row entry (utc_isoformat (clock w + i))) failing in
  let old := default "" (files w !! path) in
  Py.surrogate_free (jsonl rows) = true →
  (Retrain.triggered a rd = true →
     ∃ w', Retrain.main a w = (inl (SysExit 1), w')
           ∧ files w' = <[path := old +:+ jsonl rows]> (files w)
           ∧ clock w' = clock w + length failing)
  ∧ (Retrain.triggered a rd = false →
     ∃ w', Retrain.main a w = (inl (SysExit 0), w')
           ∧ files w' = files w ∧ clock w' = clock w)
  ∧ length rows = length failing
  ∧ length failing ≤ length details
  ∧ (float_repr_one_line → length (Py.file_lines (jsonl rows)) = length failing).
Proof.
  intros _ _ Hdir%can_make_not_empty _ Hfile Hload Hread Hout Hdetails Hobj
    failing rows old _.
  destruct (main_harvests a w text d rd path details Hfile Hload Hread Hout Hdir
              Hdetails Hobj) as [tr Hmain].
  assert (length rows = length failing) as Hrows by apply length_imap.
  split_and!.
  - intros Ht. rewrite Ht in Hmain. rewrite harvested_text_jsonl in Hmain.
    eexists. split; [exact Hmain|]. done.
  - intros Ht. rewrite Ht in Hmain. eexists. split; [exact Hmain|]. done.
  - done.
  - unfold failing, Retrain.failing. clear. induction details as [|v l IH]; [done|].
    cbn [omap list_omap]. destruct v; simpl; try lia.
    destruct (Retrain.is_ok d); simpl; lia.
  - intros Hf. rewrite <- Hrows. by apply jsonl_length.
Qed.

(** X26: a harvested row carries the suite, name and status of its detail
    entry under [meta]; under the group key [meta.name], which the script
    suggests for the split, its group is the group of the entry under
    [name], the sentinel group when the entry has no name, and two rows
    harvested from entries of the same name belong to the same group,
    whatever their time stamps. *)
Theorem harvested_rows_group_by_name d ts :
  get_path (Retrain.row d ts) "meta.name" = dict_get d "name"
  ∧ get_path (Retrain.row d ts) "meta.suite" = dict_get d "suite"
  ∧ get_path (Retrain.row d ts) "meta.status" = dict_get d "status"
  ∧ get_path (Retrain.row d ts) "meta.ts" = JStr (ts +:+ "Z")
  ∧ GroupSplit.group_of "meta.name" (Retrain.row d ts) = GroupSplit.group_of "name" (JDict d)
  ∧ (Py.dict_lookup "name" d = None →
     GroupSplit.group_of "meta.name" (Retrain.row d ts) = "__MISSING__")
  ∧ (∀ d' ts', dict_get d' "name" = dict_get d "name" →
       GroupSplit.group_of "meta.name" (Retrain.row d' ts')
       = GroupSplit.group_of "meta.name" (Retrain.row d ts)).
Proof.
  assert (∀ d ts, get_path (Retrain.row d ts) "meta.name" = dict_get d "name") as Hname.
  { intros d0 ts0. reflexivity. }
  split_and!; try reflexivity.
  - intros Hnone. unfold GroupSplit.group_of. rewrite Hname. unfold dict_get.
    by rewrite Hnone.
  - intros d' ts' Heq. unfold GroupSplit.group_of. by rewrite !Hname, Heq.
Qed.

(** X27: when the results file is not JSON, or the summary read from it
    cannot be interpreted, the retrain trigger stops with the exception
    before it prints or writes anything; a summary that is not an object
    raises [AttributeError], a [passRate] that is [null] raises
    [TypeError], and a taxonomy that is an array with entries raises
    [AttributeError]. *)
Theorem unreadable_summary_stops_the_run a w text :
  files w !! Retrain.results a = Some text →
  (json_loads text = None →
     ∃ w', Retrain.main a w = (inl JSONDecodeError, w')
           ∧ files w' = files w
           ∧ trace w' = trace w ++ [EvOpen (Retrain.results a) "r"])
  ∧ (∀ r e, json_loads text = Some r → Retrain.read_summary r = throw e →
       ∃ w', Retrain.main a w = (inl e, w')
             ∧ files w' = files w
             ∧ trace w' = trace w ++ [EvOpen (Retrain.results a) "r"])
  ∧ (∀ r, (∀ d, r ≠ JDict d) → Retrain.read_summary r = throw AttributeError)
  ∧ (∀ d, Py.dict_lookup "passRate" d = Some JNull →
          Retrain.read_summary (JDict d) = throw TypeError)
  ∧ (∀ d p l, py_float (dict_get_or d "passRate" (JInt 0)) = ok p →
              py_float (dict_get_or d "repairedRate" (JInt 0)) = ok l →
              (∃ x items, dict_get d "taxonomy" = JList (x :: items)) →
              Retrain.read_summary (JDict d) = throw AttributeError).
Proof.
  intros Hfile. destruct w as [fs tr t]. simpl in Hfile. split_and!.
  - intros Hload.
    cbv [Retrain.main io_bind open_read read_text io_lift log files trace clock].
    rewrite Hfile. cbv beta iota. rewrite Hfile. cbv [default from_option id].
    rewrite Hload. eauto.
  - intros r e Hload Hread.
    cbv [Retrain.main io_bind open_read read_text io_lift log files trace clock].
    rewrite Hfile. cbv beta iota. rewrite Hfile. cbv [default from_option id].
    rewrite Hload. cbv [or_raise]. rewrite Hread. eauto.
  - intros r Hr. destruct r; try done. by destruct (Hr d).
  - intros d Hp. unfold Retrain.read_summary, obj_get_or, dict_get_or.
    cbn [result_bind ok]. by rewrite Hp.
  - intros d p l Hp Hl (x & items & Htax). unfold Retrain.read_summary, obj_get_or, obj_get.
    cbn [result_bind ok]. rewrite Hp. cbn [result_bind ok]. rewrite Hl.
    cbn [result_bind ok]. by rewrite Htax.
Qed.

End RetrainMore.

(** ** The tokenizer check *)

Lemma lstrip_spaces n s : Py.lstrip (Py.spaces n +:+ s) = Py.lstrip s.
Proof.
  induction n as [|n IH]; [reflexivity|].
  cbn [Py.spaces]. rewrite string_app_cons. cbn [Py.lstrip]. exact IH.
Qed.

Lemma rstrip_space s : Py.rstrip (s +:+ " ") = Py.rstrip s.
Proof.
  induction s as [|c s IH]; [done|].
  rewrite string_app_cons. simpl. by rewrite IH.
Qed.

Lemma spaces_snoc n : Py.spaces (S n) = Py.spaces n +:+ " ".
Proof.
  induction n as [|n IH]; [reflexivity|].
  cbn [Py.spaces] in *. by rewrite IH at 1.
Qed.

Lemma rstrip_spaces n s : Py.rstrip (s +:+ Py.spaces n) = Py.rstrip s.
Proof.
  induction n as [|n IH]; [by rewrite string_app_nil_r|].
  by rewrite spaces_snoc, <- string_app_assoc, rstrip_space.
Qed.

Lemma strip_padded n m s : Py.strip (Py.spaces n +:+ s +:+ Py.spaces m) = Py.strip s.
Proof.
  unfold Py.strip. rewrite <- string_app_assoc, rstrip_spaces.
  rewrite <- rstrip_lstrip, lstrip_spaces. apply rstrip_lstrip.
Qed.

(** X28: the tokenizer check ends with exit status 0 exactly when the two
    identifiers are equal once stripped, and with status 2 otherwise; it
    touches no file; on a match it prints one line; and padding either
    identifier with spaces does not change a match. *)
Theorem tokenizer_check_exit_status a w :
  let same := Py.strip (Tokenizer.train_tokenizer a) = Py.strip (Tokenizer.serve_tokenizer a) in
  ((Tokenizer.main a w).1 = inl (SysExit 0) ↔ same)
  ∧ ((Tokenizer.main a w).1 = inl (SysExit 2) ↔ ¬ same)
  ∧ files (Tokenizer.main a w).2 = files w
  ∧ (same → trace (Tokenizer.main a w).2
            = trace w ++ [EvStdout "OK: tokenizer identifiers match"])
  ∧ (∀ n m n' m' s,
       (Tokenizer.main (Tokenizer.Args (Py.spaces n +:+ s +:+ Py.spaces m)
                          (Py.spaces n' +:+ s +:+ Py.spaces m')) w).1
       = inl (SysExit 0)).
Proof.
  intros same. unfold same, Tokenizer.main.
  split_and!.
  - destruct (String.eqb_spec (Py.strip (Tokenizer.train_tokenizer a))
                (Py.strip (Tokenizer.serve_tokenizer a))); simpl; split; done.
  - destruct (String.eqb_spec (Py.strip (Tokenizer.train_tokenizer a))
                (Py.strip (Tokenizer.serve_tokenizer a))); simpl; split; done.
  - by destruct (String.eqb _ _).
  - intros ->%String.eqb_eq. done.
  - intros n m n' m' s. simpl. rewrite !strip_padded, String.eqb_refl. done.
Qed.

(** ** Runs on concrete inputs *)

Lemma examples_floats_one_line : @float_repr_one_line Examples.runtime.
Proof. intros f. simpl. by destruct (PrimFloat.eqb f 0.5). Qed.

(** A condition on every file of a concrete world, by evaluation. *)
Ltac checked := apply (bool_decide_unpack _); vm_compute; exact I.

(** The validator in instruction mode on an instruction record, a record of another shape, a line that is not JSON and a blank line. *)
Lemma validate_counts_add_up_witness :
  tree Examples.validate_world
  ∧ can_create Examples.validate_world "bad.jsonl"
  ∧ files Examples.validate_world !! "in.jsonl" = Some Examples.mixed
  ∧ @Validate.run Examples.runtime Examples.validate_args Validate.init
      (Py.file_lines Examples.mixed) = (Examples.validate_final, None)
  ∧ Validate.n_in Examples.validate_final = 3
  ∧ Validate.n_ok Examples.validate_final = 1
  ∧ Validate.n_bad Examples.validate_final = 2
  ∧ Validate.n_in Examples.validate_final
    = Validate.n_ok Examples.validate_final + Validate.n_bad Examples.validate_final.
Proof.
  assert (tree Examples.validate_world) as Htree by (apply tree_checked; checked).
  assert (can_create Examples.validate_world "bad.jsonl") as Hcreate
    by (apply can_create_checked; [reflexivity|checked|reflexivity]).
  assert (∀ path, given (Validate.out_bad Examples.validate_args) = Some path →
                  can_create Examples.validate_world path
                  ∧ path ≠ Validate.inp Examples.validate_args
                  ∧ Py.surrogate_free (Validate.rejects Examples.validate_final) = true)
    as Hbad.
  { intros path Hpath. vm_compute in Hpath. injection Hpath as <-.
    split; [exact Hcreate|]. split; [discriminate|vm_compute; reflexivity]. }
  assert (files Examples.validate_world !! Validate.inp Examples.validate_args
          = Some Examples.mixed) as Hfile by reflexivity.
  assert (@Validate.run Examples.runtime Examples.validate_args Validate.init
            (Py.file_lines Examples.mixed) = (Examples.validate_final, None)) as Hrun
    by (vm_compute; reflexivity).
  split; [exact Htree|]. split; [exact Hcreate|].
  split; [exact Hfile|]. split; [exact Hrun|].
  split; [reflexivity|]. split; [reflexivity|]. split; [reflexivity|].
  exact (proj1 (proj2 (proj2 (proj2
           (@validate_counts_add_up Examples.runtime Examples.validate_args
              Examples.validate_world Examples.mixed Examples.validate_final
              Htree Hbad Hfile Hrun))))).
Defined.


(** A user and assistant pair, converted once and twice. *)
Lemma to_chat_idempotent_witness :
  @Convert.to_chat Examples.runtime Examples.pair = ok (Some Examples.chat)
  ∧ @Convert.to_chat Examples.runtime Examples.chat = ok (Some Examples.chat).
Proof.
  assert (@Convert.to_chat Examples.runtime Examples.pair = ok (Some Examples.chat)) as Hconv
    by (vm_compute; reflexivity).
  split; [exact Hconv|].
  exact (proj2 (@to_chat_idempotent Examples.runtime Examples.pair Examples.chat Hconv)).
Defined.

(** A user and assistant pair is converted to a valid conversation. *)
Lemma converted_pair_is_valid_witness :
  ∃ out, @Convert.to_chat Examples.runtime (JDict Examples.pair_dict) = ok (Some out)
         ∧ Validate.validate_chat out = ok (true, None).
Proof.
  apply (@converted_pair_is_valid Examples.runtime Examples.pair_dict "hi" "hello");
    try reflexivity.
  left. reflexivity.
Defined.

(** A system text and a user text alone. *)
Lemma converted_without_reply_is_rejected_witness :
  ∃ out, @Convert.to_chat Examples.runtime (JDict Examples.no_reply_dict) = ok (Some out)
         ∧ Validate.validate_chat out
           = ok (false, Some "need at least one user and one assistant message").
Proof.
  apply (@converted_without_reply_is_rejected Examples.runtime Examples.no_reply_dict "hi");
    reflexivity.
Defined.

(** A prompt and completion pair, converted once and twice. *)
Lemma to_instruction_idempotent_witness :
  Convert.to_instruction Examples.completion
  = ok (Some (JDict [("instruction", JStr "Follow the user request.");
                     ("input", JStr "p"); ("output", JStr "c")]))
  ∧ ∃ a b c,
      JDict [("instruction", JStr "Follow the user request.");
             ("input", JStr "p"); ("output", JStr "c")]
      = JDict [("instruction", a); ("input", b); ("output", c)]
      ∧ Convert.to_instruction
          (JDict [("instruction", JStr "Follow the user request.");
                  ("input", JStr "p"); ("output", JStr "c")])
        = ok (Some (JDict [("instruction", JStr "Follow the user request.");
                           ("input", JStr "p"); ("output", JStr "c")])).
Proof.
  assert (Convert.to_instruction Examples.completion
          = ok (Some (JDict [("instruction", JStr "Follow the user request.");
                             ("input", JStr "p"); ("output", JStr "c")]))) as Hconv
    by (vm_compute; reflexivity).
  split; [exact Hconv|].
  destruct (to_instruction_idempotent _ _ Hconv)
    as (a & b & c & Hout & Hagain & _).
  exists a, b, c. split; [exact Hout|exact Hagain].
Defined.

(** A record with both pairs of fields. *)
Lemma converters_prefer_different_fields_witness :
  @Convert.to_chat Examples.runtime (JDict Examples.both_pairs_dict)
  = ok (Some (JDict [("messages",
                      JList [JDict [("role", JStr "user"); ("content", JStr "u")];
                             JDict [("role", JStr "assistant"); ("content", JStr "a")]])]))
  ∧ Convert.to_instruction (JDict Examples.both_pairs_dict)
    = ok (Some (JDict [("instruction", JStr "Follow the user request.");
                       ("input", JStr "p"); ("output", JStr "c")])).
Proof.
  apply (@converters_prefer_different_fields Examples.runtime Examples.both_pairs_dict
           "u" "a" "p" "c"); try reflexivity; discriminate.
Defined.

(** A conversion to chat of four lines, two of which are converted. *)
Lemma convert_writes_converted_records_witness :
  tree Examples.convert_world
  ∧ can_create Examples.convert_world "out.jsonl"
  ∧ files Examples.convert_world !! "in.jsonl" = Some Examples.convertible
  ∧ Forall (@Convert.object_or_none Examples.runtime) (Py.file_lines Examples.convertible)
  ∧ ∃ w', @Convert.main Examples.runtime Examples.convert_args Examples.convert_world
          = (inr (), w')
          ∧ files w' !! "out.jsonl" = Some (Examples.file_of [Examples.chat; Examples.chat])
          ∧ last (trace w') = Some (EvStderr "converted: in=4 out=2").
Proof.
  assert (tree Examples.convert_world) as Htree by (apply tree_checked; checked).
  assert (can_create Examples.convert_world (Convert.out Examples.convert_args)) as Hcreate
    by (apply can_create_checked; [reflexivity|checked|reflexivity]).
  assert (Convert.inp Examples.convert_args ≠ Convert.out Examples.convert_args) as Hne
    by discriminate.
  assert (files Examples.convert_world !! Convert.inp Examples.convert_args
          = Some Examples.convertible) as Hfile by reflexivity.
  assert (Forall (@Convert.object_or_none Examples.runtime)
            (Py.file_lines Examples.convertible)) as Hobj.
  { let l := eval vm_compute in (Py.file_lines Examples.convertible) in
    change (Py.file_lines Examples.convertible) with l.
    repeat (apply List.Forall_cons; [vm_compute; exact I|]). apply List.Forall_nil. }
  assert (Py.surrogate_free
            (@jsonl Examples.runtime
               (omap (@Convert.converted Examples.runtime
                        (Convert.mode_of Examples.convert_args))
                  (Py.file_lines Examples.convertible))) = true) as Hfree
    by (vm_compute; reflexivity).
  split; [exact Htree|]. split; [exact Hcreate|].
  split; [exact Hfile|]. split; [exact Hobj|].
  destruct (@convert_writes_converted_records Examples.runtime Examples.convert_args
              Examples.convert_world Examples.convertible Htree Hcreate Hne Hfile Hobj Hfree)
    as (w' & Hmain & Hfiles & Hlast & _).
  exists w'. split; [exact Hmain|]. split.
  - rewrite Hfiles. apply lookup_insert_eq.
  - exact Hlast.
Defined.


(** The deduplicator on six lines that are not blank, three of which are kept. *)
Lemma dedupe_reports_its_counts_witness :
  tree Examples.dedupe_world
  ∧ can_create Examples.dedupe_world "out.jsonl"
  ∧ files Examples.dedupe_world !! "in.jsonl" = Some Reference.with_duplicates
  ∧ Forall (@Dedupe.encodable Examples.runtime)
      (@Dedupe.parseable Examples.runtime (Py.file_lines Reference.with_duplicates))
  ∧ ∃ w', @Dedupe.main Examples.runtime Examples.dedupe_args Examples.dedupe_world
          = (inr (), w')
          ∧ files w' !! "out.jsonl"
            = Some (Examples.file_of [Reference.rec_a1; Reference.rec_b; Reference.rec_a2])
          ∧ last (trace w') = Some (EvStderr "dedupe: in=6 out=3").
Proof.
  assert (tree Examples.dedupe_world) as Htree by (apply tree_checked; checked).
  assert (can_create Examples.dedupe_world (Dedupe.out Examples.dedupe_args)) as Hcreate
    by (apply can_create_checked; [reflexivity|checked|reflexivity]).
  assert (Dedupe.inp Examples.dedupe_args ≠ Dedupe.out Examples.dedupe_args) as Hne
    by discriminate.
  assert (files Examples.dedupe_world !! Dedupe.inp Examples.dedupe_args
          = Some Reference.with_duplicates) as Hfile by reflexivity.
  assert (Forall (@Dedupe.encodable Examples.runtime)
            (@Dedupe.parseable Examples.runtime (Py.file_lines Reference.with_duplicates)))
    as Henc.
  { let l := eval vm_compute in
      (@Dedupe.parseable Examples.runtime (Py.file_lines Reference.with_duplicates)) in
    change (@Dedupe.parseable Examples.runtime (Py.file_lines Reference.with_duplicates))
      with l.
    repeat (apply List.Forall_cons; [vm_compute; reflexivity|]). apply List.Forall_nil. }
  split; [exact Htree|]. split; [exact Hcreate|]. split; [exact Hfile|].
  split; [exact Henc|].
  destruct (@dedupe_reports_its_counts Examples.runtime Examples.dedupe_args
              Examples.dedupe_world Reference.with_duplicates Htree Hcreate Hne Hfile Henc)
    as (w' & st & Hmain & _ & Hfiles & Hlast & _).
  exists w'. split; [exact Hmain|]. split.
  - rewrite Hfiles. apply lookup_insert_eq.
  - exact Hlast.
Defined.

(** The statistics of four records, three of them labelled. *)
Lemma stats_counts_every_record_witness :
  @Stats.run Examples.runtime Examples.stats_args Stats.init Examples.labelled
  = ok Examples.stats_final
  ∧ Stats.n Examples.stats_final = 4
  ∧ Stats.label_counts Examples.stats_final = [("a", 2%Z); ("b", 1%Z)]
  ∧ Stats.n_missing_label Examples.stats_final = 1
  ∧ length (Stats.lengths Examples.stats_final) = Stats.n Examples.stats_final.
Proof.
  assert (@Stats.run Examples.runtime Examples.stats_args Stats.init Examples.labelled
          = ok Examples.stats_final) as Hrun by (vm_compute; reflexivity).
  split; [exact Hrun|]. split; [reflexivity|]. split; [reflexivity|]. split; [reflexivity|].
  exact (proj1 (proj2 (@stats_counts_every_record Examples.runtime Examples.stats_args
                         Examples.labelled Examples.stats_final Hrun))).
Defined.

(** The labels of that report. *)
Lemma label_counts_sorted_by_count_witness :
  Stats.label_path_given Examples.stats_args = Some "g"
  ∧ ∃ items,
      Stats.labels Examples.stats_args Examples.stats_final
      = JDict [("label_path", JStr "g");
               ("missing", JInt (Z.of_nat (Stats.n_missing_label Examples.stats_final)));
               ("counts", JDict (map (λ kv, (kv.1, JInt kv.2)) items))]
      ∧ StronglySorted Stats.by_count items.
Proof.
  assert (Stats.label_path_given Examples.stats_args = Some "g") as Hpath by reflexivity.
  split; [exact Hpath|].
  destruct (label_counts_sorted_by_count Examples.stats_args Examples.stats_final "g" Hpath)
    as (items & Hlabels & _ & Hsorted & _).
  exists items. split; [exact Hlabels|exact Hsorted].
Defined.

(** The statistics of a conversation followed by an array. *)
Lemma stats_stops_on_record_that_is_not_object_witness :
  Py.file_lines Examples.with_array
  = Py.file_lines (Examples.file_of [Examples.chat])
    ++ [@json_dumps Examples.runtime false Examples.array +:+ Py.NL]
  ∧ ∃ w', @Stats.main Examples.runtime Examples.stats_args Examples.array_world
          = (inl AttributeError, w')
          ∧ files w' = files Examples.array_world.
Proof.
  assert (files Examples.array_world !! Stats.inp Examples.stats_args
          = Some Examples.with_array) as Hfile by reflexivity.
  assert (Py.file_lines Examples.with_array
          = Py.file_lines (Examples.file_of [Examples.chat])
            ++ [@json_dumps Examples.runtime false Examples.array +:+ Py.NL]) as Hlines
    by (vm_compute; reflexivity).
  assert (@Stats.run Examples.runtime Examples.stats_args Stats.init
            (Py.file_lines (Examples.file_of [Examples.chat]))
          = ok Examples.after_chat_stats) as Hrun by (vm_compute; reflexivity).
  assert (@record_of Examples.runtime
            (@json_dumps Examples.runtime false Examples.array +:+ Py.NL)
          = Some Examples.array) as Hrec by (vm_compute; reflexivity).
  split; [exact Hlines|].
  apply (@stats_stops_on_record_that_is_not_object Examples.runtime Examples.stats_args
           Examples.array_world Examples.with_array _ _ _ _ Examples.array
           Hfile Hlines Hrun Hrec).
  discriminate.
Defined.

(** The group-aware splitter on four records in three groups. *)
Lemma group_split_keeps_every_record_witness :
  @GroupSplit.split_lines Examples.runtime Reference.split_half Reference.three_groups
  = ok Reference.alloc_half
  ∧ PrimFloat.leb 0 (GroupSplit.train Reference.split_half) = true
  ∧ PrimFloat.leb 0 (GroupSplit.val Reference.split_half) = true
  ∧ length (GroupSplit.train_lines Reference.alloc_half)
    + length (GroupSplit.val_lines Reference.alloc_half)
    + length (GroupSplit.test_lines Reference.alloc_half)
    = (@GroupSplit.read_groups Examples.runtime "g" Reference.three_groups).2.
Proof.
  assert (@GroupSplit.split_lines Examples.runtime Reference.split_half
            Reference.three_groups = ok Reference.alloc_half) as Hrun
    by (vm_compute; reflexivity).
  assert (PrimFloat.leb 0 (GroupSplit.train Reference.split_half) = true) as Htrain
    by reflexivity.
  assert (PrimFloat.leb 0 (GroupSplit.val Reference.split_half) = true) as Hval
    by reflexivity.
  split; [exact Hrun|]. split; [exact Htrain|]. split; [exact Hval|].
  exact (proj2 (proj2 (@group_split_keeps_every_record Examples.runtime
                         Reference.split_half Reference.three_groups Reference.alloc_half
                         Hrun Htrain Hval))).
Defined.

(** The two records of the group in the test partition. *)
Lemma groups_stay_together_witness :
  @GroupSplit.split_lines Examples.runtime Reference.split_half Reference.three_groups
  = ok Reference.alloc_half
  ∧ GroupSplit.test_lines Reference.alloc_half
    = mjoin (map (λ k, @GroupSplit.members Examples.runtime "g" k Reference.three_groups)
               (GroupSplit.test_keys Reference.alloc_half))
  ∧ GroupSplit.test_keys Reference.alloc_half = ["a"]
  ∧ length (GroupSplit.test_lines Reference.alloc_half) = 2.
Proof.
  assert (@GroupSplit.split_lines Examples.runtime Reference.split_half
            Reference.three_groups = ok Reference.alloc_half) as Hrun
    by (vm_compute; reflexivity).
  split; [exact Hrun|].
  split; [|split; reflexivity].
  exact (proj1 (proj2 (proj2 (@groups_stay_together Examples.runtime Reference.split_half
                                 Reference.three_groups Reference.alloc_half Hrun)))).
Defined.

(** The files of that split. *)
Lemma group_split_files_partition_groups_witness :
  tree Examples.groups_world
  ∧ can_make Examples.groups_world "out"
  ∧ files Examples.groups_world !! "in.jsonl" = Some Examples.groups_text
  ∧ @GroupSplit.split_lines Examples.runtime Reference.split_half
      (Py.file_lines Examples.groups_text) = ok Reference.alloc_half
  ∧ ∃ w' train val test,
      @GroupSplit.main Examples.runtime Reference.split_half Examples.groups_world
      = (inr (), w')
      ∧ files w' !! "out/train.jsonl" = Some train
      ∧ files w' !! "out/val.jsonl" = Some val
      ∧ files w' !! "out/test.jsonl" = Some test
      ∧ @GroupSplit.groups_in Examples.runtime "g" (Py.file_lines train)
        ## @GroupSplit.groups_in Examples.runtime "g" (Py.file_lines test).
Proof.
  assert (tree Examples.groups_world) as Htree by (apply tree_checked; checked).
  assert (can_make Examples.groups_world (GroupSplit.outdir Reference.split_half)) as Hmake
    by (apply can_make_checked; [reflexivity|checked]).
  assert (no_directory_at Examples.groups_world (GroupSplit.train_path Reference.split_half))
    as Hf1 by (apply no_directory_at_checked; checked).
  assert (no_directory_at Examples.groups_world (GroupSplit.val_path Reference.split_half))
    as Hf2 by (apply no_directory_at_checked; checked).
  assert (no_directory_at Examples.groups_world (GroupSplit.test_path Reference.split_half))
    as Hf3 by (apply no_directory_at_checked; checked).
  assert (fractions_off (GroupSplit.train Reference.split_half)
            (GroupSplit.val Reference.split_half) (GroupSplit.test Reference.split_half)
          = false) as Hsum by reflexivity.
  assert (files Examples.groups_world !! GroupSplit.inp Reference.split_half
          = Some Examples.groups_text) as Hfile by reflexivity.
  assert (@GroupSplit.split_lines Examples.runtime Reference.split_half
            (Py.file_lines Examples.groups_text) = ok Reference.alloc_half) as Hrun
    by (vm_compute; reflexivity).
  assert (PrimFloat.leb 0 (GroupSplit.train Reference.split_half) = true) as Htrain
    by reflexivity.
  assert (PrimFloat.leb 0 (GroupSplit.val Reference.split_half) = true) as Hval
    by reflexivity.
  split; [exact Htree|]. split; [exact Hmake|].
  split; [exact Hfile|]. split; [exact Hrun|].
  destruct (@group_split_files_partition_groups Examples.runtime Reference.split_half
              Examples.groups_world Examples.groups_text Reference.alloc_half
              Htree Hmake Hf1 Hf2 Hf3 Hsum Hfile Hrun Htrain Hval)
    as (w' & train & val & test & Hmain & Htr & Hva & Hte & _ & _ & _ & _ & Hd & _).
  exists w', train, val, test.
  split; [exact Hmain|]. split; [exact Htr|]. split; [exact Hva|]. split; [exact Hte|].
  exact Hd.
Defined.

(** The plain splitter on four lines and the fractions 0.5, 0.5 and 0. *)
Lemma split_keeps_every_line_witness :
  tree Examples.groups_world
  ∧ can_make Examples.groups_world "out"
  ∧ files Examples.groups_world !! "in.jsonl" = Some Examples.groups_text
  ∧ int_of_product 4 (Split.train Examples.split_args) = ok 2%Z
  ∧ int_of_product 4 (Split.val Examples.split_args) = ok 2%Z
  ∧ ∃ w',
      @Split.main Examples.runtime Examples.split_args Examples.groups_world = (inr (), w')
      ∧ files w' !! "out/test.jsonl" = Some "".
Proof.
  assert (tree Examples.groups_world) as Htree by (apply tree_checked; checked).
  assert (can_make Examples.groups_world (Split.outdir Examples.split_args)) as Hmake
    by (apply can_make_checked; [reflexivity|checked]).
  assert (no_directory_at Examples.groups_world
            (os_path_join (Split.outdir Examples.split_args) "train.jsonl"))
    as Hf1 by (apply no_directory_at_checked; checked).
  assert (no_directory_at Examples.groups_world
            (os_path_join (Split.outdir Examples.split_args) "val.jsonl"))
    as Hf2 by (apply no_directory_at_checked; checked).
  assert (no_directory_at Examples.groups_world
            (os_path_join (Split.outdir Examples.split_args) "test.jsonl"))
    as Hf3 by (apply no_directory_at_checked; checked).
  assert (fractions_off (Split.train Examples.split_args) (Split.val Examples.split_args)
            (Split.test Examples.split_args) = false) as Hsum by reflexivity.
  assert (files Examples.groups_world !! Split.inp Examples.split_args
          = Some Examples.groups_text) as Hfile by reflexivity.
  assert (int_of_product
            (length (@shuffle Examples.runtime _ (Split.seed Examples.split_args)
                       (filter (λ ln, Py.is_empty (Py.strip ln) = false)
                          (Py.file_lines Examples.groups_text))))
            (Split.train Examples.split_args) = ok 2%Z) as Hnt by (vm_compute; reflexivity).
  assert (int_of_product
            (length (@shuffle Examples.runtime _ (Split.seed Examples.split_args)
                       (filter (λ ln, Py.is_empty (Py.strip ln) = false)
                          (Py.file_lines Examples.groups_text))))
            (Split.val Examples.split_args) = ok 2%Z) as Hnv by (vm_compute; reflexivity).
  assert (PrimFloat.leb 0 (Split.train Examples.split_args) = true) as Htrain by reflexivity.
  assert (PrimFloat.leb 0 (Split.val Examples.split_args) = true) as Hval by reflexivity.
  split; [exact Htree|]. split; [exact Hmake|].
  split; [exact Hfile|]. split; [vm_compute; reflexivity|]. split; [vm_compute; reflexivity|].
  destruct (@split_keeps_every_line Examples.runtime Examples.split_args
              Examples.groups_world Examples.groups_text 2 2
              Htree Hmake Hf1 Hf2 Hf3 Hsum Hfile Hnt Hnv Htrain Hval)
    as (_ & _ & _ & _ & w' & Hmain & Hfiles).
  exists w'. split; [exact Hmain|].
  rewrite Hfiles, lookup_insert_eq. vm_compute. reflexivity.
Defined.

(** A harvest into a file inside a directory. *)
Lemma harvest_appends_one_line_per_failure_witness :
  tree Reference.retrain_world
  ∧ can_make Reference.retrain_world "data"
  ∧ no_directory_at Reference.retrain_world "data/failures.jsonl"
  ∧ @json_loads Reference.runtime (@json_dumps Reference.runtime false Reference.summary_bad)
    = Some (JDict Examples.summary_dict)
  ∧ @Retrain.read_summary Reference.runtime (JDict Examples.summary_dict)
    = ok Examples.summary_readings
  ∧ @Retrain.triggered Reference.runtime Examples.retrain_args Examples.summary_readings = true
  ∧ length (Retrain.failing Examples.details) = 2
  ∧ ∃ w', @Retrain.main Reference.runtime Examples.retrain_args Reference.retrain_world
          = (inl (SysExit 1), w')
          ∧ clock w' = 2.
Proof.
  assert (tree Reference.retrain_world) as Htree by (apply tree_checked; checked).
  assert (normal_path "data/failures.jsonl" = true) as Hpath by reflexivity.
  assert (can_make Reference.retrain_world (os_path_dirname "data/failures.jsonl")) as Hmake
    by (apply can_make_checked; [reflexivity|checked]).
  assert (no_directory_at Reference.retrain_world "data/failures.jsonl") as Hnodir
    by (apply no_directory_at_checked; checked).
  assert (files Reference.retrain_world !! Retrain.results Examples.retrain_args
          = Some (@json_dumps Reference.runtime false Reference.summary_bad)) as Hfile
    by reflexivity.
  assert (@json_loads Reference.runtime
            (@json_dumps Reference.runtime false Reference.summary_bad)
          = Some (JDict Examples.summary_dict)) as Hload by (vm_compute; reflexivity).
  assert (@Retrain.read_summary Reference.runtime (JDict Examples.summary_dict)
          = ok Examples.summary_readings) as Hread by (vm_compute; reflexivity).
  assert (Retrain.out_given Examples.retrain_args = Some "data/failures.jsonl") as Hout
    by reflexivity.
  assert (dict_get_or Examples.summary_dict "details" (JList []) = JList Examples.details)
    as Hdetails by reflexivity.
  assert (Retrain.all_objects Examples.details) as Hobj.
  { unfold Retrain.all_objects.
    let l := eval vm_compute in Examples.details in change Examples.details with l.
    repeat (apply List.Forall_cons; [eexists; reflexivity|]). apply List.Forall_nil. }
  assert (Py.surrogate_free
            (@jsonl Reference.runtime
               (imap (λ i entry, @Retrain.row Reference.runtime entry
                                   (@utc_isoformat Reference.runtime
                                      (clock Reference.retrain_world + i)))
                  (Retrain.failing Examples.details))) = true) as Hfree
    by (vm_compute; reflexivity).
  assert (@Retrain.triggered Reference.runtime Examples.retrain_args
            Examples.summary_readings = true) as Ht by reflexivity.
  split; [exact Htree|]. split; [exact Hmake|]. split; [exact Hnodir|].
  split; [exact Hload|]. split; [exact Hread|]. split; [exact Ht|]. split; [reflexivity|].
  destruct (@harvest_appends_one_line_per_failure Reference.runtime Examples.retrain_args
              Reference.retrain_world _ Examples.summary_dict Examples.summary_readings
              "data/failures.jsonl" Examples.details
              Htree Hpath Hmake Hnodir Hfile Hload Hread Hout Hdetails Hobj Hfree)
    as (Hyes & _).
  destruct (Hyes Ht) as (w' & Hmain & _ & Hclock).
  exists w'. split; [exact Hmain|exact Hclock].
Defined.

(** The retrain trigger on a file that is not JSON. *)
Lemma unreadable_summary_stops_the_run_witness :
  files Examples.validate_world !! "in.jsonl" = Some Examples.mixed
  ∧ @json_loads Examples.runtime Examples.mixed = None
  ∧ ∃ w', @Retrain.main Examples.runtime
            (Retrain.Args "in.jsonl" None 0.95%float 0.10%float) Examples.validate_world
          = (inl JSONDecodeError, w')
          ∧ files w' = files Examples.validate_world.
Proof.
  assert (files Examples.validate_world
          !! Retrain.results (Retrain.Args "in.jsonl" None 0.95%float 0.10%float)
          = Some Examples.mixed) as Hfile by reflexivity.
  assert (@json_loads Examples.runtime Examples.mixed = None) as Hload
    by (vm_compute; reflexivity).
  split; [exact Hfile|]. split; [exact Hload|].
  destruct (@unreadable_summary_stops_the_run Examples.runtime _ _ _ Hfile) as (Hnone & _).
  destruct (Hnone Hload) as (w' & Hmain & Hfiles & _).
  exists w'. split; [exact Hmain|exact Hfiles].
Defined.
